(** * YaMDb: authorization and validation core

    A shallow embedding of the review-catalog API (reviews/models.py,
    api/permissions.py, api/serializers.py, api/views.py) and the
    properties of its permission rules, uniqueness checks and token flow.

    The persistent store is a record of tables (lists of rows); request
    handlers are computations in a state-and-exception monad over it, so
    that "nothing was written" is a statement about the final store. *)

From Stdlib Require Import ZArith List String Ascii Bool Lia QArith.
Import ListNotations.

Local Open Scope Z_scope.
Local Open Scope string_scope.
Local Open Scope list_scope.

(* ================================================================= *)
(** ** Python string helpers *)

Module Py.

(** [str.lower] on the ASCII range. *)
Definition lower_ascii (c : ascii) : ascii :=
  let n := nat_of_ascii c in
  if andb (Nat.leb 65 n) (Nat.leb n 90) then ascii_of_nat (n + 32) else c.

Fixpoint lower (s : string) : string :=
  match s with
  | EmptyString => EmptyString
  | String c r => String (lower_ascii c) (lower r)
  end.

(** The characters [str.strip] removes, on the ASCII range: the blank,
    the controls 9 to 13 and the separators 28 to 31. *)
Definition is_space (c : ascii) : bool :=
  let n := nat_of_ascii c in
  orb (Nat.eqb n 32)
      (orb (andb (Nat.leb 9 n) (Nat.leb n 13))
           (andb (Nat.leb 28 n) (Nat.leb n 31))).

Fixpoint lstrip (s : string) : string :=
  match s with
  | EmptyString => EmptyString
  | String c r => if is_space c then lstrip r else s
  end.

Fixpoint rstrip (s : string) : string :=
  match s with
  | EmptyString => EmptyString
  | String c r =>
      match rstrip r with
      | EmptyString => if is_space c then EmptyString else String c EmptyString
      | r' => String c r'
      end
  end.

Definition strip (s : string) : string := rstrip (lstrip s).

(** [x in xs] for strings. *)
Definition str_in (x : string) (xs : list string) : bool :=
  existsb (String.eqb x) xs.

End Py.

(* ================================================================= *)
(** ** reviews/models.py *)

Module Models.

Definition ADMIN : string := "admin".
Definition MODERATOR : string := "moderator".
Definition USER : string := "user".
Definition ROLES : list string := [ADMIN; MODERATOR; USER].

(** [User(AbstractUser)]: the inherited columns the API touches, and
    the three columns the class adds. *)
Record User : Type := mkUser {
  user_id : Z;
  username : string;
  email : string;
  first_name : string;
  last_name : string;
  is_superuser : bool;
  bio : option string;
  role : string;
  confirmation_code : string
}.

Definition is_moderator (u : User) : bool := role u =? MODERATOR.
Definition is_admin (u : User) : bool := role u =? ADMIN.

Record Genre : Type := mkGenre {
  genre_id : Z; genre_name : string; genre_slug : string }.

Record Category : Type := mkCategory {
  category_id : Z; category_name : string; category_slug : string }.

Record Title : Type := mkTitle {
  title_id : Z;
  title_name : string;
  title_year : Z;
  title_category : option Z;      (* ForeignKey, SET_NULL *)
  title_genre : list Z;           (* ManyToManyField *)
  title_rating : Z;               (* IntegerField(default=10) *)
  title_description : option string
}.

Record Review : Type := mkReview {
  review_id : Z;
  review_title : Z;               (* ForeignKey(Title) *)
  review_text : string;
  review_author : Z;              (* ForeignKey(User) *)
  review_score : Z;
  review_pub_date : Z
}.

Record Comment : Type := mkComment {
  comment_id : Z;
  comment_review : Z;
  comment_text : string;
  comment_author : Z;
  comment_pub_date : Z
}.

(** Resources with an [author] foreign key ([obj.author]). *)
Class Authored (A : Type) : Type := author : A -> Z.
#[export] Instance Review_Authored : Authored Review := review_author.
#[export] Instance Comment_Authored : Authored Comment := comment_author.

(** [MaxValueValidator(limit)(value)] and [MinValueValidator]: the
    value is rejected when it compares beyond the limit. *)
Definition MaxValueValidator (limit value : Z) : bool := negb (limit <? value)%Z.
Definition MinValueValidator (limit value : Z) : bool := negb (value <? limit)%Z.

(** [max_value_current_year(value)], given what [current_year()]
    returns at the time of the call. *)
Definition max_value_current_year (current_year value : Z) : bool :=
  MaxValueValidator current_year value.

(** The check constraint [username_is_not_me]:
    [~Q(username__iexact="me")]. *)
Definition username_is_not_me (name : string) : bool :=
  negb (Py.lower name =? "me").

End Models.

Import Models.

(* ================================================================= *)
(** ** The store and the handler monad *)

Record Mail : Type := mkMail {
  mail_subject : string; mail_message : string; mail_to : list string }.

Record World : Type := mkWorld {
  users : list User;
  categories : list Category;
  genres : list Genre;
  titles : list Title;
  reviews : list Review;
  outbox : list Mail;              (* what send_mail handed to the transport *)
  clock_year : Z;                  (* datetime.date.today().year *)
  clock_now : Z                    (* timestamp used by auto_now_add *)
}.

Definition set_users (w : World) (us : list User) : World :=
  mkWorld us (categories w) (genres w) (titles w) (reviews w)
          (outbox w) (clock_year w) (clock_now w).
Definition set_titles (w : World) (ts : list Title) : World :=
  mkWorld (users w) (categories w) (genres w) ts (reviews w)
          (outbox w) (clock_year w) (clock_now w).
Definition set_reviews (w : World) (rs : list Review) : World :=
  mkWorld (users w) (categories w) (genres w) (titles w) rs
          (outbox w) (clock_year w) (clock_now w).
Definition set_outbox (w : World) (ms : list Mail) : World :=
  mkWorld (users w) (categories w) (genres w) (titles w) (reviews w)
          ms (clock_year w) (clock_now w).

(** Field-level detail of a validation failure: (field, message). *)
Definition ErrorDetail : Type := list (string * string).

Inductive exn : Type :=
| ValidationError (detail : ErrorDetail)
| NotAuthenticated
| PermissionDenied (message : string)
| Http404
| IntegrityError (constraint : string)
| AttributeError (attribute : string)
| TypeError (message : string).

Inductive result (A : Type) : Type :=
| Ok (a : A)
| Raise (e : exn).
Arguments Ok {A} a.
Arguments Raise {A} e.

(** The status the framework's exception handler answers with.
    [NotAuthenticated] is answered 401 where the first authentication
    class sends a [WWW-Authenticate] header, as the JWT authentication
    does that the tokens of [get_jwt_token] are issued for. *)
Definition status_of_exn (e : exn) : Z :=
  match e with
  | ValidationError _ => 400
  | NotAuthenticated => 401
  | PermissionDenied _ => 403
  | Http404 => 404
  | IntegrityError _ => 500
  | AttributeError _ => 500
  | TypeError _ => 500
  end.

Definition M (A : Type) : Type := World -> result A * World.

Definition ret {A} (a : A) : M A := fun w => (Ok a, w).
Definition raise {A} (e : exn) : M A := fun w => (Raise e, w).
Definition bind {A B} (m : M A) (k : A -> M B) : M B :=
  fun w => match m w with
           | (Ok a, w') => k a w'
           | (Raise e, w') => (Raise e, w')
           end.
Definition get_world : M World := fun w => (Ok w, w).
Definition put_world (w' : World) : M unit := fun _ => (Ok tt, w').
Definition lift {A} (r : result A) : M A := fun w => (r, w).

Declare Scope handler_scope.
Delimit Scope handler_scope with handler.
Notation "x <- m ;; k" := (bind m (fun x => k))
  (at level 100, m at next level, right associativity) : handler_scope.
Notation "m ;; k" := (bind m (fun _ => k))
  (at level 100, right associativity) : handler_scope.
Local Open Scope handler_scope.

(** [get_object_or_404(queryset)]: the row of a lookup on a unique key. *)
Definition get_object_or_404 {A} (p : A -> bool) (table : list A) : result A :=
  match find p table with
  | Some x => Ok x
  | None => Raise Http404
  end.

(** Next value of an auto-increment primary key. *)
Definition next_id {A} (pk : A -> Z) (table : list A) : Z :=
  1 + fold_right Z.max 0 (map pk table).
Arguments next_id : simpl never.

(* ================================================================= *)
(** ** api/permissions.py *)

(** [request.user]: an [AnonymousUser] or a stored [User]. *)
Inductive RequestUser : Type :=
| AnonymousUser
| Authenticated (u : User).

Definition is_authenticated (ru : RequestUser) : bool :=
  match ru with AnonymousUser => false | Authenticated _ => true end.

Record Request : Type := mkRequest {
  method : string;
  user : RequestUser
}.

Module Permissions.

Definition SAFE_METHODS : list string := ["GET"; "HEAD"; "OPTIONS"].

Definition is_safe (m : string) : bool := Py.str_in m SAFE_METHODS.

Module IsAdmin.
Definition has_permission (request : Request) : bool :=
  match user request with
  | AnonymousUser => false
  | Authenticated u => is_admin u || is_superuser u
  end.
End IsAdmin.

Module IsAdminOrReadOnly.
Definition message : string :=
  "Данное действие разрешено только администратору!".

Definition has_permission (request : Request) : bool :=
  if is_safe (method request) then true
  else match user request with
       | AnonymousUser => false
       | Authenticated u => is_admin u || is_superuser u
       end.
End IsAdminOrReadOnly.

Module IsStaffOrAuthorOrReadOnly.
Definition message : string :=
  "Данное действие разрешено администратору, модератору или автору".

Definition has_permission (request : Request) : bool :=
  is_safe (method request) || is_authenticated (user request).

(** [AnonymousUser] has [is_superuser = False] and no [is_admin]. *)
Definition has_object_permission {A} `{Authored A}
    (request : Request) (obj : A) : result bool :=
  if is_safe (method request) then Ok true
  else match user request with
       | AnonymousUser => Raise (AttributeError "is_admin")
       | Authenticated u =>
           Ok (is_superuser u || is_admin u || is_moderator u
               || (author obj =? user_id u)%Z)
       end.
End IsStaffOrAuthorOrReadOnly.

Module IsAuthenticated.
Definition has_permission (request : Request) : bool :=
  is_authenticated (user request).
End IsAuthenticated.

End Permissions.

(** The outcome of the authorization engine for one request. *)
Inductive decision : Type :=
| allow
| deny (reason : string).

(** [APIView.check_permissions] for a single permission class. *)
Definition check_permissions (granted : bool) (message : string) : decision :=
  if granted then allow else deny message.

(** [APIView.permission_denied]: a request that no authentication class
    authenticated is answered [NotAuthenticated]; any other request is
    answered [PermissionDenied] with the message of the permission
    class. *)
Definition permission_denied (request : Request) (message : string) : exn :=
  match user request with
  | AnonymousUser => NotAuthenticated
  | Authenticated _ => PermissionDenied message
  end.

(** Turning a decision into control flow. *)
Definition enforce (request : Request) (d : decision) : M unit :=
  match d with
  | allow => ret tt
  | deny reason => raise (permission_denied request reason)
  end.

(* ================================================================= *)
(** ** Collaborators consumed through narrow interfaces *)

(** Framework functions the handlers call but do not define: the e-mail
    and user-name format validators, the confirmation-code generator
    ([default_token_generator]), the access-token mint
    ([AccessToken.for_user], which stamps the token with the time of the
    call and with an identifier drawn for this token, and signs both with
    the key of the user), and the year [current_year()] returned when
    the models module was loaded (the column default of [Title.year]). *)
Class Env : Type := {
  EmailValidator : string -> bool;
  UnicodeUsernameValidator : string -> bool;
  make_token : Z -> User -> string;
  check_token : Z -> User -> string -> bool;
  AccessToken_for_user : Z -> string -> User -> string;
  startup_year : Z
}.

(* ================================================================= *)
(** ** Serializer fields *)

Module Fields.

(** What one field makes of the submitted data. *)
Inductive field (A : Type) : Type :=
| Absent
| Valid (a : A)
| Invalid (message : string).
Arguments Absent {A}.
Arguments Valid {A} a.
Arguments Invalid {A} message.

Definition validator (A : Type) : Type := ((A -> bool) * string)%type.

Fixpoint run_validators {A} (vs : list (validator A)) (a : A) : field A :=
  match vs with
  | [] => Valid a
  | (accepts, message) :: rest =>
      if accepts a then run_validators rest a else Invalid message
  end.

(** A field that was not submitted: an error when required (and the
    serializer is not partial), skipped otherwise. *)
Definition run_field {A B} (required partial : bool)
    (run_validation : A -> field B) (data : option A) : field B :=
  match data with
  | None => if required && negb partial
            then Invalid "This field is required." else Absent
  | Some a => run_validation a
  end.

Fixpoint has_null (s : string) : bool :=
  match s with
  | EmptyString => false
  | String c r => (c =? zero)%char || has_null r
  end.

Definition ProhibitNullCharactersValidator : validator string :=
  (fun v => negb (has_null v), "Null characters are not allowed.").

(** [CharField.run_validation]: white space is trimmed, a blank value
    is refused unless [allow_blank]; otherwise the validators of the
    field run, the one every [CharField] adds last. *)
Definition CharField (allow_blank : bool) (vs : list (validator string))
    (data : string) : field string :=
  let value := Py.strip data in
  if value =? "" then
    if allow_blank then Valid "" else Invalid "This field may not be blank."
  else run_validators (vs ++ [ProhibitNullCharactersValidator]) value.

Definition MaxLengthValidator (limit : nat) : validator string :=
  (fun v => Nat.leb (String.length v) limit,
   "Ensure this field has no more characters than allowed.").

Definition IntegerField (min_value max_value : option Z)
    (vs : list (validator Z)) (data : Z) : field Z :=
  run_validators
    (match max_value with
     | Some hi => [(MaxValueValidator hi,
                    "Ensure this value is less than or equal to the limit.")]
     | None => []
     end ++
     match min_value with
     | Some lo => [(MinValueValidator lo,
                    "Ensure this value is greater than or equal to the limit.")]
     | None => []
     end ++ vs) data.

Definition ChoiceField (choices : list string) (data : string) : field string :=
  if Py.str_in data choices then Valid data
  else Invalid "Not a valid choice.".

(** [UniqueValidator(queryset)]: no other row holds the value in the
    column (exact match); on update the instance itself is excluded. *)
Definition UniqueValidator {R} (column : R -> string) (pk : R -> Z)
    (queryset : list R) (instance : option Z) : validator string :=
  (fun value =>
     negb (existsb
             (fun row =>
                (column row =? value)
                && match instance with
                   | Some i => negb (pk row =? i)%Z
                   | None => true
                   end)
             queryset),
   "This field must be unique.").

Definition field_error {A} (name : string) (f : field A) : ErrorDetail :=
  match f with
  | Invalid message => [(name, message)]
  | _ => []
  end.

Definition field_value {A} (f : field A) : option A :=
  match f with
  | Valid a => Some a
  | _ => None
  end.

(** [is_valid(raise_exception=True)]: any field error raises. *)
Definition raise_errors {A} (errors : ErrorDetail) (validated : A) : result A :=
  match errors with
  | [] => Ok validated
  | _ :: _ => Raise (ValidationError errors)
  end.

End Fields.

Import Fields.

(* ================================================================= *)
(** ** Writes to the store, with the constraints the schema declares *)

Module Store.

Definition with_default {A} (o : option A) (d : A) : A :=
  match o with Some a => a | None => d end.

(** The constraints on the user table: the check constraint
    [username_is_not_me] and the unique index on [username]. *)
Definition user_constraints (others : list User) (row : User) : result unit :=
  if negb (username_is_not_me (username row))
  then Raise (IntegrityError "username_is_not_me")
  else if existsb (fun r => username r =? username row) others
  then Raise (IntegrityError "username")
  else Ok tt.

(** [User.objects.create(...)]: INSERT, the key is allocated by the
    store. *)
Definition insert_user (name mail first last : string)
    (about : option string) (the_role : string) : M User :=
  w <- get_world ;;
  let row := mkUser (next_id user_id (users w)) name mail first last
                    false about the_role "" in
  lift (user_constraints (users w) row) ;;
  put_world (set_users w (users w ++ [row])) ;;
  ret row.

(** [instance.save()] on a stored user: UPDATE of the row with the
    instance's primary key. *)
Definition update_user (row : User) : M unit :=
  w <- get_world ;;
  lift (user_constraints
          (filter (fun r => negb (user_id r =? user_id row)%Z) (users w)) row) ;;
  put_world
    (set_users w
       (map (fun r => if (user_id r =? user_id row)%Z then row else r)
            (users w))).

Definition insert_title (row : Z -> Title) : M Title :=
  w <- get_world ;;
  let t := row (next_id title_id (titles w)) in
  put_world (set_titles w (titles w ++ [t])) ;;
  ret t.

Definition update_title (row : Title) : M unit :=
  w <- get_world ;;
  put_world
    (set_titles w
       (map (fun r => if (title_id r =? title_id row)%Z then row else r)
            (titles w))).

(** INSERT of a review under the unique constraint [unique_review] on
    (title, author). *)
Definition insert_review (title_pk : Z) (text : string) (author_pk score : Z)
    : M Review :=
  w <- get_world ;;
  let row := mkReview (next_id review_id (reviews w)) title_pk text
                      author_pk score (clock_now w) in
  if existsb (fun r => (review_title r =? title_pk)%Z
                       && (review_author r =? author_pk)%Z) (reviews w)
  then raise (IntegrityError "unique_review")
  else (put_world (set_reviews w (reviews w ++ [row])) ;; ret row).

(** [send_mail(...)]: hands the message to the mail transport. *)
Definition send_mail (subject message : string) (recipient_list : list string)
    : M unit :=
  w <- get_world ;;
  put_world (set_outbox w (outbox w ++ [mkMail subject message recipient_list])).

(** [current_year()]. *)
Definition current_year : M Z :=
  w <- get_world ;; ret (clock_year w).

End Store.

Import Store.

(* ================================================================= *)
(** ** api/serializers.py *)

Module Serializers.
Section WithEnv.
Context {E : Env}.

Definition and_then {A B} (f : field A) (k : A -> field B) : field B :=
  match f with
  | Valid a => k a
  | Absent => Absent
  | Invalid message => Invalid message
  end.

Definition EmailField (allow_blank : bool) (vs : list (validator string))
    : string -> field string :=
  CharField allow_blank (vs ++ [(EmailValidator, "Enter a valid email address.")]).

(** [SlugRelatedField(slug_field, queryset)]: the row with that slug. *)
Definition SlugRelatedField {R} (slug : R -> string) (queryset : list R)
    (data : string) : field R :=
  match find (fun r => slug r =? data) queryset with
  | Some r => Valid r
  | None => Invalid "Object with this slug does not exist."
  end.

Fixpoint ManyRelatedField {R} (child : string -> field R)
    (data : list string) : field (list R) :=
  match data with
  | [] => Valid []
  | d :: rest =>
      and_then (child d) (fun r =>
      and_then (ManyRelatedField child rest) (fun rs => Valid (r :: rs)))
  end.

(** *** GetTokenSerializer *)

Record TokenData : Type := mkTokenData {
  token_username : option string;
  token_confirmation_code : option string }.

Record TokenValidated : Type := mkTokenValidated {
  tv_username : string;
  tv_confirmation_code : string }.

Definition GetTokenSerializer_is_valid (data : TokenData)
    : result TokenValidated :=
  let f_username := run_field true false (CharField false []) (token_username data) in
  let f_code :=
    run_field true false (CharField false []) (token_confirmation_code data) in
  match f_username, f_code with
  | Valid u, Valid c => Ok (mkTokenValidated u c)
  | _, _ => Raise (ValidationError
                     (field_error "username" f_username
                      ++ field_error "confirmation_code" f_code))
  end.

(** *** SignUpSerializer *)

Record SignUpData : Type := mkSignUpData {
  signup_username : option string;
  signup_email : option string }.

Record SignUpValidated : Type := mkSignUpValidated {
  sv_username : string;
  sv_email : string }.

(** The message quotes the name with double quotes in the source. *)
Definition validate_username (value : string) : field string :=
  if Py.lower value =? "me"
  then Invalid "Username 'me' is not valid"
  else Valid value.

Definition SignUpSerializer_is_valid (queryset : list User) (data : SignUpData)
    : result SignUpValidated :=
  let f_username :=
    and_then
      (run_field true false
         (CharField false [UniqueValidator username user_id queryset None])
         (signup_username data))
      validate_username in
  let f_email :=
    run_field true false
      (EmailField false [UniqueValidator email user_id queryset None])
      (signup_email data) in
  match f_username, f_email with
  | Valid u, Valid e => Ok (mkSignUpValidated u e)
  | _, _ => Raise (ValidationError
                     (field_error "username" f_username
                      ++ field_error "email" f_email))
  end.

(** [serializer.save()] without an instance: a new row with the
    model's defaults. *)
Definition SignUpSerializer_save (v : SignUpValidated) : M User :=
  insert_user (sv_username v) (sv_email v) "" "" None USER.

(** *** UserSerializer and UserEditSerializer *)

Record UserData : Type := mkUserData {
  data_username : option string;
  data_email : option string;
  data_first_name : option string;
  data_last_name : option string;
  data_bio : option string;
  data_role : option string }.

(** [validated_data]: the keys that were submitted and accepted. *)
Record UserValidated : Type := mkUserValidated {
  uv_username : option string;
  uv_email : option string;
  uv_first_name : option string;
  uv_last_name : option string;
  uv_bio : option string;
  uv_role : option string }.

Definition pk_of (instance : option User) : option Z :=
  option_map user_id instance.

Definition UserSerializer_is_valid (queryset : list User)
    (instance : option User) (partial : bool) (data : UserData)
    : result UserValidated :=
  let f_username :=
    run_field true partial
      (CharField false
         [UniqueValidator username user_id queryset (pk_of instance)])
      (data_username data) in
  let f_email :=
    run_field true partial
      (EmailField false
         [UniqueValidator email user_id queryset (pk_of instance)])
      (data_email data) in
  let f_first :=
    run_field false partial (CharField true [MaxLengthValidator 150])
      (data_first_name data) in
  let f_last :=
    run_field false partial (CharField true [MaxLengthValidator 150])
      (data_last_name data) in
  let f_bio := run_field false partial (CharField true []) (data_bio data) in
  let f_role := run_field false partial (ChoiceField ROLES) (data_role data) in
  raise_errors
    (field_error "username" f_username ++ field_error "email" f_email
     ++ field_error "first_name" f_first ++ field_error "last_name" f_last
     ++ field_error "bio" f_bio ++ field_error "role" f_role)
    (mkUserValidated (field_value f_username) (field_value f_email)
       (field_value f_first) (field_value f_last)
       (field_value f_bio) (field_value f_role)).

(** The fields are generated from the model; [role] is listed in
    [read_only_fields], so what is submitted for it is not looked at. *)
Definition UserEditSerializer_is_valid (queryset : list User)
    (instance : option User) (partial : bool) (data : UserData)
    : result UserValidated :=
  let f_username :=
    run_field true partial
      (CharField false
         [MaxLengthValidator 150;
          (UnicodeUsernameValidator, "Enter a valid username.");
          UniqueValidator username user_id queryset (pk_of instance)])
      (data_username data) in
  let f_email :=
    run_field false partial (EmailField true [MaxLengthValidator 254])
      (data_email data) in
  let f_first :=
    run_field false partial (CharField true [MaxLengthValidator 150])
      (data_first_name data) in
  let f_last :=
    run_field false partial (CharField true [MaxLengthValidator 150])
      (data_last_name data) in
  let f_bio := run_field false partial (CharField true []) (data_bio data) in
  raise_errors
    (field_error "username" f_username ++ field_error "email" f_email
     ++ field_error "first_name" f_first ++ field_error "last_name" f_last
     ++ field_error "bio" f_bio)
    (mkUserValidated (field_value f_username) (field_value f_email)
       (field_value f_first) (field_value f_last)
       (field_value f_bio) None).

(** [ModelSerializer.update]: every validated key is set on the
    instance. *)
Definition set_attrs (v : UserValidated) (instance : User) : User :=
  mkUser (user_id instance)
         (with_default (uv_username v) (username instance))
         (with_default (uv_email v) (email instance))
         (with_default (uv_first_name v) (first_name instance))
         (with_default (uv_last_name v) (last_name instance))
         (is_superuser instance)
         (match uv_bio v with Some b => Some b | None => bio instance end)
         (with_default (uv_role v) (role instance))
         (confirmation_code instance).

Definition User_save (instance : option User) (v : UserValidated) : M User :=
  match instance with
  | None =>
      insert_user (with_default (uv_username v) "")
                  (with_default (uv_email v) "")
                  (with_default (uv_first_name v) "")
                  (with_default (uv_last_name v) "")
                  (uv_bio v)
                  (with_default (uv_role v) USER)
  | Some u =>
      let u' := set_attrs v u in
      update_user u' ;; ret u'
  end.

(** *** TitlesSerializer *)

Record TitleData : Type := mkTitleData {
  data_name : option string;
  data_year : option Z;
  data_rating : option Z;
  data_description : option string;
  data_category : option string;        (* slug *)
  data_genre : option (list string) }.  (* slugs *)

Record TitleValidated : Type := mkTitleValidated {
  tv_name : option string;
  tv_year : option Z;
  tv_rating : option Z;
  tv_description : option string;
  tv_category : option Category;
  tv_genre : option (list Genre) }.

(** The [year] field is generated from the model column: its
    [MinValueValidator(0)] becomes [min_value], and the function
    [max_value_current_year] stays in the field's validators, where it
    is called with the submitted value on every validation. *)
Definition TitlesSerializer_is_valid (partial : bool) (data : TitleData)
    : M TitleValidated :=
  w <- get_world ;;
  this_year <- current_year ;;
  let f_name := run_field true partial (CharField false []) (data_name data) in
  let f_year :=
    run_field false partial
      (IntegerField (Some 0) None
         [(max_value_current_year this_year,
           "Ensure this value is less than or equal to the current year.")])
      (data_year data) in
  let f_rating :=
    run_field false partial (IntegerField (Some 1) (Some 10) [])
      (data_rating data) in
  let f_description :=
    run_field false partial (CharField true []) (data_description data) in
  let f_category :=
    run_field true partial (SlugRelatedField category_slug (categories w))
      (data_category data) in
  let f_genre :=
    run_field true partial
      (ManyRelatedField (SlugRelatedField genre_slug (genres w)))
      (data_genre data) in
  lift (raise_errors
          (field_error "name" f_name ++ field_error "year" f_year
           ++ field_error "rating" f_rating
           ++ field_error "description" f_description
           ++ field_error "category" f_category
           ++ field_error "genre" f_genre)
          (mkTitleValidated (field_value f_name) (field_value f_year)
             (field_value f_rating) (field_value f_description)
             (field_value f_category) (field_value f_genre))).

(** [ModelSerializer.update]: every validated key is set on the
    instance; [instance.genre.set(...)] leaves one link per genre in the
    many-to-many table, however often a slug was submitted. *)
Definition Title_set_attrs (v : TitleValidated) (instance : Title) : Title :=
  mkTitle (title_id instance)
          (with_default (tv_name v) (title_name instance))
          (with_default (tv_year v) (title_year instance))
          (match tv_category v with
           | Some c => Some (category_id c)
           | None => title_category instance
           end)
          (match tv_genre v with
           | Some gs => nodup Z.eq_dec (map genre_id gs)
           | None => title_genre instance
           end)
          (with_default (tv_rating v) (title_rating instance))
          (match tv_description v with
           | Some d => Some d
           | None => title_description instance
           end).

Definition TitlesSerializer_save (instance : option Title) (v : TitleValidated)
    : M Title :=
  match instance with
  | None =>
      insert_title (fun pk =>
        Title_set_attrs v (mkTitle pk "" startup_year None [] 10 None))
  | Some t =>
      let t' := Title_set_attrs v t in
      update_title t' ;; ret t'
  end.

(** *** ReadOnlyTitleSerializer *)

(** [Avg(...)]: the mean of the joined values, NULL over no rows. *)
Definition Avg (values : list Z) : option Q :=
  match values with
  | [] => None
  | _ :: _ => Some (fold_right Z.add 0%Z values # Pos.of_nat (List.length values))%Q
  end.

(** [IntegerField.to_representation]: [int(value)], which truncates
    towards zero. *)
Definition IntegerField_to_representation (value : Q) : Z :=
  Z.quot (Qnum value) (Zpos (Qden value)).

(** A row of [Title.objects.annotate(Avg("reviews__score"))]. *)
Record AnnotatedTitle : Type := mkAnnotatedTitle {
  instance : Title;
  reviews__score__avg : option Q }.

Record TitleRepresentation : Type := mkTitleRepresentation {
  repr_id : Z;
  repr_name : string;
  repr_year : Z;
  repr_rating : option Z;
  repr_description : option string;
  repr_genre : list (string * string);        (* name, slug *)
  repr_category : option (string * string) }.

Definition CategorySerializer (c : Category) : string * string :=
  (category_name c, category_slug c).
Definition GenreSerializer (g : Genre) : string * string :=
  (genre_name g, genre_slug g).

Definition ReadOnlyTitleSerializer (w : World) (row : AnnotatedTitle)
    : TitleRepresentation :=
  let t := instance row in
  mkTitleRepresentation
    (title_id t) (title_name t) (title_year t)
    (option_map IntegerField_to_representation (reviews__score__avg row))
    (title_description t)
    (map GenreSerializer
       (filter (fun g => existsb (Z.eqb (genre_id g)) (title_genre t))
               (genres w)))
    (match title_category t with
     | Some pk =>
         option_map CategorySerializer
           (find (fun c => (category_id c =? pk)%Z) (categories w))
     | None => None
     end).

(** *** ReviewSerializer *)

Record ReviewData : Type := mkReviewData {
  data_text : option string;
  data_score : option Z }.

Record ReviewValidated : Type := mkReviewValidated {
  rv_text : option string;
  rv_score : option Z }.

Definition ReviewSerializer_fields (partial : bool) (data : ReviewData)
    : result ReviewValidated :=
  let f_text := run_field true partial (CharField false []) (data_text data) in
  let f_score :=
    run_field false partial (IntegerField (Some 1) (Some 10) [])
      (data_score data) in
  raise_errors
    (field_error "text" f_text ++ field_error "score" f_score)
    (mkReviewValidated (field_value f_text) (field_value f_score)).

(** [Review.objects.filter(title=title, author=author).exists()]. *)
Definition review_exists (title : Title) (author : RequestUser) : M bool :=
  w <- get_world ;;
  match author with
  | AnonymousUser => raise (TypeError "AnonymousUser is not a stored user")
  | Authenticated u =>
      ret (existsb (fun r => (review_title r =? title_id title)%Z
                             && (review_author r =? user_id u)%Z)
                   (reviews w))
  end.

(** The two literals of the message are adjacent in the source, hence the
    missing blank. *)
Definition duplicate_review : string :=
  "Вы не можете добавить болееодного отзыва на произведение".

Definition ReviewSerializer_validate (request : Request) (title_pk : Z)
    (data : ReviewValidated) : M ReviewValidated :=
  let author := user request in
  w <- get_world ;;
  title <- lift (get_object_or_404 (fun t => (title_id t =? title_pk)%Z)
                                   (titles w)) ;;
  if method request =? "POST" then
    taken <- review_exists title author ;;
    if taken : bool
    then raise (ValidationError [("non_field_errors", duplicate_review)])
    else ret data
  else ret data.

Definition ReviewSerializer_is_valid (request : Request) (title_pk : Z)
    (partial : bool) (data : ReviewData) : M ReviewValidated :=
  v <- lift (ReviewSerializer_fields partial data) ;;
  ReviewSerializer_validate request title_pk v.

(** [serializer.save(author=..., title=...)] without an instance. *)
Definition ReviewSerializer_save (v : ReviewValidated) (author_ : User)
    (title : Title) : M Review :=
  insert_review (title_id title) (with_default (rv_text v) "")
                (user_id author_) (with_default (rv_score v) 10).

End WithEnv.
End Serializers.

Import Serializers.

(* ================================================================= *)
(** ** api/views.py *)

Record Response (B : Type) : Type := mkResponse {
  response_data : B;
  response_status : Z }.
Arguments mkResponse {B} _ _.
Arguments response_data {B} _.
Arguments response_status {B} _.

Definition HTTP_200_OK : Z := 200.
Definition HTTP_201_CREATED : Z := 201.
Definition HTTP_204_NO_CONTENT : Z := 204.
Definition HTTP_400_BAD_REQUEST : Z := 400.

(** [check_permissions] followed by [check_object_permissions] for a
    view guarded by [IsStaffOrAuthorOrReadOnly]: the coarse gate first,
    the per-object gate on the fetched resource second. *)
Definition authorize_object {A} `{Authored A} (request : Request) (obj : A)
    : result decision :=
  let message := Permissions.IsStaffOrAuthorOrReadOnly.message in
  if Permissions.IsStaffOrAuthorOrReadOnly.has_permission request then
    match Permissions.IsStaffOrAuthorOrReadOnly.has_object_permission request obj with
    | Ok granted => Ok (check_permissions granted message)
    | Raise e => Raise e
    end
  else Ok (deny message).

(** [check_permissions] for the views guarded by [IsAdminOrReadOnly]
    (categories, genres, titles). *)
Definition authorize_catalog (request : Request) : decision :=
  check_permissions (Permissions.IsAdminOrReadOnly.has_permission request)
                    Permissions.IsAdminOrReadOnly.message.

Module Views.

Section Auth.
Context {E : Env}.

(** *** register *)

Definition register (data : SignUpData) : M (Response (string * string)) :=
  w <- get_world ;;
  v <- lift (SignUpSerializer_is_valid (users w) data) ;;
  SignUpSerializer_save v ;;
  w' <- get_world ;;
  user_ <- lift (get_object_or_404
                   (fun u => (username u =? sv_username v)
                             && (email u =? sv_email v))
                   (users w')) ;;
  let confirmation_code := make_token (clock_now w') user_ in
  send_mail "Registration" ("Confirmation code: " ++ confirmation_code)
            [email user_] ;;
  ret (mkResponse (sv_username v, sv_email v) HTTP_200_OK).

(** *** get_jwt_token *)

Inductive TokenBody : Type :=
| Token (token : string)
| Errors (errors : ErrorDetail).

(** [jti] is the identifier [uuid4().hex] that the token class draws for
    the token it makes; the draw is an input of the handler. *)
Definition get_jwt_token (jti : string) (data : TokenData)
    : M (Response TokenBody) :=
  v <- lift (GetTokenSerializer_is_valid data) ;;
  w <- get_world ;;
  user_ <- lift (get_object_or_404 (fun u => username u =? tv_username v)
                                   (users w)) ;;
  if check_token (clock_now w) user_ (tv_confirmation_code v)
  then ret (mkResponse (Token (AccessToken_for_user (clock_now w) jti user_))
                       HTTP_200_OK)
  else ret (mkResponse (Errors []) HTTP_400_BAD_REQUEST).

End Auth.

(** *** UserViewSet *)

Module UserViewSet.
Section WithEnv.
Context {E : Env}.

Definition create (request : Request) (data : UserData) : M (Response User) :=
  enforce request
          (check_permissions (Permissions.IsAdmin.has_permission request)
             "You do not have permission to perform this action.") ;;
  w <- get_world ;;
  v <- lift (UserSerializer_is_valid (users w) None false data) ;;
  u <- User_save None v ;;
  ret (mkResponse u HTTP_201_CREATED).

Definition users_own_profile (request : Request) : M (Response User) :=
  enforce request (check_permissions
             (Permissions.IsAuthenticated.has_permission request)
             "You do not have permission to perform this action.") ;;
  match user request with
  | AnonymousUser => raise (AttributeError "pk")
  | Authenticated u => ret (mkResponse u HTTP_200_OK)
  end.

Definition patch_own_profile (request : Request) (data : UserData)
    : M (Response User) :=
  enforce request (check_permissions
             (Permissions.IsAuthenticated.has_permission request)
             "You do not have permission to perform this action.") ;;
  match user request with
  | AnonymousUser => raise (AttributeError "pk")
  | Authenticated u =>
      w <- get_world ;;
      v <- lift (UserEditSerializer_is_valid (users w) (Some u) true data) ;;
      u' <- User_save (Some u) v ;;
      ret (mkResponse u' HTTP_200_OK)
  end.

End WithEnv.
End UserViewSet.

(** *** TitlesViewSet *)

Module TitlesViewSet.
Section WithEnv.
Context {E : Env}.

(** [Title.objects.annotate(Avg("reviews__score"))]. *)
Definition queryset (w : World) : list AnnotatedTitle :=
  map (fun t =>
         mkAnnotatedTitle t
           (Avg (map review_score
                   (filter (fun r => (review_title r =? title_id t)%Z)
                           (reviews w)))))
      (titles w).

Definition list_ (request : Request) : M (Response (list TitleRepresentation)) :=
  enforce request (authorize_catalog request) ;;
  w <- get_world ;;
  ret (mkResponse (map (ReadOnlyTitleSerializer w) (queryset w)) HTTP_200_OK).

Definition retrieve (request : Request) (pk : Z)
    : M (Response TitleRepresentation) :=
  enforce request (authorize_catalog request) ;;
  w <- get_world ;;
  row <- lift (get_object_or_404
                 (fun r => (title_id (instance r) =? pk)%Z) (queryset w)) ;;
  ret (mkResponse (ReadOnlyTitleSerializer w row) HTTP_200_OK).

Definition create (request : Request) (data : TitleData) : M (Response Title) :=
  enforce request (authorize_catalog request) ;;
  v <- TitlesSerializer_is_valid false data ;;
  t <- TitlesSerializer_save None v ;;
  ret (mkResponse t HTTP_201_CREATED).

(** [update] (PUT) and [partial_update] (PATCH, [partial = true]). *)
Definition update (request : Request) (pk : Z) (partial : bool)
    (data : TitleData) : M (Response Title) :=
  enforce request (authorize_catalog request) ;;
  w <- get_world ;;
  row <- lift (get_object_or_404
                 (fun r => (title_id (instance r) =? pk)%Z) (queryset w)) ;;
  v <- TitlesSerializer_is_valid partial data ;;
  t <- TitlesSerializer_save (Some (instance row)) v ;;
  ret (mkResponse t HTTP_200_OK).

(** The method [validate] of the view set; no handler calls it. *)
Definition validate (year : Z) : M Z :=
  this_year <- current_year ;;
  if (this_year <? year)%Z
  then raise (ValidationError [("", "Введенная дата больше текущей")])
  else ret year.

End WithEnv.
End TitlesViewSet.

(** *** ReviewViewSet *)

Module ReviewViewSet.
Section WithEnv.
Context {E : Env}.

Definition get_queryset (title_pk : Z) : M (list Review) :=
  w <- get_world ;;
  title <- lift (get_object_or_404 (fun t => (title_id t =? title_pk)%Z)
                                   (titles w)) ;;
  ret (filter (fun r => (review_title r =? title_id title)%Z) (reviews w)).

Definition perform_create (request : Request) (title_pk : Z)
    (action : string) (v : ReviewValidated) : M Review :=
  w <- get_world ;;
  title <- lift (get_object_or_404 (fun t => (title_id t =? title_pk)%Z)
                                   (titles w)) ;;
  (if Py.str_in action ["create"] then
     taken <- review_exists title (user request) ;;
     if taken : bool then raise (ValidationError [("", duplicate_review)])
     else ret tt
   else ret tt) ;;
  match user request with
  | AnonymousUser => raise (TypeError "AnonymousUser is not a stored user")
  | Authenticated u => ReviewSerializer_save v u title
  end.

Definition create (request : Request) (title_pk : Z) (data : ReviewData)
    : M (Response Review) :=
  enforce request (check_permissions
             (Permissions.IsStaffOrAuthorOrReadOnly.has_permission request)
             Permissions.IsStaffOrAuthorOrReadOnly.message) ;;
  v <- ReviewSerializer_is_valid request title_pk false data ;;
  r <- perform_create request title_pk "create" v ;;
  ret (mkResponse r HTTP_201_CREATED).

Definition destroy (request : Request) (title_pk pk : Z)
    : M (Response unit) :=
  enforce request (check_permissions
             (Permissions.IsStaffOrAuthorOrReadOnly.has_permission request)
             Permissions.IsStaffOrAuthorOrReadOnly.message) ;;
  qs <- get_queryset title_pk ;;
  obj <- lift (get_object_or_404 (fun r => (review_id r =? pk)%Z) qs) ;;
  d <- lift (authorize_object request obj) ;;
  enforce request d ;;
  w <- get_world ;;
  put_world (set_reviews w
               (filter (fun r => negb (review_id r =? pk)%Z) (reviews w))) ;;
  ret (mkResponse tt HTTP_204_NO_CONTENT).

End WithEnv.
End ReviewViewSet.

End Views.

Import Views.

(* ================================================================= *)
(** ** The rules as the specification words them *)

Module Rules.

(** "actor is superuser OR admin OR moderator OR actor is the resource's
    author". *)
Definition staff_or_author (actor : RequestUser) (resource_author : Z) : Prop :=
  match actor with
  | AnonymousUser => False
  | Authenticated u =>
      is_superuser u = true \/ role u = ADMIN \/ role u = MODERATOR
      \/ resource_author = user_id u
  end.

(** "authenticated with role admin or is a superuser". *)
Definition admin_or_superuser (actor : RequestUser) : Prop :=
  match actor with
  | AnonymousUser => False
  | Authenticated u => role u = ADMIN \/ is_superuser u = true
  end.

(** The scores of the reviews of a title. *)
Definition scores_of (w : World) (t : Title) : list Z :=
  map review_score
      (filter (fun r => (review_title r =? title_id t)%Z) (reviews w)).

(** The integer part of the mean of a non-empty list, none for an empty
    one. *)
Definition truncated_mean (scores : list Z) : option Z :=
  match scores with
  | [] => None
  | _ :: _ => Some (Z.quot (fold_right Z.add 0%Z scores)
                           (Z.of_nat (List.length scores)))
  end.

(** A registration the sign-up serializer has nothing against: both
    values non-blank and free of null characters, a well-formed address,
    a name that is not the reserved one, and neither value held by a
    stored user. *)
Definition name_acceptable (stored : list User) (name : string) : bool :=
  negb (name =? "")
  && negb (existsb (fun r => username r =? name) stored)
  && negb (has_null name)
  && negb (Py.lower name =? "me").

Definition mail_acceptable {E : Env} (stored : list User) (mail : string) : bool :=
  negb (mail =? "")
  && negb (existsb (fun r => email r =? mail) stored)
  && EmailValidator mail
  && negb (has_null mail).

Definition signup_acceptable {E : Env} (stored : list User) (name mail : string)
    : bool :=
  name_acceptable stored name && mail_acceptable stored mail.

Definition same_pair (t : Title) (u : User) (r : Review) : bool :=
  (review_title r =? title_id t)%Z && (review_author r =? user_id u)%Z.

(** The row a successful creation by [u] on [t] adds. *)
Definition new_review (w : World) (t : Title) (u : User) (v : ReviewValidated)
    : Review :=
  mkReview (next_id review_id (reviews w)) (title_id t)
           (with_default (rv_text v) "") (user_id u)
           (with_default (rv_score v) 10) (clock_now w).

(** What a profile edit may set: the submitted values, trimmed, with
    the submitted role left out. *)
Definition submitted (data : UserData) : UserValidated :=
  mkUserValidated (option_map Py.strip (data_username data))
                  (option_map Py.strip (data_email data))
                  (option_map Py.strip (data_first_name data))
                  (option_map Py.strip (data_last_name data))
                  (option_map Py.strip (data_bio data))
                  None.

(** The user table after the row of [u] was replaced by [u']. *)
Definition replace_user (u' : User) (stored : list User) : list User :=
  map (fun r => if (user_id r =? user_id u')%Z then u' else r) stored.

(** The name and the address a sign-up request carries, trimmed as the
    serializer trims them (blank when the key is missing). *)
Definition signup_name (data : SignUpData) : string :=
  with_default (option_map Py.strip (signup_username data)) "".
Definition signup_mail (data : SignUpData) : string :=
  with_default (option_map Py.strip (signup_email data)) "".

(** The row and the message a successful registration adds. *)
Definition registered_user (w : World) (data : SignUpData) : User :=
  mkUser (next_id user_id (users w)) (signup_name data) (signup_mail data)
         "" "" false None USER "".

Definition registered {E : Env} (w : World) (data : SignUpData) : World :=
  set_outbox
    (set_users w (users w ++ [registered_user w data]))
    (outbox w ++
     [mkMail "Registration"
        ("Confirmation code: "
         ++ make_token (clock_now w) (registered_user w data))%string
        [signup_mail data]]).

Definition unique_message : string := "This field must be unique.".

Definition set_rating (t : Title) (stored_rating : Z) : Title :=
  mkTitle (title_id t) (title_name t) (title_year t) (title_category t)
          (title_genre t) stored_rating (title_description t).

End Rules.

Import Rules.

(* ================================================================= *)
(** ** A concrete deployment, used to run the handlers *)

Module Demo.

Fixpoint has_at (s : string) : bool :=
  match s with
  | EmptyString => false
  | String c r => (c =? "@")%char || has_at r
  end.

Definition env : Env := {|
  EmailValidator := has_at;
  UnicodeUsernameValidator := fun _ => true;
  make_token := fun now u => (username u ++ ":" ++ email u)%string;
  check_token := fun now u code => (code =? username u ++ ":" ++ email u)%string;
  AccessToken_for_user :=
    fun now jti u => ("jwt." ++ username u ++ "." ++ jti)%string;
  startup_year := 2022
|}.

Definition alice : User :=
  mkUser 1 "alice" "a@x.com" "" "" false None USER "".
Definition Alice : User :=
  mkUser 1 "Alice" "A@x.com" "" "" false None USER "".
Definition bob : User :=
  mkUser 2 "bob" "b@x.com" "" "" false None USER "".
Definition mod_ : User :=
  mkUser 3 "mia" "m@x.com" "" "" false None MODERATOR "".
Definition root : User :=
  mkUser 4 "root" "r@x.com" "" "" false None ADMIN "".

Definition drama : Genre := mkGenre 1 "Drama" "drama".
Definition film : Category := mkCategory 1 "Film" "film".
Definition solaris : Title := mkTitle 1 "Solaris" 1972 (Some 1) [1] 10 None.

Definition empty : World := mkWorld [] [] [] [] [] [] 2022 0.

Definition capitalised : World := mkWorld [Alice] [] [] [] [] [] 2022 0.

Definition world : World :=
  mkWorld [alice; bob; mod_; root] [film] [drama] [solaris] [] [] 2022 1000.

Definition review_by (pk author_pk score : Z) : Review :=
  mkReview pk 1 "seen it" author_pk score 900.

Definition reviewed : World :=
  set_reviews world [review_by 1 1 1; review_by 2 2 2].

Definition post (u : User) : Request := mkRequest "POST" (Authenticated u).
Definition patch (u : User) : Request := mkRequest "PATCH" (Authenticated u).
Definition delete (u : User) : Request := mkRequest "DELETE" (Authenticated u).

End Demo.

(* ================================================================= *)
(** ** Comments: serializer and view set *)

Module Comments.

(** The comment table. The handlers of comments read the store and write
    this table only, so it is passed beside the store. *)
Definition Table : Type := list Comment.

Record CommentData : Type := mkCommentData {
  data_comment_text : option string }.

(** [CommentSerializer]: [review], [author] and [pub_date] are read-only;
    [text] is the one field taken from the request. *)
Definition CommentSerializer_is_valid (data : CommentData) : result string :=
  match run_field true false (CharField false []) (data_comment_text data) with
  | Valid text => Ok text
  | f => Raise (ValidationError (field_error "text" f))
  end.

Module CommentViewSet.

(** [get_object_or_404(Review, id=review_id, title=title_id)]. *)
Definition get_review (w : World) (title_pk review_pk : Z) : result Review :=
  get_object_or_404
    (fun r => (review_id r =? review_pk)%Z && (review_title r =? title_pk)%Z)
    (reviews w).

(** [review.comments.all()] of the review found. *)
Definition get_queryset (w : World) (title_pk review_pk : Z) (table : Table)
    : result Table :=
  match get_review w title_pk review_pk with
  | Ok review =>
      Ok (filter (fun c => (comment_review c =? review_id review)%Z) table)
  | Raise e => Raise e
  end.

Definition list_ (request : Request) (w : World) (title_pk review_pk : Z)
    (table : Table) : result (Response Table) :=
  match check_permissions
          (Permissions.IsStaffOrAuthorOrReadOnly.has_permission request)
          Permissions.IsStaffOrAuthorOrReadOnly.message with
  | deny reason => Raise (permission_denied request reason)
  | allow =>
      match get_queryset w title_pk review_pk table with
      | Ok qs => Ok (mkResponse qs HTTP_200_OK)
      | Raise e => Raise e
      end
  end.

(** [serializer.save(author=self.request.user, review=review)]. *)
Definition perform_create (request : Request) (w : World)
    (title_pk review_pk : Z) (text : string) (table : Table)
    : result Comment * Table :=
  match get_review w title_pk review_pk with
  | Raise e => (Raise e, table)
  | Ok review =>
      match user request with
      | AnonymousUser =>
          (Raise (TypeError "AnonymousUser is not a stored user"), table)
      | Authenticated u =>
          let row := mkComment (next_id comment_id table) (review_id review)
                               text (user_id u) (clock_now w) in
          (Ok row, table ++ [row])
      end
  end.

Definition create (request : Request) (w : World) (title_pk review_pk : Z)
    (data : CommentData) (table : Table) : result (Response Comment) * Table :=
  match check_permissions
          (Permissions.IsStaffOrAuthorOrReadOnly.has_permission request)
          Permissions.IsStaffOrAuthorOrReadOnly.message with
  | deny reason => (Raise (permission_denied request reason), table)
  | allow =>
      match CommentSerializer_is_valid data with
      | Raise e => (Raise e, table)
      | Ok text =>
          match perform_create request w title_pk review_pk text table with
          | (Ok row, table') => (Ok (mkResponse row HTTP_201_CREATED), table')
          | (Raise e, table') => (Raise e, table')
          end
      end
  end.

Definition destroy (request : Request) (w : World) (title_pk review_pk pk : Z)
    (table : Table) : result (Response unit) * Table :=
  match check_permissions
          (Permissions.IsStaffOrAuthorOrReadOnly.has_permission request)
          Permissions.IsStaffOrAuthorOrReadOnly.message with
  | deny reason => (Raise (permission_denied request reason), table)
  | allow =>
      match get_queryset w title_pk review_pk table with
      | Raise e => (Raise e, table)
      | Ok qs =>
          match get_object_or_404 (fun c => (comment_id c =? pk)%Z) qs with
          | Raise e => (Raise e, table)
          | Ok obj =>
              match authorize_object request obj with
              | Raise e => (Raise e, table)
              | Ok (deny reason) =>
                  (Raise (permission_denied request reason), table)
              | Ok allow =>
                  (Ok (mkResponse tt HTTP_204_NO_CONTENT),
                   filter (fun c => negb (comment_id c =? pk)%Z) table)
              end
          end
      end
  end.

End CommentViewSet.

End Comments.

(* ================================================================= *)
(** ** Deletion, as the foreign keys of the models declare it *)

Module Cascade.

(** The store together with the comment table. *)
Definition Tables : Type := (World * Comments.Table)%type.

Definition set_categories (w : World) (cs : list Category) : World :=
  mkWorld (users w) cs (genres w) (titles w) (reviews w)
          (outbox w) (clock_year w) (clock_now w).
Definition set_genres (w : World) (gs : list Genre) : World :=
  mkWorld (users w) (categories w) gs (titles w) (reviews w)
          (outbox w) (clock_year w) (clock_now w).

(** Deleting the reviews selected by [gone] takes their comments along
    ([Comment.review] has [on_delete=CASCADE]). *)
Definition delete_reviews (gone : Review -> bool) (s : Tables) : Tables :=
  (set_reviews (fst s) (filter (fun r => negb (gone r)) (reviews (fst s))),
   filter
     (fun c =>
        negb (existsb (fun r => gone r && (review_id r =? comment_review c)%Z)
                      (reviews (fst s))))
     (snd s)).

(** [review.delete()]. *)
Definition Review_delete (pk : Z) (s : Tables) : Tables :=
  delete_reviews (fun r => (review_id r =? pk)%Z) s.

(** [title.delete()]: [Review.title] has [on_delete=CASCADE]. *)
Definition Title_delete (pk : Z) (s : Tables) : Tables :=
  let s' := delete_reviews (fun r => (review_title r =? pk)%Z) s in
  (set_titles (fst s')
     (filter (fun t => negb (title_id t =? pk)%Z) (titles (fst s'))),
   snd s').

(** [category.delete()]: [Title.category] has [on_delete=SET_NULL]. *)
Definition Category_delete (pk : Z) (w : World) : World :=
  set_categories
    (set_titles w
       (map (fun t =>
               match title_category t with
               | Some c =>
                   if (c =? pk)%Z
                   then mkTitle (title_id t) (title_name t) (title_year t) None
                                (title_genre t) (title_rating t)
                                (title_description t)
                   else t
               | None => t
               end)
            (titles w)))
    (filter (fun c => negb (category_id c =? pk)%Z) (categories w)).

(** [user.delete()]: [Review.author] and [Comment.author] have
    [on_delete=CASCADE]. *)
Definition User_delete (pk : Z) (s : Tables) : Tables :=
  let s' := delete_reviews (fun r => (review_author r =? pk)%Z) s in
  (set_users (fst s')
     (filter (fun u => negb (user_id u =? pk)%Z) (users (fst s'))),
   filter (fun c => negb (comment_author c =? pk)%Z) (snd s')).

Definition has_pk {A} (pk : A -> Z) (table : list A) (k : Z) : bool :=
  existsb (fun row => (pk row =? k)%Z) table.

(** Every foreign key points at a stored row. *)
Definition references_ok (s : Tables) : bool :=
  forallb (fun r => has_pk title_id (titles (fst s)) (review_title r)
                    && has_pk user_id (users (fst s)) (review_author r))
          (reviews (fst s))
  && forallb (fun c => has_pk review_id (reviews (fst s)) (comment_review c)
                       && has_pk user_id (users (fst s)) (comment_author c))
             (snd s)
  && forallb (fun t => match title_category t with
                       | Some c => has_pk category_id (categories (fst s)) c
                       | None => true
                       end
                       && forallb (has_pk genre_id (genres (fst s)))
                                  (title_genre t))
             (titles (fst s)).

End Cascade.

(* ================================================================= *)
(** ** Invariants of the tables *)

Module Invariants.

Definition pair_of (r : Review) : Z * Z := (review_title r, review_author r).

(** At most one review per title and author. *)
Definition unique_reviews (w : World) : Prop :=
  NoDup (map pair_of (reviews w)).

(** Every stored score lies between 1 and 10. *)
Definition scores_in_range (w : World) : Prop :=
  Forall (fun r => 1 <= review_score r <= 10) (reviews w).

(** Primary keys and user names identify a user; no user carries the
    reserved name. *)
Definition users_ok (w : World) : Prop :=
  NoDup (map user_id (users w))
  /\ NoDup (map username (users w))
  /\ Forall (fun u => username_is_not_me (username u) = true) (users w).

(** A submitted text field that [CharField()] refuses: missing, blank
    after trimming, or holding a null character. *)
Definition refused (submitted : option string) : bool :=
  match submitted with
  | None => true
  | Some s => (Py.strip s =? "") || has_null (Py.strip s)
  end.

(** The row a user creation adds: the validated values, the defaults of
    the model for the rest. *)
Definition created_user (w : World) (v : UserValidated) : User :=
  mkUser (next_id user_id (users w))
         (with_default (uv_username v) "")
         (with_default (uv_email v) "")
         (with_default (uv_first_name v) "")
         (with_default (uv_last_name v) "")
         false
         (uv_bio v)
         (with_default (uv_role v) USER)
         "".

(** The row a title creation adds: the validated values set on a row
    with the defaults of the model. *)
Definition created_title {E : Env} (w : World) (v : TitleValidated) : Title :=
  Title_set_attrs v
    (mkTitle (next_id title_id (titles w)) "" startup_year None [] 10 None).

(** The title table after the row of [t'] was replaced by [t']. *)
Definition replace_title (t' : Title) (stored : list Title) : list Title :=
  map (fun r => if (title_id r =? title_id t')%Z then t' else r) stored.

End Invariants.

Import Invariants.

(* ================================================================= *)
(** ** UserViewSet: the update of a user by an administrator *)

Module UserAdmin.
Section WithEnv.
Context {E : Env}.

(** [get_object]: the user whose [username] is the key of the path
    ([lookup_field = 'username']). *)
Definition get_object (name : string) : M User :=
  w <- get_world ;;
  lift (get_object_or_404 (fun u => username u =? name) (users w)).

(** [update] (PUT) and [partial_update] (PATCH, [partial = true]) of the
    view set, with [UserSerializer]. *)
Definition update (request : Request) (name : string) (partial : bool)
    (data : UserData) : M (Response User) :=
  enforce request
          (check_permissions (Permissions.IsAdmin.has_permission request)
             "You do not have permission to perform this action.") ;;
  u <- get_object name ;;
  w <- get_world ;;
  v <- lift (UserSerializer_is_valid (users w) (Some u) partial data) ;;
  u' <- User_save (Some u) v ;;
  ret (mkResponse u' HTTP_200_OK).

End WithEnv.
End UserAdmin.

(* ================================================================= *)
(** ** Proof support *)

Ltac unfold_handler :=
  unfold enforce, check_permissions, bind, ret, raise, lift, get_world,
         put_world in *.

Lemma bind_ok {A B} (m : M A) (k : A -> M B) (w w' : World) (a : A) :
  m w = (Ok a, w') -> bind m k w = k a w'.
Proof. intros Hm. unfold bind. rewrite Hm. reflexivity. Qed.

Lemma bind_raise {A B} (m : M A) (k : A -> M B) (w w' : World) (e : exn) :
  m w = (Raise e, w') -> bind m k w = (Raise e, w').
Proof. intros Hm. unfold bind. rewrite Hm. reflexivity. Qed.

Lemma enforce_allow (request : Request) (w : World) :
  enforce request allow w = (Ok tt, w).
Proof. reflexivity. Qed.

Lemma enforce_deny (request : Request) (reason : string) (w : World) :
  enforce request (deny reason) w
  = (Raise (permission_denied request reason), w).
Proof. reflexivity. Qed.

Lemma is_admin_spec (u : User) : is_admin u = true <-> role u = ADMIN.
Proof. unfold is_admin. apply String.eqb_eq. Qed.

Lemma is_moderator_spec (u : User) : is_moderator u = true <-> role u = MODERATOR.
Proof. unfold is_moderator. apply String.eqb_eq. Qed.

(* ================================================================= *)
(** ** Authorization engine *)

Lemma has_object_permission_spec {A} `{Authored A} (m : string) (u : User) (obj : A) :
  Permissions.is_safe m = false ->
  forall granted,
    Permissions.IsStaffOrAuthorOrReadOnly.has_object_permission
      (mkRequest m (Authenticated u)) obj = Ok granted ->
    (granted = true <-> staff_or_author (Authenticated u) (author obj)).
Proof.
  intros Hm granted.
  unfold Permissions.IsStaffOrAuthorOrReadOnly.has_object_permission.
  cbn [method user]. rewrite Hm. intros [= <-]. cbn [staff_or_author].
  rewrite !orb_true_iff, is_admin_spec, is_moderator_spec, Z.eqb_eq.
  tauto.
Qed.

(** C2. For a Review or a Comment and a non-safe method, the two-phase
    check allows the request exactly when the actor is a superuser, an
    admin, a moderator or the author of the object; any other
    authenticated actor is denied, and the denial is raised as
    PermissionDenied, which the API answers with status 403. *)
Theorem object_write_needs_staff_or_author {A} `{Authored A}
    (request : Request) (obj : A) :
  Permissions.is_safe (method request) = false ->
  (authorize_object request obj = Ok allow
   <-> staff_or_author (user request) (author obj))
  /\ (is_authenticated (user request) = true ->
      ~ staff_or_author (user request) (author obj) ->
      authorize_object request obj
        = Ok (deny Permissions.IsStaffOrAuthorOrReadOnly.message)
      /\ forall w,
           enforce request
                   (deny Permissions.IsStaffOrAuthorOrReadOnly.message) w
             = (Raise (PermissionDenied
                         Permissions.IsStaffOrAuthorOrReadOnly.message), w)
           /\ status_of_exn (PermissionDenied
                               Permissions.IsStaffOrAuthorOrReadOnly.message)
              = 403).
Proof.
  destruct request as [m ru]. cbn [method user]. intros Hm.
  unfold authorize_object,
    Permissions.IsStaffOrAuthorOrReadOnly.has_permission.
  cbn [method user]. rewrite Hm. cbn [orb].
  destruct ru as [|u]; cbn [is_authenticated].
  - split.
    + split; [discriminate | intros []].
    + discriminate.
  - pose proof (has_object_permission_spec m u obj Hm) as Hspec.
    destruct (Permissions.IsStaffOrAuthorOrReadOnly.has_object_permission
                (mkRequest m (Authenticated u)) obj) as [granted|e] eqn:Hobj.
    + specialize (Hspec granted eq_refl).
      destruct granted; unfold check_permissions.
      * split; [split; intros _; [apply Hspec|]; reflexivity |].
        intros _ Hn. exfalso. apply Hn, Hspec. reflexivity.
      * split.
        -- split; [discriminate |].
           intros Hs. apply Hspec in Hs. discriminate.
        -- intros _ _. split; [reflexivity |]. intros w. split; reflexivity.
    + exfalso. revert Hobj.
      unfold Permissions.IsStaffOrAuthorOrReadOnly.has_object_permission.
      cbn [method user]. rewrite Hm. discriminate.
Qed.

(** The rule at work: Bob may not delete Alice's review. *)
Lemma object_write_needs_staff_or_author_witness :
  Permissions.is_safe (method (Demo.delete Demo.bob)) = false
  /\ authorize_object (Demo.delete Demo.bob) (Demo.review_by 1 1 1)
     = Ok (deny Permissions.IsStaffOrAuthorOrReadOnly.message).
Proof.
  split; [reflexivity |].
  apply (object_write_needs_staff_or_author
           (Demo.delete Demo.bob) (Demo.review_by 1 1 1) eq_refl).
  - reflexivity.
  - cbn. intros [H | [H | [H | H]]]; discriminate H.
Defined.

(** C3, as amended. On categories, genres and titles the methods GET,
    HEAD and OPTIONS pass the permission check for every actor, the
    anonymous one included; any other method is allowed exactly for an
    authenticated admin or superuser. An authenticated actor who is
    neither is denied with the admin-only reason, raised as
    PermissionDenied (status 403); a write attempt of the anonymous
    actor is answered NotAuthenticated (status 401), not
    PermissionDenied. *)
Theorem catalog_write_needs_admin (request : Request) :
  (In (method request) ["GET"; "HEAD"; "OPTIONS"] ->
   forall w, enforce request (authorize_catalog request) w = (Ok tt, w))
  /\ (~ In (method request) ["GET"; "HEAD"; "OPTIONS"] ->
      (authorize_catalog request = allow
       <-> admin_or_superuser (user request))
      /\ (admin_or_superuser (user request) ->
          forall w, enforce request (authorize_catalog request) w = (Ok tt, w))
      /\ (is_authenticated (user request) = true ->
          ~ admin_or_superuser (user request) ->
          authorize_catalog request
            = deny Permissions.IsAdminOrReadOnly.message
          /\ forall w,
               enforce request (authorize_catalog request) w
                 = (Raise (PermissionDenied
                             Permissions.IsAdminOrReadOnly.message), w)
               /\ status_of_exn (PermissionDenied
                                   Permissions.IsAdminOrReadOnly.message)
                  = 403)
      /\ (user request = AnonymousUser ->
          forall w,
            enforce request (authorize_catalog request) w
              = (Raise NotAuthenticated, w)
            /\ status_of_exn NotAuthenticated = 401)).
Proof.
  destruct request as [m ru]. cbn [method user].
  assert (Hsafe : Permissions.is_safe m = true
                  <-> In m ["GET"; "HEAD"; "OPTIONS"]).
  { unfold Permissions.is_safe, Permissions.SAFE_METHODS, Py.str_in.
    rewrite existsb_exists. split.
    - intros [x [Hx Heq]]. apply String.eqb_eq in Heq. subst x. exact Hx.
    - intros Hin. exists m. split; [exact Hin | apply String.eqb_refl]. }
  unfold authorize_catalog, Permissions.IsAdminOrReadOnly.has_permission.
  cbn [method user]. split; intros Hm.
  - apply Hsafe in Hm. rewrite Hm. reflexivity.
  - destruct (Permissions.is_safe m) eqn:Hs;
      [exfalso; apply Hm, Hsafe; reflexivity |].
    destruct ru as [|u]; cbn [admin_or_superuser is_authenticated];
      unfold check_permissions.
    + split; [split; [discriminate | intros []] |].
      split; [intros [] |]. split; [discriminate |].
      intros _ w. split; reflexivity.
    + destruct (is_admin u || is_superuser u) eqn:Hadm.
      * apply orb_true_iff in Hadm. rewrite is_admin_spec in Hadm.
        split; [tauto |]. split; [reflexivity |].
        split; [tauto | discriminate].
      * apply orb_false_iff in Hadm. destruct Hadm as [Ha Hsu].
        assert (Hno : ~ (role u = ADMIN \/ is_superuser u = true)).
        { intros [Hr | Hr].
          - apply is_admin_spec in Hr. congruence.
          - congruence. }
        split; [split; [discriminate | tauto] |].
        split; [tauto |]. split; [| discriminate].
        intros _ _. split; [reflexivity |]. intros w. split; reflexivity.
Qed.

(** The rule at work in the demo deployment: anybody may read, the
    admin may delete, Bob may not patch, and the anonymous actor who
    tries to write is asked to authenticate. *)
Lemma catalog_write_needs_admin_witness :
  enforce (mkRequest "GET" AnonymousUser)
    (authorize_catalog (mkRequest "GET" AnonymousUser)) Demo.world
  = (Ok tt, Demo.world)
  /\ enforce (Demo.delete Demo.root) (authorize_catalog (Demo.delete Demo.root))
       Demo.world
     = (Ok tt, Demo.world)
  /\ enforce (Demo.patch Demo.bob) (authorize_catalog (Demo.patch Demo.bob))
       Demo.world
     = (Raise (PermissionDenied Permissions.IsAdminOrReadOnly.message),
        Demo.world)
  /\ enforce (mkRequest "PUT" AnonymousUser)
       (authorize_catalog (mkRequest "PUT" AnonymousUser)) Demo.world
     = (Raise NotAuthenticated, Demo.world).
Proof.
  assert (Hwrite : forall m, In m ["DELETE"; "PATCH"; "PUT"] ->
                             ~ In m ["GET"; "HEAD"; "OPTIONS"]).
  { intros m Hm Hin. cbn in Hm, Hin.
    destruct Hm as [<- | [<- | [<- | []]]];
      destruct Hin as [H | [H | [H | []]]]; discriminate H. }
  split; [| split; [| split]].
  - apply (proj1 (catalog_write_needs_admin (mkRequest "GET" AnonymousUser))).
    left. reflexivity.
  - apply (proj2 (catalog_write_needs_admin (Demo.delete Demo.root))).
    + apply Hwrite. left. reflexivity.
    + left. reflexivity.
  - apply (proj2 (catalog_write_needs_admin (Demo.patch Demo.bob))).
    + apply Hwrite. right. left. reflexivity.
    + reflexivity.
    + cbn. intros [H | H]; discriminate H.
  - apply (proj2 (catalog_write_needs_admin (mkRequest "PUT" AnonymousUser))).
    + apply Hwrite. right. right. left. reflexivity.
    + reflexivity.
Defined.

(** The claim as first worded fails for the anonymous actor: an
    anonymous POST of a title is not answered PermissionDenied (403)
    but NotAuthenticated, status 401. *)
Lemma anonymous_write_is_not_forbidden :
  TitlesViewSet.create (E := Demo.env) (mkRequest "POST" AnonymousUser)
    (mkTitleData (Some "Stalker") (Some 1979) None None
                 (Some "film") (Some ["drama"])) Demo.world
  = (Raise NotAuthenticated, Demo.world)
  /\ status_of_exn NotAuthenticated = 401
  /\ status_of_exn NotAuthenticated <> 403.
Proof.
  split; [reflexivity |]. split; [reflexivity | discriminate].
Qed.

(** The rule inside a handler: deleting the review of somebody else is
    refused before anything is removed. *)
Lemma destroy_by_stranger_is_denied (w : World) (u : User) (t : Title)
    (r : Review) (title_pk pk : Z) :
  find (fun x => (title_id x =? title_pk)%Z) (titles w) = Some t ->
  find (fun x => (review_id x =? pk)%Z)
       (filter (fun x => (review_title x =? title_id t)%Z) (reviews w))
  = Some r ->
  ~ staff_or_author (Authenticated u) (review_author r) ->
  ReviewViewSet.destroy (mkRequest "DELETE" (Authenticated u)) title_pk pk w
  = (Raise (PermissionDenied Permissions.IsStaffOrAuthorOrReadOnly.message), w).
Proof.
  intros Ht Hr Hno. unfold ReviewViewSet.destroy, ReviewViewSet.get_queryset.
  erewrite bind_ok by reflexivity.
  erewrite bind_ok.
  2:{ erewrite bind_ok by reflexivity.
      erewrite bind_ok by (unfold lift, get_object_or_404; rewrite Ht; reflexivity).
      reflexivity. }
  erewrite bind_ok by (unfold lift, get_object_or_404; rewrite Hr; reflexivity).
  pose proof (has_object_permission_spec "DELETE" u r eq_refl) as Hspec.
  unfold authorize_object.
  change (Permissions.IsStaffOrAuthorOrReadOnly.has_permission
            (mkRequest "DELETE" (Authenticated u))) with true.
  cbv iota.
  destruct (Permissions.IsStaffOrAuthorOrReadOnly.has_object_permission
              (mkRequest "DELETE" (Authenticated u)) r) as [granted|e] eqn:Hobj.
  - specialize (Hspec granted eq_refl). destruct granted.
    + exfalso. apply Hno, Hspec. reflexivity.
    + reflexivity.
  - discriminate Hobj.
Qed.

(* ================================================================= *)
(** ** Token service: exchange *)

Section Exchange.
Context {E : Env}.

Lemma get_jwt_token_unfold (jti : string) (data : TokenData)
    (v : TokenValidated) (w : World) :
  GetTokenSerializer_is_valid data = Ok v ->
  get_jwt_token jti data w =
    match find (fun u => username u =? tv_username v) (users w) with
    | None => (Raise Http404, w)
    | Some u =>
        if check_token (clock_now w) u (tv_confirmation_code v)
        then (Ok (mkResponse (Token (AccessToken_for_user (clock_now w) jti u)) 200), w)
        else (Ok (mkResponse (Errors []) 400), w)
    end.
Proof.
  intros Hv. unfold get_jwt_token. unfold_handler. rewrite Hv.
  unfold get_object_or_404.
  destruct (find _ (users w)) as [u|]; [|reflexivity].
  destruct (check_token _ u _); reflexivity.
Qed.

(** C4. For a token request whose two fields pass field validation:
    when no stored user has the given username the exchange fails with
    Http404 (status 404); when the user exists and the code does not
    verify, the answer has status 400 and carries no token; a token is
    answered only for a stored user whose code verifies. Nothing is
    written in any case. *)
Theorem exchange_outcomes (jti : string) (data : TokenData)
    (v : TokenValidated) (w : World) :
  GetTokenSerializer_is_valid data = Ok v ->
  (find (fun u => username u =? tv_username v) (users w) = None ->
   get_jwt_token jti data w = (Raise Http404, w)
   /\ status_of_exn Http404 = 404)
  /\ (forall u,
        find (fun u => username u =? tv_username v) (users w) = Some u ->
        check_token (clock_now w) u (tv_confirmation_code v) = false ->
        get_jwt_token jti data w
          = (Ok (mkResponse (Errors []) HTTP_400_BAD_REQUEST), w))
  /\ (forall u,
        find (fun u => username u =? tv_username v) (users w) = Some u ->
        check_token (clock_now w) u (tv_confirmation_code v) = true ->
        get_jwt_token jti data w
          = (Ok (mkResponse (Token (AccessToken_for_user (clock_now w) jti u)) HTTP_200_OK), w))
  /\ (forall token status w',
        get_jwt_token jti data w = (Ok (mkResponse (Token token) status), w') ->
        exists u,
          find (fun u => username u =? tv_username v) (users w) = Some u
          /\ check_token (clock_now w) u (tv_confirmation_code v) = true
          /\ token = AccessToken_for_user (clock_now w) jti u /\ w' = w).
Proof.
  intros Hv. rewrite (get_jwt_token_unfold jti data v w Hv).
  repeat split.
  - rewrite H. reflexivity.
  - intros u Hu Hc. rewrite Hu, Hc. reflexivity.
  - intros u Hu Hc. rewrite Hu, Hc. reflexivity.
  - intros token status w'.
    destruct (find _ (users w)) as [u|]; [|discriminate].
    destruct (check_token _ u _) eqn:Hc; [|discriminate].
    intros [= <- _ <-]. exists u. repeat split; assumption.
Qed.

(** A request whose fields fail field validation is answered 400 before
    any lookup; it yields no token either. *)
Lemma exchange_invalid_fields (jti : string) (data : TokenData) (w : World)
    (e : exn) :
  GetTokenSerializer_is_valid data = Raise e ->
  get_jwt_token jti data w = (Raise e, w)
  /\ exists detail, e = ValidationError detail.
Proof.
  intros Hv. split.
  - unfold get_jwt_token. unfold_handler. rewrite Hv. reflexivity.
  - revert Hv. unfold GetTokenSerializer_is_valid.
    destruct (run_field _ _ _ (token_username data));
      destruct (run_field _ _ _ (token_confirmation_code data));
      intros [= <-]; eexists; reflexivity.
Qed.

End Exchange.

(** Alice's name with a wrong code: status 400, no token. *)
Lemma exchange_outcomes_witness :
  get_jwt_token (E := Demo.env) "0a1b"
    (mkTokenData (Some "alice") (Some "guess")) Demo.world
  = (Ok (mkResponse (Errors []) HTTP_400_BAD_REQUEST), Demo.world).
Proof.
  apply (proj1 (proj2
           (exchange_outcomes (E := Demo.env) "0a1b"
              (mkTokenData (Some "alice") (Some "guess"))
              (mkTokenValidated "alice" "guess") Demo.world eq_refl))
           Demo.alice); reflexivity.
Defined.

(* ================================================================= *)
(** ** Reviews: one per title and author *)

Section Reviews.
Context {E : Env}.

Lemma raise_errors_raises {A} (errors : ErrorDetail) (a : A) (e : exn) :
  raise_errors errors a = Raise e -> exists detail, e = ValidationError detail.
Proof.
  destruct errors; cbn; [discriminate |]. intros [= <-]. eexists; reflexivity.
Qed.

Lemma find_title_pk (pk : Z) (ts : list Title) (t : Title) :
  find (fun x => (title_id x =? pk)%Z) ts = Some t -> title_id t = pk.
Proof.
  intros Hf. apply find_some in Hf. destruct Hf as [_ Heq].
  apply Z.eqb_eq in Heq. exact Heq.
Qed.

Lemma create_first (w : World) (u : User) (t : Title) (pk : Z)
    (data : ReviewData) (v : ReviewValidated) :
  find (fun x => (title_id x =? pk)%Z) (titles w) = Some t ->
  ReviewSerializer_fields false data = Ok v ->
  existsb (same_pair t u) (reviews w) = false ->
  ReviewViewSet.create (mkRequest "POST" (Authenticated u)) pk data w
  = (Ok (mkResponse (new_review w t u v) HTTP_201_CREATED),
     set_reviews w (reviews w ++ [new_review w t u v])).
Proof.
  intros Ht Hv Hnone.
  unfold ReviewViewSet.create, ReviewSerializer_is_valid,
    ReviewSerializer_validate, ReviewViewSet.perform_create, review_exists,
    ReviewSerializer_save, insert_review, get_object_or_404.
  unfold_handler. unfold same_pair in Hnone. cbn.
  rewrite Hv, Ht. cbn. rewrite Hnone. cbn. rewrite Ht. cbn.
  rewrite Hnone. cbn. rewrite Hnone. reflexivity.
Qed.

Lemma create_again (w : World) (u : User) (t : Title) (pk : Z)
    (data : ReviewData) :
  find (fun x => (title_id x =? pk)%Z) (titles w) = Some t ->
  existsb (same_pair t u) (reviews w) = true ->
  exists detail,
    ReviewViewSet.create (mkRequest "POST" (Authenticated u)) pk data w
    = (Raise (ValidationError detail), w).
Proof.
  intros Ht Hsome.
  unfold ReviewViewSet.create, ReviewSerializer_is_valid,
    ReviewSerializer_validate, review_exists, get_object_or_404.
  unfold_handler. cbn [method user]. cbn.
  destruct (ReviewSerializer_fields false data) as [v|e] eqn:Hv.
  - rewrite Ht. unfold same_pair in Hsome. rewrite Hsome.
    eexists; reflexivity.
  - apply raise_errors_raises in Hv. destruct Hv as [detail ->].
    eexists; reflexivity.
Qed.

(** C1. For a stored title and an authenticated author with no review of
    that title yet, a well-formed creation succeeds (201) and stores one
    review of the pair; every further creation for the same pair fails
    with ValidationError and leaves the store as it was. *)
Theorem one_review_per_title_and_author (w : World) (u : User) (t : Title)
    (pk : Z) (data : ReviewData) (v : ReviewValidated) :
  find (fun x => (title_id x =? pk)%Z) (titles w) = Some t ->
  ReviewSerializer_fields false data = Ok v ->
  existsb (same_pair t u) (reviews w) = false ->
  exists r w',
    ReviewViewSet.create (mkRequest "POST" (Authenticated u)) pk data w
    = (Ok (mkResponse r HTTP_201_CREATED), w')
    /\ reviews w' = reviews w ++ [r]
    /\ review_title r = pk /\ review_author r = user_id u
    /\ forall data', exists detail,
         ReviewViewSet.create (mkRequest "POST" (Authenticated u)) pk data' w'
         = (Raise (ValidationError detail), w').
Proof.
  intros Ht Hv Hnone.
  exists (new_review w t u v),
         (set_reviews w (reviews w ++ [new_review w t u v])).
  split; [apply create_first; assumption |].
  split; [reflexivity |].
  split; [apply (find_title_pk _ _ _ Ht) |].
  split; [reflexivity |].
  intros data'. apply create_again with (t := t).
  - exact Ht.
  - cbn [reviews set_reviews]. rewrite existsb_app. apply orb_true_iff. right.
    cbn. unfold same_pair, new_review. cbn. rewrite !Z.eqb_refl. reflexivity.
Qed.

End Reviews.

(** Alice reviews Solaris once; her second review is refused. *)
Lemma one_review_per_title_and_author_witness :
  exists r w',
    ReviewViewSet.create (Demo.post Demo.alice) 1
      (mkReviewData (Some "a classic") (Some 9)) Demo.world
    = (Ok (mkResponse r HTTP_201_CREATED), w')
    /\ reviews w' = reviews Demo.world ++ [r]
    /\ review_title r = 1 /\ review_author r = user_id Demo.alice
    /\ forall data', exists detail,
         ReviewViewSet.create (Demo.post Demo.alice) 1 data' w'
         = (Raise (ValidationError detail), w').
Proof.
  apply (one_review_per_title_and_author Demo.world Demo.alice
           Demo.solaris 1 (mkReviewData (Some "a classic") (Some 9))
           (mkReviewValidated (Some "a classic") (Some 9)));
    reflexivity.
Defined.

(* ================================================================= *)
(** ** Titles: the year is not in the future *)

Section Titles.
Context {E : Env}.

Lemma raise_errors_nonempty {A} (errors : ErrorDetail) (a : A) :
  errors <> [] -> raise_errors errors a = Raise (ValidationError errors).
Proof. destruct errors; [congruence | reflexivity]. Qed.

Lemma year_field_rejects (this_year year : Z) :
  this_year < year ->
  exists message,
    IntegerField (Some 0) None
      [(max_value_current_year this_year,
        "Ensure this value is less than or equal to the current year.")]
      year = Invalid message.
Proof.
  intros Hlt. unfold IntegerField. cbn.
  destruct (MinValueValidator 0 year); [| eexists; reflexivity].
  unfold max_value_current_year, MaxValueValidator.
  apply Z.ltb_lt in Hlt. rewrite Hlt. cbn. eexists; reflexivity.
Qed.

Lemma is_valid_future_year (partial : bool) (data : TitleData) (year : Z)
    (w : World) :
  data_year data = Some year -> clock_year w < year ->
  exists detail,
    TitlesSerializer_is_valid partial data w = (Raise (ValidationError detail), w)
    /\ In "year" (map fst detail).
Proof.
  intros Hy Hlt.
  unfold TitlesSerializer_is_valid, current_year. unfold_handler.
  rewrite Hy. cbn [run_field].
  destruct (year_field_rejects (clock_year w) year Hlt) as [message ->].
  cbn [field_error].
  eexists. split.
  - rewrite raise_errors_nonempty; [reflexivity |].
    intros Hnil. apply app_eq_nil in Hnil. destruct Hnil as [_ Hnil].
    discriminate Hnil.
  - rewrite map_app. apply in_or_app. right. left. reflexivity.
Qed.

Lemma find_queryset (w : World) (pk : Z) :
  find (fun r => (title_id (instance r) =? pk)%Z) (TitlesViewSet.queryset w)
  = option_map
      (fun t => mkAnnotatedTitle t (Avg (scores_of w t)))
      (find (fun t => (title_id t =? pk)%Z) (titles w)).
Proof.
  unfold TitlesViewSet.queryset, scores_of.
  induction (titles w) as [|t ts IH]; [reflexivity |].
  cbn. destruct (title_id t =? pk)%Z; [reflexivity | exact IH].
Qed.

(** C5. A title creation or update that submits a year greater than the
    current calendar year writes nothing; when the actor is allowed to
    write (and, for an update, the title exists) it fails with a
    ValidationError on the field [year]. *)
Theorem future_year_rejected (w : World) (request : Request)
    (data : TitleData) (year : Z) :
  data_year data = Some year ->
  clock_year w < year ->
  (snd (TitlesViewSet.create request data w) = w
   /\ forall pk partial,
        snd (TitlesViewSet.update request pk partial data w) = w)
  /\ (authorize_catalog request = allow ->
      (exists detail,
         TitlesViewSet.create request data w
           = (Raise (ValidationError detail), w)
         /\ In "year" (map fst detail))
      /\ forall pk partial t,
           find (fun x => (title_id x =? pk)%Z) (titles w) = Some t ->
           exists detail,
             TitlesViewSet.update request pk partial data w
               = (Raise (ValidationError detail), w)
             /\ In "year" (map fst detail)).
Proof.
  intros Hy Hlt.
  pose proof (fun partial => is_valid_future_year partial data year w Hy Hlt)
    as Hinvalid.
  assert (Hcreate : exists detail,
             In "year" (map fst detail)
             /\ forall d,
                  authorize_catalog request = d ->
                  TitlesViewSet.create request data w
                  = (match d with
                     | allow => Raise (ValidationError detail)
                     | deny reason => Raise (permission_denied request reason)
                     end, w)).
  { destruct (Hinvalid false) as [detail [Hv Hin]].
    exists detail. split; [exact Hin |].
    intros d Hd. unfold TitlesViewSet.create. rewrite Hd. destruct d.
    - erewrite bind_ok by apply enforce_allow.
      erewrite bind_raise by exact Hv. reflexivity.
    - erewrite bind_raise by apply enforce_deny. reflexivity. }
  assert (Hupdate : forall pk partial, exists detail,
             In "year" (map fst detail)
             /\ forall d,
                  authorize_catalog request = d ->
                  TitlesViewSet.update request pk partial data w
                  = (match d with
                     | allow =>
                         match find (fun x => (title_id x =? pk)%Z) (titles w) with
                         | Some _ => Raise (ValidationError detail)
                         | None => Raise Http404
                         end
                     | deny reason => Raise (permission_denied request reason)
                     end, w)).
  { intros pk partial. destruct (Hinvalid partial) as [detail [Hv Hin]].
    exists detail. split; [exact Hin |].
    intros d Hd. unfold TitlesViewSet.update. rewrite Hd. destruct d.
    - erewrite bind_ok by apply enforce_allow.
      erewrite bind_ok by reflexivity.
      unfold get_object_or_404. rewrite find_queryset.
      destruct (find _ (titles w)) as [t|]; cbn [option_map].
      + erewrite bind_ok by reflexivity.
        erewrite bind_raise by exact Hv. reflexivity.
      + erewrite bind_raise by reflexivity. reflexivity.
    - erewrite bind_raise by apply enforce_deny. reflexivity. }
  split.
  - split.
    + destruct Hcreate as [detail [_ Hc]]. rewrite (Hc _ eq_refl). reflexivity.
    + intros pk partial. destruct (Hupdate pk partial) as [detail [_ Hu]].
      rewrite (Hu _ eq_refl). reflexivity.
  - intros Hallow. split.
    + destruct Hcreate as [detail [Hin Hc]]. exists detail.
      rewrite (Hc _ Hallow). split; [reflexivity | exact Hin].
    + intros pk partial t Ht. destruct (Hupdate pk partial) as [detail [Hin Hu]].
      exists detail. rewrite (Hu _ Hallow), Ht.
      split; [reflexivity | exact Hin].
Qed.

End Titles.

(** An administrator submitting next year's film is refused. *)
Lemma future_year_rejected_witness :
  exists detail,
    TitlesViewSet.create (E := Demo.env) (Demo.post Demo.root)
      (mkTitleData (Some "Dune 3") (Some 2023) None None
                   (Some "film") (Some ["drama"]))
      Demo.world
    = (Raise (ValidationError detail), Demo.world)
    /\ In "year" (map fst detail).
Proof.
  apply (proj2 (future_year_rejected (E := Demo.env) Demo.world
                  (Demo.post Demo.root)
                  (mkTitleData (Some "Dune 3") (Some 2023) None None
                               (Some "film") (Some ["drama"]))
                  2023 eq_refl eq_refl) eq_refl).
Defined.

(* ================================================================= *)
(** ** Own profile: the role is read-only *)

Section OwnProfile.
Context {E : Env}.

Lemma raise_errors_ok {A} (errors : ErrorDetail) (a v : A) :
  raise_errors errors a = Ok v -> errors = [] /\ v = a.
Proof. destruct errors; cbn; [intros [= <-]; auto | discriminate]. Qed.

Lemma run_validators_valid {A} (vs : list (validator A)) (a x : A) :
  run_validators vs a = Valid x ->
  x = a /\ forall accepts message, In (accepts, message) vs -> accepts a = true.
Proof.
  induction vs as [|[ok msg] vs IH]; cbn.
  - intros [= <-]. split; [reflexivity | intros ? ? []].
  - destruct (ok a) eqn:Hok; [| discriminate].
    intros Hv. destruct (IH Hv) as [-> Hall]. split; [reflexivity |].
    intros accepts message [[= <- <-] | Hin]; [exact Hok | eauto].
Qed.

Lemma CharField_shape (allow_blank : bool) (vs : list (validator string))
    (s : string) :
  match CharField allow_blank vs s with
  | Valid x => x = Py.strip s
  | Invalid _ => True
  | Absent => False
  end.
Proof.
  unfold CharField.
  destruct (Py.strip s =? "") eqn:Hblank.
  - apply String.eqb_eq in Hblank. destruct allow_blank; [symmetry; exact Hblank | exact I].
  - generalize (vs ++ [ProhibitNullCharactersValidator]). intros all.
    destruct (run_validators all (Py.strip s)) eqn:Hr.
    + exfalso. revert Hr. generalize (Py.strip s).
      induction all as [|[ok msg] all IH]; cbn; intros a; [discriminate |].
      destruct (ok a); [apply IH | discriminate].
    + apply run_validators_valid in Hr. apply Hr.
    + exact I.
Qed.

(** A field of a partial serializer either is skipped, or holds the
    trimmed value, or is in error. *)
Lemma partial_field_shape (required allow_blank : bool)
    (vs : list (validator string)) (name : string) (data : option string) :
  field_error name (run_field required true (CharField allow_blank vs) data) = [] ->
  field_value (run_field required true (CharField allow_blank vs) data)
  = option_map Py.strip data.
Proof.
  destruct data as [s|]; cbn.
  - pose proof (CharField_shape allow_blank vs s) as Hs.
    destruct (CharField allow_blank vs s); cbn; [contradiction | | discriminate].
    intros _. rewrite Hs. reflexivity.
  - rewrite andb_false_r. reflexivity.
Qed.

Lemma edit_validated (stored : list User) (u : User) (data : UserData)
    (v : UserValidated) :
  UserEditSerializer_is_valid stored (Some u) true data = Ok v ->
  v = submitted data.
Proof.
  unfold UserEditSerializer_is_valid, EmailField. intros Hv.
  apply raise_errors_ok in Hv. destruct Hv as [Herr ->].
  repeat (apply app_eq_nil in Herr; destruct Herr as [? Herr]).
  unfold submitted. f_equal; eapply partial_field_shape; eassumption.
Qed.

Lemma same_key_same_row {A K} (key : A -> K) (stored : list A) (u r : A) :
  NoDup (map key stored) -> In u stored -> In r stored ->
  key r = key u -> r = u.
Proof.
  induction stored as [|x xs IH]; cbn; [intros _ [] |].
  intros Hnd Hu Hr Heq. inversion Hnd as [|? ? Hnotin Hnd']; subst.
  destruct Hu as [-> | Hu], Hr as [-> | Hr].
  - reflexivity.
  - exfalso. apply Hnotin. rewrite <- Heq. apply in_map. exact Hr.
  - exfalso. apply Hnotin. rewrite Heq. apply in_map. exact Hu.
  - apply IH; assumption.
Qed.

Lemma replace_user_roles (stored : list User) (u u' : User) :
  NoDup (map user_id stored) -> In u stored ->
  user_id u' = user_id u -> role u' = role u ->
  map role (replace_user u' stored) = map role stored.
Proof.
  intros Hnd Hu Hid Hrole. unfold replace_user. rewrite map_map.
  apply map_ext_in. intros r Hr.
  destruct (user_id r =? user_id u')%Z eqn:Heq; [| reflexivity].
  apply Z.eqb_eq in Heq. rewrite Hid in Heq.
  rewrite (same_key_same_row user_id stored u r Hnd Hu Hr Heq). exact Hrole.
Qed.

Lemma replace_user_find (stored : list User) (u u' : User) :
  In u stored -> user_id u' = user_id u ->
  find (fun r => (user_id r =? user_id u)%Z) (replace_user u' stored) = Some u'.
Proof.
  intros Hu Hid. unfold replace_user.
  induction stored as [|x xs IH]; [destruct Hu |].
  cbn. destruct (user_id x =? user_id u')%Z eqn:Hx.
  - rewrite Hid, Z.eqb_refl. reflexivity.
  - rewrite Hid in Hx. rewrite Hx. destruct Hu as [-> | Hu].
    + rewrite Z.eqb_refl in Hx. discriminate.
    + apply IH. exact Hu.
Qed.

(** The handler, step by step. *)
Lemma patch_own_profile_unfold (w : World) (u : User) (data : UserData) :
  UserViewSet.patch_own_profile (mkRequest "PATCH" (Authenticated u)) data w
  = match UserEditSerializer_is_valid (users w) (Some u) true data with
    | Raise e => (Raise e, w)
    | Ok v =>
        match user_constraints
                (filter (fun r => negb (user_id r =? user_id (set_attrs v u))%Z)
                        (users w))
                (set_attrs v u) with
        | Raise e => (Raise e, w)
        | Ok _ =>
            (Ok (mkResponse (set_attrs v u) HTTP_200_OK),
             set_users w (replace_user (set_attrs v u) (users w)))
        end
    end.
Proof.
  unfold UserViewSet.patch_own_profile, User_save, update_user.
  unfold_handler. cbn [user Permissions.IsAuthenticated.has_permission
                         is_authenticated method].
  cbv beta iota.
  destruct (UserEditSerializer_is_valid _ _ _ _) as [v|e]; [| reflexivity].
  destruct (user_constraints _ _) as [[]|e]; reflexivity.
Qed.

Lemma existsb_filter {A} (p q : A -> bool) (l : list A) :
  existsb p (filter q l) = existsb (fun r => p r && q r) l.
Proof.
  induction l as [|x xs IH]; [reflexivity |].
  cbn. destruct (q x); cbn; rewrite IH.
  - rewrite andb_true_r. reflexivity.
  - rewrite andb_false_r. reflexivity.
Qed.

Lemma CharField_accepts (vs : list (validator string)) (s x : string) :
  CharField false vs s = Valid x ->
  x = Py.strip s
  /\ forall accepts message, In (accepts, message) vs -> accepts x = true.
Proof.
  unfold CharField. destruct (Py.strip s =? ""); [discriminate |].
  intros Hr. apply run_validators_valid in Hr. destruct Hr as [-> Hall].
  split; [reflexivity |].
  intros accepts message Hin. apply (Hall accepts message).
  apply in_or_app. left. exact Hin.
Qed.

(** After validation the new user name is held by no other row. *)
Lemma edit_keeps_usernames_unique (stored : list User) (u : User)
    (data : UserData) (v : UserValidated) :
  NoDup (map username stored) -> In u stored ->
  UserEditSerializer_is_valid stored (Some u) true data = Ok v ->
  existsb (fun r => username r =? username (set_attrs v u))
          (filter (fun r => negb (user_id r =? user_id (set_attrs v u))%Z) stored)
  = false.
Proof.
  intros Hnd Hu Hv. pose proof (edit_validated _ _ _ _ Hv) as ->.
  cbn [set_attrs user_id username submitted uv_username].
  destruct (data_username data) as [s|] eqn:Hs; cbn [option_map with_default].
  - revert Hv. unfold UserEditSerializer_is_valid. rewrite Hs.
    cbn [run_field]. intros Hv. apply raise_errors_ok in Hv.
    destruct Hv as [Herr _]. apply app_eq_nil in Herr. destruct Herr as [Herr _].
    pose proof (CharField_shape false
                  [MaxLengthValidator 150;
                   (UnicodeUsernameValidator, "Enter a valid username.");
                   UniqueValidator username user_id stored (pk_of (Some u))] s)
      as Hshape.
    destruct (CharField false _ s) as [|x|m] eqn:Hf;
      [contradiction | | discriminate Herr].
    apply CharField_accepts in Hf. destruct Hf as [-> Hall].
    specialize (Hall _ _ (or_intror (or_intror (or_introl eq_refl)))).
    cbn in Hall. apply negb_true_iff in Hall.
    rewrite existsb_filter. exact Hall.
  - destruct (existsb _ _) eqn:Hex; [| reflexivity]. exfalso.
    apply existsb_exists in Hex. destruct Hex as [r [Hr Hname]].
    apply filter_In in Hr. destruct Hr as [Hr Hpk].
    apply String.eqb_eq in Hname.
    rewrite (same_key_same_row username stored u r Hnd Hu Hr Hname) in Hpk.
    rewrite Z.eqb_refl in Hpk. discriminate.
Qed.

(** C6. When an authenticated actor patches the own profile, no stored
    role changes, whatever is submitted for [role]; an accepted patch
    answers and stores the actor's row with every other submitted field
    set to the (trimmed) submitted value and the role as it was; and a
    patch that passes field validation and does not take the reserved
    name is accepted. *)
Theorem own_profile_role_is_read_only (w : World) (u : User) (data : UserData) :
  In u (users w) ->
  NoDup (map user_id (users w)) ->
  NoDup (map username (users w)) ->
  map role
      (users (snd (UserViewSet.patch_own_profile
                     (mkRequest "PATCH" (Authenticated u)) data w)))
  = map role (users w)
  /\ (forall resp w',
        UserViewSet.patch_own_profile
          (mkRequest "PATCH" (Authenticated u)) data w = (Ok resp, w') ->
        response_data resp = set_attrs (submitted data) u
        /\ role (response_data resp) = role u
        /\ find (fun r => (user_id r =? user_id u)%Z) (users w')
           = Some (set_attrs (submitted data) u))
  /\ (forall v,
        UserEditSerializer_is_valid (users w) (Some u) true data = Ok v ->
        username_is_not_me (username (set_attrs v u)) = true ->
        UserViewSet.patch_own_profile
          (mkRequest "PATCH" (Authenticated u)) data w
        = (Ok (mkResponse (set_attrs (submitted data) u) HTTP_200_OK),
           set_users w (replace_user (set_attrs (submitted data) u) (users w)))).
Proof.
  intros Hu Hpk Hnames. rewrite patch_own_profile_unfold.
  destruct (UserEditSerializer_is_valid (users w) (Some u) true data)
    as [v|e] eqn:Hv.
  - pose proof (edit_keeps_usernames_unique _ _ _ _ Hnames Hu Hv) as Hfree.
    pose proof (edit_validated _ _ _ _ Hv) as ->.
    unfold user_constraints. rewrite Hfree.
    destruct (username_is_not_me (username (set_attrs (submitted data) u)))
      eqn:Hfree_name; cbn [negb].
    + split; [| split].
      * cbn [snd users set_users].
        apply replace_user_roles with (u := u); auto.
      * intros resp w' [= <- <-]. cbn [response_data users set_users].
        split; [reflexivity |]. split; [reflexivity |].
        apply replace_user_find; auto.
      * intros v [= <-] _. reflexivity.
    + split; [reflexivity |]. split; [discriminate |].
      intros v [= <-] Hme. congruence.
  - split; [reflexivity |]. split; discriminate.
Qed.

End OwnProfile.

(** Alice, a plain user, submits a biography and the role of an
    administrator: the biography is stored, her role stays "user". *)
Lemma own_profile_role_is_read_only_witness :
  UserViewSet.patch_own_profile (E := Demo.env) (Demo.patch Demo.alice)
    (mkUserData None None None None (Some "critic") (Some "admin")) Demo.world
  = (Ok (mkResponse
           (mkUser 1 "alice" "a@x.com" "" "" false (Some "critic") "user" "")
           HTTP_200_OK),
     set_users Demo.world
       [mkUser 1 "alice" "a@x.com" "" "" false (Some "critic") "user" "";
        Demo.bob; Demo.mod_; Demo.root]).
Proof.
  assert (Hin : In Demo.alice (users Demo.world)) by (left; reflexivity).
  assert (Hpk : NoDup (map user_id (users Demo.world))).
  { repeat (constructor; [cbn; intuition discriminate |]). constructor. }
  assert (Hnames : NoDup (map username (users Demo.world))).
  { repeat (constructor; [cbn; intuition discriminate |]). constructor. }
  apply (proj2 (proj2 (own_profile_role_is_read_only (E := Demo.env)
                         Demo.world Demo.alice
                         (mkUserData None None None None
                                     (Some "critic") (Some "admin"))
                         Hin Hpk Hnames))
           (submitted (mkUserData None None None None
                                  (Some "critic") (Some "admin"))));
    reflexivity.
Defined.

(* ================================================================= *)
(** ** Token service: register *)

Section Register.
Context {E : Env}.

Lemma existsb_and_true {A} (p : A -> bool) (l : list A) :
  existsb (fun r => p r && true) l = existsb p l.
Proof.
  induction l as [|x xs IH]; [reflexivity |].
  cbn. rewrite IH, andb_true_r. reflexivity.
Qed.

Lemma find_app_none {A} (p : A -> bool) (l : list A) (x : A) :
  existsb p l = false -> p x = true -> find p (l ++ [x]) = Some x.
Proof.
  induction l as [|y ys IH]; cbn; intros Hl Hx.
  - rewrite Hx. reflexivity.
  - apply orb_false_iff in Hl. destruct Hl as [Hy Hys].
    rewrite Hy. apply IH; assumption.
Qed.

(** The user-name field of the sign-up serializer, case by case. *)
Lemma signup_username_field (stored : list User) (data : SignUpData) :
  and_then
    (run_field true false
       (CharField false [UniqueValidator username user_id stored None])
       (signup_username data))
    validate_username
  = match signup_username data with
    | None => Invalid "This field is required."
    | Some _ =>
        if signup_name data =? "" then Invalid "This field may not be blank."
        else if existsb (fun r => username r =? signup_name data) stored
        then Invalid unique_message
        else if has_null (signup_name data)
        then Invalid "Null characters are not allowed."
        else if Py.lower (signup_name data) =? "me"
        then Invalid "Username 'me' is not valid"
        else Valid (signup_name data)
    end.
Proof.
  unfold signup_name. destruct (signup_username data) as [s|]; [| reflexivity].
  cbn [run_field option_map with_default]. unfold CharField.
  destruct (Py.strip s =? ""); [reflexivity |].
  cbn [app run_validators UniqueValidator ProhibitNullCharactersValidator].
  rewrite existsb_and_true.
  destruct (existsb _ stored); [reflexivity |].
  cbn [negb]. destruct (has_null (Py.strip s)); reflexivity.
Qed.

Lemma signup_email_field (stored : list User) (data : SignUpData) :
  run_field true false
    (EmailField false [UniqueValidator email user_id stored None])
    (signup_email data)
  = match signup_email data with
    | None => Invalid "This field is required."
    | Some _ =>
        if signup_mail data =? "" then Invalid "This field may not be blank."
        else if existsb (fun r => email r =? signup_mail data) stored
        then Invalid unique_message
        else if negb (EmailValidator (signup_mail data))
        then Invalid "Enter a valid email address."
        else if has_null (signup_mail data)
        then Invalid "Null characters are not allowed."
        else Valid (signup_mail data)
    end.
Proof.
  unfold signup_mail. destruct (signup_email data) as [s|]; [| reflexivity].
  cbn [run_field option_map with_default]. unfold EmailField, CharField.
  destruct (Py.strip s =? ""); [reflexivity |].
  cbn [app run_validators UniqueValidator ProhibitNullCharactersValidator].
  rewrite existsb_and_true.
  destruct (existsb _ stored); [reflexivity |].
  cbn [negb]. destruct (EmailValidator (Py.strip s)); [| reflexivity].
  cbn [negb]. destruct (has_null (Py.strip s)); reflexivity.
Qed.

Lemma signup_is_valid_accepts (stored : list User) (data : SignUpData) :
  signup_acceptable stored (signup_name data) (signup_mail data) = true ->
  SignUpSerializer_is_valid stored data
  = Ok (mkSignUpValidated (signup_name data) (signup_mail data)).
Proof.
  unfold signup_acceptable, name_acceptable, mail_acceptable.
  rewrite !andb_true_iff, !negb_true_iff.
  intros [[[[Hn Hun] Hn0] Hme] [[[Hm Hum] Hmail] Hm0]].
  unfold SignUpSerializer_is_valid.
  rewrite signup_username_field, signup_email_field.
  rewrite Hn, Hm, Hun, Hn0, Hme, Hum, Hmail, Hm0. cbn [negb].
  destruct (signup_username data) as [s|] eqn:Hs.
  - destruct (signup_email data) as [s'|] eqn:Hs'; [reflexivity |].
    unfold signup_mail in Hm. rewrite Hs' in Hm. discriminate.
  - unfold signup_name in Hn. rewrite Hs in Hn. discriminate.
Qed.

Lemma signup_is_valid_rejects (stored : list User) (data : SignUpData) :
  signup_acceptable stored (signup_name data) (signup_mail data) = false ->
  exists detail,
    SignUpSerializer_is_valid stored data = Raise (ValidationError detail).
Proof.
  unfold signup_acceptable, name_acceptable, mail_acceptable. intros Hacc.
  unfold SignUpSerializer_is_valid.
  rewrite signup_username_field, signup_email_field.
  destruct (signup_username data) as [s|]; [| eexists; reflexivity].
  destruct (signup_name data =? ""); [eexists; reflexivity |].
  destruct (existsb (fun r => username r =? _) stored); [eexists; reflexivity |].
  destruct (has_null (signup_name data)); [eexists; reflexivity |].
  destruct (Py.lower (signup_name data) =? "me"); [eexists; reflexivity |].
  destruct (signup_email data) as [s'|]; [| eexists; reflexivity].
  destruct (signup_mail data =? ""); [eexists; reflexivity |].
  destruct (existsb (fun r => email r =? _) stored); [eexists; reflexivity |].
  destruct (EmailValidator (signup_mail data)); [| eexists; reflexivity].
  destruct (has_null (signup_mail data)); [eexists; reflexivity |].
  discriminate Hacc.
Qed.

Lemma register_rejects (w : World) (data : SignUpData) (e : exn) :
  SignUpSerializer_is_valid (users w) data = Raise e ->
  register data w = (Raise e, w).
Proof.
  intros Hv. unfold register.
  erewrite bind_ok by reflexivity.
  erewrite bind_raise by (unfold lift; rewrite Hv; reflexivity).
  reflexivity.
Qed.

Lemma register_accepts (w : World) (data : SignUpData) :
  signup_acceptable (users w) (signup_name data) (signup_mail data) = true ->
  register data w
  = (Ok (mkResponse (signup_name data, signup_mail data) HTTP_200_OK),
     registered w data).
Proof.
  intros Hacc. pose proof (signup_is_valid_accepts _ _ Hacc) as Hv.
  revert Hacc. unfold signup_acceptable, name_acceptable, mail_acceptable.
  rewrite !andb_true_iff, !negb_true_iff.
  intros [[[[Hn Hun] Hn0] Hme] [[[Hm Hum] Hmail] Hm0]].
  unfold register, SignUpSerializer_save, insert_user, user_constraints,
    send_mail, get_object_or_404, username_is_not_me.
  unfold_handler. rewrite Hv.
  cbn [sv_username sv_email username email users set_users].
  rewrite Hme, Hun. cbn [negb users set_users].
  rewrite find_app_none.
  - reflexivity.
  - destruct (existsb
                (fun u => (username u =? signup_name data)
                          && (email u =? signup_mail data)) (users w))
      eqn:Hex; [| reflexivity].
    exfalso. apply existsb_exists in Hex. destruct Hex as [r [Hr Hboth]].
    apply andb_true_iff in Hboth. destruct Hboth as [Hname _].
    assert (Htaken : existsb (fun r => username r =? signup_name data) (users w)
                     = true)
      by (apply existsb_exists; exists r; auto).
    congruence.
  - cbn [username email]. rewrite !String.eqb_refl. reflexivity.
Qed.

Lemma taken_name (stored : list User) (name : string) :
  existsb (fun r => username r =? name) stored = true
  <-> exists r, In r stored /\ username r = name.
Proof.
  rewrite existsb_exists. split; intros [r [Hr Hn]]; exists r; split; auto;
    apply String.eqb_eq; exact Hn.
Qed.

Lemma taken_mail (stored : list User) (mail : string) :
  existsb (fun r => email r =? mail) stored = true
  <-> exists r, In r stored /\ email r = mail.
Proof.
  rewrite existsb_exists. split; intros [r [Hr Hn]]; exists r; split; auto;
    apply String.eqb_eq; exact Hn.
Qed.

(** C7, as amended. The collision check on the user name is an exact
    match: a registration is refused with the uniqueness error on
    [username] exactly when the submitted name, trimmed, is non-blank and
    equals the name of a stored user character for character. *)
Theorem username_collision_is_exact (w : World) (data : SignUpData) :
  (exists detail,
     register data w = (Raise (ValidationError detail), w)
     /\ In ("username", unique_message) detail)
  <-> (signup_name data <> ""
       /\ exists r, In r (users w) /\ username r = signup_name data).
Proof.
  rewrite <- taken_name. split.
  - intros [detail [Hreg Hin]].
    destruct (signup_acceptable (users w) (signup_name data) (signup_mail data))
      eqn:Hacc.
    + rewrite (register_accepts _ _ Hacc) in Hreg. discriminate.
    + destruct (signup_is_valid_rejects _ _ Hacc) as [d Hd].
      rewrite (register_rejects _ _ _ Hd) in Hreg. injection Hreg as <-.
      revert Hd Hin. unfold SignUpSerializer_is_valid.
      rewrite signup_username_field, signup_email_field.
      unfold unique_message.
      destruct (signup_username data) as [s|];
        destruct (signup_name data =? "") eqn:Hblank;
        destruct (existsb (fun r => username r =? signup_name data) (users w))
          eqn:Htaken;
        destruct (has_null (signup_name data));
        destruct (Py.lower (signup_name data) =? "me");
        destruct (signup_email data) as [s'|];
        destruct (signup_mail data =? "");
        destruct (existsb (fun r => email r =? signup_mail data) (users w));
        destruct (EmailValidator (signup_mail data));
        destruct (has_null (signup_mail data));
        cbn; intros [= <-]; cbn;
        try (apply String.eqb_neq in Hblank);
        intuition (try discriminate; auto).
  - intros [Hblank Htaken]. apply String.eqb_neq in Hblank.
    destruct (signup_username data) as [s|] eqn:Hs.
    + assert (Hv : exists rest,
                 SignUpSerializer_is_valid (users w) data
                 = Raise (ValidationError
                            (("username", unique_message) :: rest))).
      { unfold SignUpSerializer_is_valid.
        rewrite signup_username_field, signup_email_field.
        rewrite Hs, Hblank, Htaken. cbn [field_error app].
        eexists. reflexivity. }
      destruct Hv as [rest Hv].
      exists (("username", unique_message) :: rest). split.
      * apply register_rejects. exact Hv.
      * left. reflexivity.
    + unfold signup_name in Hblank. rewrite Hs in Hblank. discriminate.
Qed.

(** C8, as amended. A registration whose name and address are non-blank,
    well-formed, not reserved and held by no stored user creates the
    user, mails a confirmation code and answers 200; registering the same
    pair again is then refused with ValidationError. Every other
    registration fails with ValidationError and changes nothing; so does,
    in particular, any registration whose name or address is held by a
    stored user, whoever that is, or whose name is the reserved one. *)
Theorem register_outcomes (w : World) (data : SignUpData) :
  (signup_acceptable (users w) (signup_name data) (signup_mail data) = true ->
   register data w
   = (Ok (mkResponse (signup_name data, signup_mail data) HTTP_200_OK),
      registered w data)
   /\ exists detail,
        register data (registered w data)
        = (Raise (ValidationError detail), registered w data))
  /\ (signup_acceptable (users w) (signup_name data) (signup_mail data) = false ->
      exists detail, register data w = (Raise (ValidationError detail), w))
  /\ ((exists r, In r (users w)
                 /\ (username r = signup_name data
                     \/ email r = signup_mail data))
      \/ Py.lower (signup_name data) = "me" ->
      signup_acceptable (users w) (signup_name data) (signup_mail data) = false).
Proof.
  assert (Hrej : forall w0,
             signup_acceptable (users w0) (signup_name data) (signup_mail data)
             = false ->
             exists detail,
               register data w0 = (Raise (ValidationError detail), w0)).
  { intros w0 Hacc. destruct (signup_is_valid_rejects _ _ Hacc) as [d Hd].
    exists d. apply register_rejects. exact Hd. }
  split; [| split].
  - intros Hacc. split; [apply register_accepts; exact Hacc |].
    apply Hrej. unfold signup_acceptable, name_acceptable, registered.
    cbn [users set_users set_outbox].
    rewrite existsb_app. cbn [existsb registered_user username].
    rewrite String.eqb_refl, orb_true_r. cbn [negb].
    rewrite andb_false_r. reflexivity.
  - apply Hrej.
  - intros Htaken. apply not_true_is_false.
    unfold signup_acceptable, name_acceptable, mail_acceptable.
    rewrite !andb_true_iff, !negb_true_iff.
    intros [[[[Hn Hun] Hn0] Hme] [[[Hm Hum] Hmail] Hm0]].
    destruct Htaken as [[r [Hr [Hname | Haddr]]] | Hreserved].
    + assert (Ht : existsb (fun r => username r =? signup_name data) (users w)
                   = true) by (apply taken_name; eauto).
      congruence.
    + assert (Ht : existsb (fun r => email r =? signup_mail data) (users w)
                   = true) by (apply taken_mail; eauto).
      congruence.
    + apply String.eqb_eq in Hreserved. congruence.
Qed.

End Register.

(** A user name that differs from a stored one in letter case only is
    registered: "alice" next to "Alice". *)
Lemma case_variant_is_registered :
  Py.lower "alice" = Py.lower (username Demo.Alice)
  /\ fst (register (E := Demo.env)
            (mkSignUpData (Some "alice") (Some "a2@x.com")) Demo.capitalised)
     = Ok (mkResponse ("alice", "a2@x.com") HTTP_200_OK)
  /\ map username
         (users (snd (register (E := Demo.env)
                        (mkSignUpData (Some "alice") (Some "a2@x.com"))
                        Demo.capitalised)))
     = ["Alice"; "alice"].
Proof. repeat split. Qed.

(** Registering the same name and address twice: the second request is
    refused and no second code is mailed. *)
Lemma repeat_registration_is_refused :
  register (E := Demo.env)
    (mkSignUpData (Some "alice") (Some "a@x.com")) Demo.empty
  = (Ok (mkResponse ("alice", "a@x.com") HTTP_200_OK),
     registered (E := Demo.env) Demo.empty
       (mkSignUpData (Some "alice") (Some "a@x.com")))
  /\ register (E := Demo.env)
       (mkSignUpData (Some "alice") (Some "a@x.com"))
       (registered (E := Demo.env) Demo.empty
          (mkSignUpData (Some "alice") (Some "a@x.com")))
     = (Raise (ValidationError [("username", unique_message);
                                ("email", unique_message)]),
        registered (E := Demo.env) Demo.empty
          (mkSignUpData (Some "alice") (Some "a@x.com")))
  /\ List.length
       (outbox (registered (E := Demo.env) Demo.empty
                  (mkSignUpData (Some "alice") (Some "a@x.com"))))
     = 1%nat.
Proof. repeat split. Qed.

(* ================================================================= *)
(** ** The reserved user name *)

Section Reserved.
Context {E : Env}.

Lemma lower_m (c : ascii) :
  Py.lower_ascii c = "m"%char -> Py.is_space c = false.
Proof.
  destruct c as [[] [] [] [] [] [] [] []]; vm_compute; congruence.
Qed.

Lemma lower_e (c : ascii) :
  Py.lower_ascii c = "e"%char -> Py.is_space c = false.
Proof.
  destruct c as [[] [] [] [] [] [] [] []]; vm_compute; congruence.
Qed.

(** A name that is "me" in some letter case has no white space to trim. *)
Lemma reserved_name_is_trimmed (name : string) :
  Py.lower name = "me" -> Py.strip name = name.
Proof.
  destruct name as [|a [|b [|c rest]]]; cbn; try discriminate.
  intros [= Ha Hb]. unfold Py.strip. cbn.
  rewrite (lower_m a Ha). cbn. rewrite (lower_e b Hb). reflexivity.
Qed.

(** Sign-up refuses the reserved name, in any letter case, with a
    ValidationError, and stores nothing. *)
Lemma signup_rejects_reserved_name (w : World) (name : string)
    (mail : option string) :
  Py.lower name = "me" ->
  exists detail,
    register (mkSignUpData (Some name) mail) w
    = (Raise (ValidationError detail), w).
Proof.
  intros Hme.
  assert (Hacc : signup_acceptable (users w)
                   (signup_name (mkSignUpData (Some name) mail))
                   (signup_mail (mkSignUpData (Some name) mail)) = false).
  { unfold signup_acceptable, name_acceptable, signup_name.
    cbn [signup_username option_map with_default].
    rewrite (reserved_name_is_trimmed name Hme).
    apply String.eqb_eq in Hme. rewrite Hme. cbn [negb].
    rewrite andb_false_r. reflexivity. }
  destruct (signup_is_valid_rejects _ _ Hacc) as [detail Hd].
  exists detail. apply register_rejects. exact Hd.
Qed.

(** C9. User creation by an administrator goes through [UserSerializer],
    which has no check of the reserved name: a name that is "me" in some
    letter case passes validation and is stopped only by the check
    constraint of the store, as an IntegrityError (status 500) instead of
    a ValidationError. *)
Theorem user_creation_of_reserved_name (w : World) (request : Request)
    (data : UserData) (v : UserValidated) (name : string) :
  Permissions.IsAdmin.has_permission request = true ->
  UserSerializer_is_valid (users w) None false data = Ok v ->
  uv_username v = Some name ->
  Py.lower name = "me" ->
  UserViewSet.create request data w
  = (Raise (IntegrityError "username_is_not_me"), w)
  /\ status_of_exn (IntegrityError "username_is_not_me") = 500.
Proof.
  intros Hadmin Hv Hname Hme. split; [| reflexivity].
  unfold UserViewSet.create.
  erewrite bind_ok
    by (unfold check_permissions; rewrite Hadmin; apply enforce_allow).
  erewrite bind_ok by reflexivity.
  erewrite bind_ok by (unfold lift; rewrite Hv; reflexivity).
  erewrite bind_raise; [reflexivity |].
  unfold User_save, insert_user. rewrite Hname. cbn [with_default].
  erewrite bind_ok by reflexivity.
  erewrite bind_raise; [reflexivity |].
  unfold lift, user_constraints, username_is_not_me. cbn [username].
  apply String.eqb_eq in Hme. rewrite Hme. reflexivity.
Qed.

End Reserved.

(** The administrator creates the user "me": validation passes and the
    store answers with an integrity error. *)
Lemma user_creation_of_reserved_name_witness :
  UserViewSet.create (E := Demo.env) (Demo.post Demo.root)
    (mkUserData (Some "me") (Some "me@x.com") None None None None) Demo.world
  = (Raise (IntegrityError "username_is_not_me"), Demo.world)
  /\ status_of_exn (IntegrityError "username_is_not_me") = 500.
Proof.
  apply (user_creation_of_reserved_name (E := Demo.env) Demo.world
           (Demo.post Demo.root)
           (mkUserData (Some "me") (Some "me@x.com") None None None None)
           (mkUserValidated (Some "me") (Some "me@x.com") None None None None)
           "me");
    reflexivity.
Defined.

(* ================================================================= *)
(** ** Titles: the rating on the read path *)

Section Rating.

Lemma representation_of_avg (scores : list Z) :
  option_map IntegerField_to_representation (Avg scores)
  = truncated_mean scores.
Proof.
  destruct scores as [|x xs]; [reflexivity |].
  unfold Avg, truncated_mean, IntegerField_to_representation.
  cbn [option_map Qnum Qden List.length].
  rewrite <- Pos.of_nat_succ. reflexivity.
Qed.

Lemma queryset_ratings (w : World) :
  map repr_rating (map (ReadOnlyTitleSerializer w) (TitlesViewSet.queryset w))
  = map (fun t => truncated_mean (scores_of w t)) (titles w).
Proof.
  unfold TitlesViewSet.queryset. rewrite !map_map.
  apply map_ext. intros t. cbn. apply representation_of_avg.
Qed.

Lemma queryset_ignores_stored_rating (w : World) (stored : Title -> Z) :
  map (ReadOnlyTitleSerializer
         (set_titles w (map (fun t => set_rating t (stored t)) (titles w))))
      (TitlesViewSet.queryset
         (set_titles w (map (fun t => set_rating t (stored t)) (titles w))))
  = map (ReadOnlyTitleSerializer w) (TitlesViewSet.queryset w).
Proof.
  unfold TitlesViewSet.queryset. cbn [titles set_titles reviews].
  rewrite !map_map. apply map_ext. intros t. reflexivity.
Qed.

(** C10, as amended. On the read path (list, retrieve) the rating of a
    title is the integer part of the mean of the scores of its reviews,
    null when it has none; the stored column [rating] plays no part:
    the answer is the same whatever that column holds. *)
Theorem rating_is_truncated_mean (w : World) (request : Request) :
  Permissions.is_safe (method request) = true ->
  (exists body,
     TitlesViewSet.list_ request w = (Ok (mkResponse body HTTP_200_OK), w)
     /\ map repr_rating body
        = map (fun t => truncated_mean (scores_of w t)) (titles w))
  /\ (forall pk t,
        find (fun x => (title_id x =? pk)%Z) (titles w) = Some t ->
        exists body,
          TitlesViewSet.retrieve request pk w
          = (Ok (mkResponse body HTTP_200_OK), w)
          /\ repr_rating body = truncated_mean (scores_of w t))
  /\ (forall stored : Title -> Z,
        fst (TitlesViewSet.list_ request
               (set_titles w
                  (map (fun t => set_rating t (stored t)) (titles w))))
        = fst (TitlesViewSet.list_ request w)).
Proof.
  intros Hsafe.
  assert (Hallow : forall w0, enforce request (authorize_catalog request) w0 = (Ok tt, w0)).
  { intros w0. unfold authorize_catalog,
      Permissions.IsAdminOrReadOnly.has_permission. rewrite Hsafe. reflexivity. }
  assert (Hlist : forall w0,
             TitlesViewSet.list_ request w0
             = (Ok (mkResponse
                      (map (ReadOnlyTitleSerializer w0)
                           (TitlesViewSet.queryset w0)) HTTP_200_OK), w0)).
  { intros w0. unfold TitlesViewSet.list_.
    erewrite bind_ok by apply Hallow.
    erewrite bind_ok by reflexivity. reflexivity. }
  split; [| split].
  - eexists. split; [apply Hlist | apply queryset_ratings].
  - intros pk t Ht. unfold TitlesViewSet.retrieve.
    erewrite bind_ok by apply Hallow.
    erewrite bind_ok by reflexivity.
    unfold get_object_or_404. rewrite find_queryset, Ht. cbn [option_map].
    erewrite bind_ok by reflexivity.
    eexists. split; [reflexivity |].
    cbn [ReadOnlyTitleSerializer repr_rating reviews__score__avg].
    apply representation_of_avg.
  - intros stored. rewrite !Hlist. cbn [fst].
    rewrite queryset_ignores_stored_rating. reflexivity.
Qed.

End Rating.

(** Anyone may read Solaris; with the scores 1 and 2 its rating is 1. *)
Lemma rating_is_truncated_mean_witness :
  exists body,
    TitlesViewSet.retrieve (mkRequest "GET" AnonymousUser) 1 Demo.reviewed
    = (Ok (mkResponse body HTTP_200_OK), Demo.reviewed)
    /\ repr_rating body = Some 1.
Proof.
  apply (proj1 (proj2 (rating_is_truncated_mean Demo.reviewed
                         (mkRequest "GET" AnonymousUser) eq_refl))
           1 Demo.solaris eq_refl).
Defined.

(** The scores 1 and 2 have the mean 3/2; the rating answered is 1. *)
Lemma rating_is_not_the_mean :
  fst (TitlesViewSet.retrieve (mkRequest "GET" AnonymousUser) 1 Demo.reviewed)
  = Ok (mkResponse
          (mkTitleRepresentation 1 "Solaris" 1972 (Some 1) None
             [("Drama", "drama")] (Some ("Film", "film")))
          HTTP_200_OK)
  /\ Avg (scores_of Demo.reviewed Demo.solaris) = Some (3 # 2)%Q
  /\ ~ (inject_Z 1 == 3 # 2)%Q.
Proof.
  split; [reflexivity |]. split; [reflexivity |].
  intros Heq. discriminate Heq.
Qed.

(* ================================================================= *)
(** ** Token service: what the exchange checks first and never does *)

Section ExchangeEdges.
Context {E : Env}.

Lemma plain_char_field (submitted : option string) :
  run_field true false (CharField false []) submitted
  = match submitted with
    | None => Invalid "This field is required."
    | Some s =>
        if Py.strip s =? "" then Invalid "This field may not be blank."
        else if has_null (Py.strip s)
        then Invalid "Null characters are not allowed."
        else Valid (Py.strip s)
    end.
Proof.
  destruct submitted as [s|]; [| reflexivity].
  cbn [run_field]. unfold CharField.
  destruct (Py.strip s =? ""); [reflexivity |].
  cbn [app run_validators ProhibitNullCharactersValidator].
  destruct (has_null (Py.strip s)); reflexivity.
Qed.

Lemma plain_char_field_refused (submitted : option string) :
  refused submitted = true ->
  exists message,
    run_field true false (CharField false []) submitted = Invalid message.
Proof.
  rewrite plain_char_field. unfold refused.
  destruct submitted as [s|]; [| eexists; reflexivity].
  destruct (Py.strip s =? ""); [eexists; reflexivity |].
  cbn [orb]. intros ->. eexists; reflexivity.
Qed.

Lemma plain_char_field_accepted (submitted : option string) :
  refused submitted = false ->
  exists s, submitted = Some s
            /\ run_field true false (CharField false []) submitted
               = Valid (Py.strip s).
Proof.
  rewrite plain_char_field. unfold refused.
  destruct submitted as [s|]; [| discriminate].
  intros Hr. apply orb_false_iff in Hr. destruct Hr as [-> ->].
  exists s. split; reflexivity.
Qed.

Lemma token_is_valid_cases (data : TokenData) :
  match GetTokenSerializer_is_valid data with
  | Ok v =>
      refused (token_username data) = false
      /\ refused (token_confirmation_code data) = false
  | Raise e =>
      exists detail,
        e = ValidationError detail
        /\ (In "username" (map fst detail)
            <-> refused (token_username data) = true)
        /\ (In "confirmation_code" (map fst detail)
            <-> refused (token_confirmation_code data) = true)
        /\ refused (token_username data)
           || refused (token_confirmation_code data) = true
  end.
Proof.
  unfold GetTokenSerializer_is_valid. rewrite !plain_char_field.
  unfold refused.
  destruct (token_username data) as [u|];
    destruct (token_confirmation_code data) as [c|];
    try destruct (Py.strip u =? "");
    try destruct (has_null (Py.strip u));
    try destruct (Py.strip c =? "");
    try destruct (has_null (Py.strip c));
    cbn;
    try (split; reflexivity);
    eexists; (split; [reflexivity |]); cbn;
    intuition (try discriminate; auto).
Qed.

(** X1. The token exchange validates its two fields before it looks the user
    up: it fails with a ValidationError exactly when the user name or
    the confirmation code is missing, blank or holds a null character,
    whether or not the user exists; the error then names exactly the
    refused fields, and nothing is written. *)
Theorem exchange_checks_fields_first (jti : string) (data : TokenData)
    (w : World) :
  ((exists detail w',
      get_jwt_token jti data w = (Raise (ValidationError detail), w'))
   <-> refused (token_username data)
       || refused (token_confirmation_code data) = true)
  /\ forall detail w',
       get_jwt_token jti data w = (Raise (ValidationError detail), w') ->
       w' = w
       /\ (In "username" (map fst detail)
           <-> refused (token_username data) = true)
       /\ (In "confirmation_code" (map fst detail)
           <-> refused (token_confirmation_code data) = true).
Proof.
  pose proof (token_is_valid_cases data) as Hcases.
  destruct (GetTokenSerializer_is_valid data) as [v|e] eqn:Hv.
  - destruct Hcases as [Hu Hc]. rewrite Hu, Hc. cbn [orb].
    rewrite (get_jwt_token_unfold jti data v w Hv).
    assert (Hnot : forall detail w',
               match find (fun u => username u =? tv_username v) (users w) with
               | Some u =>
                   if check_token (clock_now w) u (tv_confirmation_code v)
                   then (Ok (mkResponse (Token (AccessToken_for_user (clock_now w) jti u)) 200), w)
                   else (Ok (mkResponse (Errors []) 400), w)
               | None => (Raise Http404, w)
               end <> (Raise (ValidationError detail), w')).
    { intros detail w'. destruct (find _ (users w)) as [u|]; [| discriminate].
      destruct (check_token _ u _); discriminate. }
    split.
    + split; [| discriminate]. intros [detail [w' Hr]].
      exfalso. exact (Hnot _ _ Hr).
    + intros detail w' Hr. exfalso. exact (Hnot _ _ Hr).
  - destruct Hcases as [detail [-> [Hu [Hc Hany]]]].
    destruct (exchange_invalid_fields jti data w _ Hv) as [Hr _]. rewrite Hr.
    split.
    + split; [intros _; exact Hany |]. intros _. eauto.
    + intros detail' w' [= <- <-]. auto.
Qed.

(** X2. The token exchange never writes: whatever the request and its
    outcome, the store is as before. So an exchange does not use the
    confirmation code up: while the user table is the same and the
    generator verifies at the later time what it verified before, the
    user name and code that were answered a token are answered a token
    again, made for the same user with the identifier drawn then. *)
Theorem exchange_never_writes (jti jti' : string) (data : TokenData)
    (w later : World) :
  snd (get_jwt_token jti data w) = w
  /\ (users later = users w ->
      (forall u code, check_token (clock_now later) u code
                      = check_token (clock_now w) u code) ->
      forall token status,
        fst (get_jwt_token jti data w)
        = Ok (mkResponse (Token token) status) ->
        exists u,
          In u (users w)
          /\ token = AccessToken_for_user (clock_now w) jti u
          /\ get_jwt_token jti' data later
             = (Ok (mkResponse
                      (Token (AccessToken_for_user (clock_now later) jti' u))
                      HTTP_200_OK),
                later)).
Proof.
  destruct (GetTokenSerializer_is_valid data) as [v|e] eqn:Hv.
  - rewrite (get_jwt_token_unfold jti data v w Hv).
    rewrite (get_jwt_token_unfold jti' data v later Hv).
    split.
    + destruct (find _ (users w)) as [u|]; [| reflexivity].
      destruct (check_token _ u _); reflexivity.
    + intros Husers Hcheck token status. rewrite Husers.
      destruct (find _ (users w)) as [u|] eqn:Hfind; [| discriminate].
      rewrite Hcheck.
      destruct (check_token _ u _); [| discriminate].
      cbn [fst]. intros [= <- _]. exists u.
      apply find_some in Hfind. destruct Hfind as [Hin _].
      split; [exact Hin |]. split; reflexivity.
  - destruct (exchange_invalid_fields jti data w _ Hv) as [-> _].
    split; [reflexivity |]. intros _ _ token status. discriminate.
Qed.

End ExchangeEdges.

(** Alice exchanges her code twice; the second token is made for her as
    well, with the identifier drawn for it. *)
Lemma exchange_never_writes_witness :
  get_jwt_token (E := Demo.env) "9f3c"
    (mkTokenData (Some "alice") (Some "alice:a@x.com")) Demo.world
  = (Ok (mkResponse (Token "jwt.alice.9f3c") HTTP_200_OK), Demo.world).
Proof.
  destruct (proj2 (exchange_never_writes (E := Demo.env) "0a1b" "9f3c"
                     (mkTokenData (Some "alice") (Some "alice:a@x.com"))
                     Demo.world Demo.world)
              eq_refl (fun _ _ => eq_refl) "jwt.alice.0a1b" HTTP_200_OK eq_refl)
    as [u [Hin [Htoken Hrun]]].
  rewrite Hrun. cbn in Hin.
  destruct Hin as [<- | [<- | [<- | [<- | []]]]];
    try discriminate Htoken; reflexivity.
Defined.

(* ================================================================= *)
(** ** Token service: from registration to the token *)

Section RoundTrip.
Context {E : Env}.

Lemma rstrip_cons (c : ascii) (r : string) :
  Py.is_space c = false -> Py.rstrip (String c r) = String c (Py.rstrip r).
Proof.
  intros Hc. cbn. rewrite Hc. destruct (Py.rstrip r); reflexivity.
Qed.

Lemma rstrip_idempotent (s : string) : Py.rstrip (Py.rstrip s) = Py.rstrip s.
Proof.
  induction s as [|c r IH]; [reflexivity |].
  cbn. destruct (Py.rstrip r) as [|c' r'] eqn:Hr.
  - destruct (Py.is_space c) eqn:Hc; [reflexivity |].
    cbn. rewrite Hc. reflexivity.
  - cbn in IH |- *. destruct (Py.rstrip r') as [|c'' r''] eqn:Hr'.
    + destruct (Py.is_space c'); [discriminate IH |].
      injection IH as <-. reflexivity.
    + injection IH as <-. reflexivity.
Qed.

Lemma lstrip_head (s : string) :
  Py.lstrip s = ""
  \/ exists c r, Py.lstrip s = String c r /\ Py.is_space c = false.
Proof.
  induction s as [|c r IH]; [left; reflexivity |].
  cbn. destruct (Py.is_space c) eqn:Hc; [exact IH |].
  right. exists c, r. split; [reflexivity | exact Hc].
Qed.

(** Trimming a trimmed value changes nothing. *)
Lemma strip_idempotent (s : string) : Py.strip (Py.strip s) = Py.strip s.
Proof.
  unfold Py.strip. destruct (lstrip_head s) as [-> | [c [r [-> Hc]]]].
  - reflexivity.
  - rewrite (rstrip_cons c r Hc). cbn [Py.lstrip]. rewrite Hc.
    rewrite <- (rstrip_cons c r Hc). apply rstrip_idempotent.
Qed.

Lemma signup_name_trimmed (data : SignUpData) :
  Py.strip (signup_name data) = signup_name data.
Proof.
  unfold signup_name. destruct (signup_username data) as [s|]; cbn.
  - apply strip_idempotent.
  - reflexivity.
Qed.

(** X3. Registration followed by the exchange of the mailed code: when the
    code generator verifies the codes it makes, a user who registers and
    then submits the user name with the code from the mail is answered a
    token for the new user, and the exchange writes nothing. *)
Theorem register_then_exchange (jti : string) (w : World) (data : SignUpData)
    (code : string) :
  (forall now u, check_token now u (make_token now u) = true) ->
  signup_acceptable (users w) (signup_name data) (signup_mail data) = true ->
  code = make_token (clock_now w) (registered_user w data) ->
  refused (Some code) = false ->
  Py.strip code = code ->
  In (mkMail "Registration" ("Confirmation code: " ++ code)%string
             [signup_mail data])
     (outbox (snd (register data w)))
  /\ get_jwt_token jti (mkTokenData (Some (signup_name data)) (Some code))
                   (snd (register data w))
     = (Ok (mkResponse
              (Token (AccessToken_for_user (clock_now w) jti
                        (registered_user w data)))
              HTTP_200_OK),
        snd (register data w)).
Proof.
  intros Hgen Hacc Hcode Hok Htrim.
  rewrite (register_accepts w data Hacc). cbn [snd]. split.
  - unfold registered. cbn [outbox set_outbox]. apply in_or_app. right.
    left. rewrite Hcode. reflexivity.
  - assert (Hname : refused (Some (signup_name data)) = false).
    { revert Hacc. unfold signup_acceptable, name_acceptable.
      rewrite !andb_true_iff, !negb_true_iff.
      intros [[[[Hn _] Hn0] _] _].
      unfold refused. rewrite signup_name_trimmed, Hn, Hn0. reflexivity. }
    assert (Hv : GetTokenSerializer_is_valid
                   (mkTokenData (Some (signup_name data)) (Some code))
                 = Ok (mkTokenValidated (signup_name data) code)).
    { unfold GetTokenSerializer_is_valid. rewrite !plain_char_field.
      cbn [token_username token_confirmation_code].
      unfold refused in Hname, Hok.
      apply orb_false_iff in Hname. destruct Hname as [-> ->].
      apply orb_false_iff in Hok. destruct Hok as [-> ->].
      rewrite signup_name_trimmed, Htrim. reflexivity. }
    rewrite (get_jwt_token_unfold _ _ _ _ Hv).
    cbn [tv_username tv_confirmation_code].
    unfold registered. cbn [users set_users set_outbox clock_now].
    rewrite find_app_none.
    + rewrite Hcode, Hgen. reflexivity.
    + revert Hacc. unfold signup_acceptable, name_acceptable.
      rewrite !andb_true_iff, !negb_true_iff.
      intros [[[[_ Hun] _] _] _]. exact Hun.
    + cbn [registered_user username]. apply String.eqb_refl.
Qed.

End RoundTrip.

(** Carol registers and exchanges the code she was mailed. *)
Lemma register_then_exchange_witness :
  get_jwt_token (E := Demo.env) "0a1b"
    (mkTokenData (Some "carol") (Some "carol:c@x.com"))
    (snd (register (E := Demo.env)
            (mkSignUpData (Some " carol ") (Some "c@x.com")) Demo.world))
  = (Ok (mkResponse (Token "jwt.carol.0a1b") HTTP_200_OK),
     snd (register (E := Demo.env)
            (mkSignUpData (Some " carol ") (Some "c@x.com")) Demo.world)).
Proof.
  apply (register_then_exchange (E := Demo.env) "0a1b" Demo.world
           (mkSignUpData (Some " carol ") (Some "c@x.com")) "carol:c@x.com").
  - intros now u. cbn. apply String.eqb_refl.
  - reflexivity.
  - reflexivity.
  - reflexivity.
  - reflexivity.
Defined.

(* ================================================================= *)
(** ** Reviews: what a creation can do to the table *)

Section ReviewTable.

(** The creation handler, path by path. *)
Lemma review_create_unfold (request : Request) (pk : Z) (data : ReviewData)
    (w : World) :
  ReviewViewSet.create request pk data w
  = if Permissions.IsStaffOrAuthorOrReadOnly.has_permission request then
      match ReviewSerializer_fields false data with
      | Raise e => (Raise e, w)
      | Ok v =>
          match find (fun t => (title_id t =? pk)%Z) (titles w) with
          | None => (Raise Http404, w)
          | Some t =>
              match user request with
              | AnonymousUser =>
                  (Raise (TypeError "AnonymousUser is not a stored user"), w)
              | Authenticated u =>
                  if existsb (same_pair t u) (reviews w)
                  then (Raise (ValidationError
                                 [(if method request =? "POST"
                                   then "non_field_errors" else "",
                                   duplicate_review)]), w)
                  else (Ok (mkResponse (new_review w t u v) HTTP_201_CREATED),
                        set_reviews w (reviews w ++ [new_review w t u v]))
              end
          end
      end
    else (Raise (permission_denied
                   request Permissions.IsStaffOrAuthorOrReadOnly.message), w).
Proof.
  unfold ReviewViewSet.create, ReviewSerializer_is_valid,
    ReviewSerializer_validate, ReviewViewSet.perform_create, review_exists,
    ReviewSerializer_save, insert_review, get_object_or_404, same_pair,
    new_review.
  unfold_handler.
  destruct (Permissions.IsStaffOrAuthorOrReadOnly.has_permission request);
    cbv beta iota; [| reflexivity].
  destruct (ReviewSerializer_fields false data) as [v|e];
    cbv beta iota; [| reflexivity].
  destruct (find (fun t => (title_id t =? pk)%Z) (titles w)) as [t|] eqn:Ht;
    cbv beta iota; [| reflexivity].
  destruct (user request) as [|u].
  - destruct (method request =? "POST"); cbv beta iota;
      rewrite ?Ht; reflexivity.
  - destruct (existsb
                (fun r => (review_title r =? title_id t)%Z
                          && (review_author r =? user_id u)%Z) (reviews w))
      eqn:Hex;
      destruct (method request =? "POST");
      change (Py.str_in "create" ["create"]) with true;
      repeat (cbv beta iota; rewrite ?Ht, ?Hex); reflexivity.
Qed.

Lemma NoDup_snoc {A} (l : list A) (x : A) :
  NoDup l -> ~ In x l -> NoDup (l ++ [x]).
Proof.
  induction l as [|y ys IH]; cbn; intros Hnd Hx.
  - constructor; [intros [] | constructor].
  - inversion Hnd as [|? ? Hy Hys]; subst. constructor.
    + intros Hin. apply in_app_or in Hin. destruct Hin as [Hin | [-> | []]].
      * exact (Hy Hin).
      * apply Hx. left. reflexivity.
    + apply IH; [exact Hys |]. intros Hin. apply Hx. right. exact Hin.
Qed.

Lemma pair_not_stored (t : Title) (u : User) (rows : list Review) :
  existsb (same_pair t u) rows = false ->
  ~ In (title_id t, user_id u) (map pair_of rows).
Proof.
  intros Hex Hin. apply in_map_iff in Hin. destruct Hin as [r [Hpair Hr]].
  assert (Htrue : existsb (same_pair t u) rows = true).
  { apply existsb_exists. exists r. split; [exact Hr |].
    unfold pair_of in Hpair. injection Hpair as Ht Hu.
    unfold same_pair. rewrite Ht, Hu, !Z.eqb_refl. reflexivity. }
  congruence.
Qed.

(** A validated score lies between 1 and 10. *)
Lemma validated_score (partial : bool) (data : ReviewData) (v : ReviewValidated)
    (s : Z) :
  ReviewSerializer_fields partial data = Ok v ->
  rv_score v = Some s -> 1 <= s <= 10.
Proof.
  unfold ReviewSerializer_fields. intros Hv.
  apply raise_errors_ok in Hv. destruct Hv as [_ ->]. cbn [rv_score].
  destruct (data_score data) as [x|]; cbn [run_field].
  - unfold IntegerField. cbn [app].
    destruct (run_validators _ x) as [|y|m] eqn:Hr; cbn; try discriminate.
    intros [= <-]. apply run_validators_valid in Hr. destruct Hr as [-> Hall].
    pose proof (Hall _ _ (or_introl eq_refl)) as Hmax.
    pose proof (Hall _ _ (or_intror (or_introl eq_refl))) as Hmin.
    unfold MaxValueValidator in Hmax. unfold MinValueValidator in Hmin.
    apply negb_true_iff, Z.ltb_ge in Hmax.
    apply negb_true_iff, Z.ltb_ge in Hmin. lia.
  - destruct (false && negb partial); discriminate.
Qed.

(** X4. Whatever the request, the creation handler keeps the table free of
    two reviews of one title by one author. *)
Theorem create_keeps_reviews_unique (request : Request) (pk : Z)
    (data : ReviewData) (w : World) :
  unique_reviews w ->
  unique_reviews (snd (ReviewViewSet.create request pk data w)).
Proof.
  intros Hw. rewrite review_create_unfold.
  destruct (Permissions.IsStaffOrAuthorOrReadOnly.has_permission request);
    [| exact Hw].
  destruct (ReviewSerializer_fields false data) as [v|e]; [| exact Hw].
  destruct (find _ (titles w)) as [t|]; [| exact Hw].
  destruct (user request) as [|u]; [exact Hw |].
  destruct (existsb (same_pair t u) (reviews w)) eqn:Hex; [exact Hw |].
  unfold unique_reviews. cbn [snd reviews set_reviews].
  rewrite map_app. apply NoDup_snoc; [exact Hw |].
  apply pair_not_stored. exact Hex.
Qed.

(** X5. Whatever the request, the creation handler keeps every stored score
    between 1 and 10; a review created without a score gets 10. *)
Theorem create_keeps_scores_in_range (request : Request) (pk : Z)
    (data : ReviewData) (w : World) :
  scores_in_range w ->
  scores_in_range (snd (ReviewViewSet.create request pk data w))
  /\ forall resp w',
       ReviewViewSet.create request pk data w = (Ok resp, w') ->
       data_score data = None ->
       review_score (response_data resp) = 10.
Proof.
  intros Hw. rewrite review_create_unfold.
  destruct (Permissions.IsStaffOrAuthorOrReadOnly.has_permission request);
    [| split; [exact Hw | discriminate]].
  destruct (ReviewSerializer_fields false data) as [v|e] eqn:Hv;
    [| split; [exact Hw | discriminate]].
  destruct (find _ (titles w)) as [t|]; [| split; [exact Hw | discriminate]].
  destruct (user request) as [|u]; [split; [exact Hw | discriminate] |].
  destruct (existsb (same_pair t u) (reviews w)) eqn:Hex;
    [split; [exact Hw | discriminate] |].
  split.
  - unfold scores_in_range. cbn [snd reviews set_reviews].
    apply Forall_app. split; [exact Hw |]. constructor; [| constructor].
    cbn [new_review review_score].
    destruct (rv_score v) as [s|] eqn:Hs; cbn [with_default]; [| lia].
    exact (validated_score false data v s Hv Hs).
  - intros resp w' [= <- _] Hnone. cbn [response_data new_review review_score].
    revert Hv. unfold ReviewSerializer_fields. rewrite Hnone. cbn [run_field].
    intros Hv. apply raise_errors_ok in Hv. destruct Hv as [_ ->].
    reflexivity.
Qed.

End ReviewTable.

(** The two reviews of Solaris stay two reviews of different authors when
    Alice tries again. *)
Lemma create_keeps_reviews_unique_witness :
  unique_reviews
    (snd (ReviewViewSet.create (Demo.post Demo.alice) 1
            (mkReviewData (Some "again") (Some 3)) Demo.reviewed)).
Proof.
  apply (create_keeps_reviews_unique (Demo.post Demo.alice) 1
           (mkReviewData (Some "again") (Some 3)) Demo.reviewed).
  unfold unique_reviews. cbn.
  constructor; [cbn; intros [H | []]; discriminate H |].
  constructor; [intros [] | constructor].
Defined.

(** The moderator reviews Solaris without a score: 10 is stored, and all
    scores are within range. *)
Lemma create_keeps_scores_in_range_witness :
  scores_in_range
    (snd (ReviewViewSet.create (Demo.post Demo.mod_) 1
            (mkReviewData (Some "fine") None) Demo.reviewed)).
Proof.
  apply (create_keeps_scores_in_range (Demo.post Demo.mod_) 1
           (mkReviewData (Some "fine") None) Demo.reviewed).
  unfold scores_in_range. cbn.
  repeat (constructor; [cbn; lia |]). constructor.
Defined.

(* ================================================================= *)
(** ** Reviews: reading, listing and deleting *)

Section ReviewReads.

Lemma sum_bounds (scores : list Z) :
  Forall (fun s => 1 <= s <= 10) scores ->
  Z.of_nat (List.length scores) <= fold_right Z.add 0 scores
  <= 10 * Z.of_nat (List.length scores).
Proof.
  induction 1 as [|s rest Hs _ IH]; [cbn; lia |].
  cbn [List.length fold_right]. rewrite Nat2Z.inj_succ. lia.
Qed.

Lemma truncated_mean_bounds (scores : list Z) :
  Forall (fun s => 1 <= s <= 10) scores ->
  match truncated_mean scores with
  | None => scores = []
  | Some rating => 1 <= rating <= 10
  end.
Proof.
  intros Hall. pose proof (sum_bounds scores Hall) as Hsum.
  destruct scores as [|s rest]; [reflexivity |].
  unfold truncated_mean.
  set (n := Z.of_nat (List.length (s :: rest))) in *.
  set (total := fold_right Z.add 0 (s :: rest)) in *.
  assert (Hn : 0 < n) by (unfold n; cbn [List.length]; lia).
  rewrite Z.quot_div_nonneg by lia. split.
  - apply Z.div_le_lower_bound; lia.
  - apply Z.div_le_upper_bound; lia.
Qed.

Lemma scores_of_in_range (w : World) (t : Title) :
  scores_in_range w -> Forall (fun s => 1 <= s <= 10) (scores_of w t).
Proof.
  unfold scores_in_range, scores_of. intros Hw.
  apply Forall_forall. intros s Hs. apply in_map_iff in Hs.
  destruct Hs as [r [<- Hr]]. apply filter_In in Hr.
  rewrite Forall_forall in Hw. apply Hw. apply Hr.
Qed.

(** X6. While every stored score lies between 1 and 10, the rating answered
    for a title lies between 1 and 10 as well, and is null only for a
    title without reviews. *)
Theorem rating_in_range (w : World) (request : Request) (pk : Z) (t : Title) :
  scores_in_range w ->
  Permissions.is_safe (method request) = true ->
  find (fun x => (title_id x =? pk)%Z) (titles w) = Some t ->
  exists body,
    TitlesViewSet.retrieve request pk w = (Ok (mkResponse body HTTP_200_OK), w)
    /\ match repr_rating body with
       | None => scores_of w t = []
       | Some rating => 1 <= rating <= 10
       end.
Proof.
  intros Hw Hsafe Ht. unfold TitlesViewSet.retrieve.
  erewrite bind_ok.
  2:{ unfold authorize_catalog, Permissions.IsAdminOrReadOnly.has_permission.
      rewrite Hsafe. reflexivity. }
  erewrite bind_ok by reflexivity.
  unfold get_object_or_404. rewrite find_queryset, Ht. cbn [option_map].
  erewrite bind_ok by reflexivity.
  eexists. split; [reflexivity |].
  cbn [ReadOnlyTitleSerializer repr_rating reviews__score__avg].
  rewrite representation_of_avg.
  apply truncated_mean_bounds, scores_of_in_range, Hw.
Qed.

Lemma find_none_existsb {A} (p : A -> bool) (l : list A) :
  find p l = None <-> existsb p l = false.
Proof.
  induction l as [|x xs IH]; cbn; [tauto |].
  destruct (p x); cbn; [split; discriminate | exact IH].
Qed.

Lemma find_some_existsb {A} (p : A -> bool) (l : list A) (x : A) :
  find p l = Some x -> existsb p l = true.
Proof.
  intros Hf. destruct (existsb p l) eqn:Hex; [reflexivity |].
  apply find_none_existsb in Hex. congruence.
Qed.

(** X7. The reviews listed for a title are exactly the stored reviews of
    that title; for a title that does not exist the listing fails with
    Http404. Nothing is written. *)
Theorem review_listing_is_scoped (pk : Z) (w : World) :
  match ReviewViewSet.get_queryset pk w with
  | (Ok qs, w') =>
      w' = w
      /\ Cascade.has_pk title_id (titles w) pk = true
      /\ forall r, In r qs <-> In r (reviews w) /\ review_title r = pk
  | (Raise e, w') =>
      w' = w /\ e = Http404
      /\ Cascade.has_pk title_id (titles w) pk = false
  end.
Proof.
  unfold ReviewViewSet.get_queryset, get_object_or_404, Cascade.has_pk.
  unfold_handler.
  destruct (find (fun t => (title_id t =? pk)%Z) (titles w)) as [t|] eqn:Ht.
  - split; [reflexivity |]. split; [exact (find_some_existsb _ _ _ Ht) |].
    intros r. rewrite filter_In, Z.eqb_eq, (find_title_pk _ _ _ Ht). tauto.
  - split; [reflexivity |]. split; [reflexivity |].
    apply find_none_existsb. exact Ht.
Qed.

(** X8. The checks of a review creation come in a fixed order:
    authentication (the anonymous actor is answered NotAuthenticated),
    the payload (400), the title (404), the duplicate (400); only a
    request that passes all four stores a review (201), written by the
    actor on the title of the path. A creation is never answered
    PermissionDenied, and every refused request leaves the store as it
    was. *)
Theorem review_creation_checks_in_order (request : Request) (pk : Z)
    (data : ReviewData) (w : World) :
  Permissions.is_safe (method request) = false ->
  match ReviewViewSet.create request pk data w with
  | (Ok resp, w') =>
      exists u,
        user request = Authenticated u
        /\ response_status resp = HTTP_201_CREATED
        /\ reviews w' = reviews w ++ [response_data resp]
        /\ review_title (response_data resp) = pk
        /\ review_author (response_data resp) = user_id u
  | (Raise NotAuthenticated, w') =>
      w' = w /\ user request = AnonymousUser
  | (Raise (ValidationError detail), w') =>
      w' = w /\ is_authenticated (user request) = true
      /\ (ReviewSerializer_fields false data = Raise (ValidationError detail)
          \/ exists v t u,
               ReviewSerializer_fields false data = Ok v
               /\ find (fun x => (title_id x =? pk)%Z) (titles w) = Some t
               /\ user request = Authenticated u
               /\ existsb (same_pair t u) (reviews w) = true)
  | (Raise Http404, w') =>
      w' = w /\ is_authenticated (user request) = true
      /\ (exists v, ReviewSerializer_fields false data = Ok v)
      /\ Cascade.has_pk title_id (titles w) pk = false
  | (Raise _, w') => False
  end.
Proof.
  intros Hsafe. rewrite review_create_unfold.
  unfold Permissions.IsStaffOrAuthorOrReadOnly.has_permission,
    permission_denied.
  rewrite Hsafe. cbn [orb].
  destruct (user request) as [|u]; cbn [is_authenticated].
  - split; reflexivity.
  - destruct (ReviewSerializer_fields false data) as [v|e] eqn:Hv.
    + destruct (find (fun t => (title_id t =? pk)%Z) (titles w)) as [t|] eqn:Ht.
      * destruct (existsb (same_pair t u) (reviews w)) eqn:Hex.
        -- split; [reflexivity |]. split; [reflexivity |].
           right. exists v, t, u. auto.
        -- exists u. cbn [response_status response_data reviews set_reviews].
           repeat split. apply (find_title_pk _ _ _ Ht).
      * split; [reflexivity |]. split; [reflexivity |].
        split; [exists v; reflexivity |].
        apply find_none_existsb. exact Ht.
    + destruct (raise_errors_raises _ _ _ Hv) as [detail ->].
      split; [reflexivity |]. split; [reflexivity |]. left. reflexivity.
Qed.

End ReviewReads.

(** Solaris read by anyone, with the scores 1 and 2 stored. *)
Lemma rating_in_range_witness :
  exists body,
    TitlesViewSet.retrieve (mkRequest "GET" AnonymousUser) 1 Demo.reviewed
    = (Ok (mkResponse body HTTP_200_OK), Demo.reviewed)
    /\ match repr_rating body with
       | None => scores_of Demo.reviewed Demo.solaris = []
       | Some rating => 1 <= rating <= 10
       end.
Proof.
  apply (rating_in_range Demo.reviewed (mkRequest "GET" AnonymousUser) 1
           Demo.solaris).
  - unfold scores_in_range. cbn.
    repeat (constructor; [cbn; lia |]). constructor.
  - reflexivity.
  - reflexivity.
Defined.

(** An anonymous POST is refused before the payload is looked at. *)
Lemma review_creation_checks_in_order_witness :
  Permissions.is_safe (method (mkRequest "POST" AnonymousUser)) = false
  /\ match ReviewViewSet.create (mkRequest "POST" AnonymousUser) 7
            (mkReviewData None (Some 99)) Demo.world with
     | (Raise NotAuthenticated, w') =>
         w' = Demo.world /\ user (mkRequest "POST" AnonymousUser) = AnonymousUser
     | _ => False
     end.
Proof.
  split; [reflexivity |].
  exact (review_creation_checks_in_order
           (mkRequest "POST" AnonymousUser) 7
           (mkReviewData None (Some 99)) Demo.world eq_refl).
Defined.

(* ================================================================= *)
(** ** Reviews: deletion *)

Section ReviewDeletion.

(** X9. Deleting a review of a title: the author of the review, a moderator,
    an admin and a superuser succeed (204) and exactly that review is
    removed; any other authenticated actor is refused (403) and nothing
    is removed. *)
Theorem review_deletion (w : World) (u : User) (t : Title) (r : Review)
    (title_pk pk : Z) :
  find (fun x => (title_id x =? title_pk)%Z) (titles w) = Some t ->
  find (fun x => (review_id x =? pk)%Z)
       (filter (fun x => (review_title x =? title_id t)%Z) (reviews w))
  = Some r ->
  (staff_or_author (Authenticated u) (review_author r) ->
   exists w',
     ReviewViewSet.destroy (mkRequest "DELETE" (Authenticated u)) title_pk pk w
     = (Ok (mkResponse tt HTTP_204_NO_CONTENT), w')
     /\ forall r', In r' (reviews w')
                   <-> In r' (reviews w) /\ review_id r' <> pk)
  /\ (~ staff_or_author (Authenticated u) (review_author r) ->
      ReviewViewSet.destroy (mkRequest "DELETE" (Authenticated u)) title_pk pk w
      = (Raise (PermissionDenied
                  Permissions.IsStaffOrAuthorOrReadOnly.message), w)).
Proof.
  intros Ht Hr. split.
  - intros Hmay.
    exists (set_reviews w
              (filter (fun x => negb (review_id x =? pk)%Z) (reviews w))).
    split.
    + unfold ReviewViewSet.destroy, ReviewViewSet.get_queryset.
      erewrite bind_ok by reflexivity.
      erewrite bind_ok.
      2:{ erewrite bind_ok by reflexivity.
          erewrite bind_ok
            by (unfold lift, get_object_or_404; rewrite Ht; reflexivity).
          reflexivity. }
      erewrite bind_ok
        by (unfold lift, get_object_or_404; rewrite Hr; reflexivity).
      pose proof (has_object_permission_spec "DELETE" u r eq_refl) as Hspec.
      unfold authorize_object.
      change (Permissions.IsStaffOrAuthorOrReadOnly.has_permission
                (mkRequest "DELETE" (Authenticated u))) with true.
      cbv iota.
      destruct (Permissions.IsStaffOrAuthorOrReadOnly.has_object_permission
                  (mkRequest "DELETE" (Authenticated u)) r)
        as [granted|e] eqn:Hobj; [| discriminate Hobj].
      specialize (Hspec granted eq_refl). destruct granted.
      * reflexivity.
      * apply Hspec in Hmay. discriminate Hmay.
    + intros r'. cbn [reviews set_reviews].
      rewrite filter_In, negb_true_iff, Z.eqb_neq. tauto.
  - intros Hno. apply destroy_by_stranger_is_denied with (t := t) (r := r);
      assumption.
Qed.

End ReviewDeletion.

(** Alice removes her review of Solaris; Bob's stays. *)
Lemma review_deletion_witness :
  exists w',
    ReviewViewSet.destroy (Demo.delete Demo.alice) 1 1 Demo.reviewed
    = (Ok (mkResponse tt HTTP_204_NO_CONTENT), w')
    /\ forall r', In r' (reviews w')
                  <-> In r' (reviews Demo.reviewed) /\ review_id r' <> 1.
Proof.
  apply (proj1 (review_deletion Demo.reviewed Demo.alice Demo.solaris
                  (Demo.review_by 1 1 1) 1 1 eq_refl eq_refl)).
  cbn. right. right. right. reflexivity.
Defined.

(* ================================================================= *)
(** ** Users: what the handlers keep true of the table *)

Section UserTable.
Context {E : Env}.

Lemma max_pk_bound {A} (pk : A -> Z) (table : list A) (k : Z) :
  In k (map pk table) -> k <= fold_right Z.max 0 (map pk table).
Proof.
  induction table as [|x xs IH]; cbn; [intros [] |].
  intros [<- | Hin]; [lia |]. specialize (IH Hin). lia.
Qed.

(** A key the store allocates is held by no stored row. *)
Lemma next_id_fresh {A} (pk : A -> Z) (table : list A) :
  ~ In (next_id pk table) (map pk table).
Proof.
  intros Hin. apply max_pk_bound in Hin. unfold next_id in Hin. lia.
Qed.

Lemma user_constraints_ok (others : list User) (row : User) :
  user_constraints others row = Ok tt ->
  username_is_not_me (username row) = true
  /\ existsb (fun r => username r =? username row) others = false.
Proof.
  unfold user_constraints.
  destruct (username_is_not_me (username row)); cbn [negb]; [| discriminate].
  destruct (existsb _ others); [discriminate |]. auto.
Qed.

Lemma name_not_stored (name : string) (rows : list User) :
  existsb (fun r => username r =? name) rows = false ->
  ~ In name (map username rows).
Proof.
  intros Hex Hin. apply in_map_iff in Hin. destruct Hin as [r [Hname Hr]].
  assert (Htrue : existsb (fun r => username r =? name) rows = true).
  { apply existsb_exists. exists r. split; [exact Hr |].
    apply String.eqb_eq. exact Hname. }
  congruence.
Qed.

Lemma users_ok_insert (w : World) (row : User) :
  users_ok w ->
  user_id row = next_id user_id (users w) ->
  user_constraints (users w) row = Ok tt ->
  users_ok (set_users w (users w ++ [row])).
Proof.
  intros [Hpk [Hnames Hme]] Hid Hc.
  apply user_constraints_ok in Hc. destruct Hc as [Hrow Hfree].
  unfold users_ok. cbn [users set_users]. rewrite !map_app.
  split; [| split].
  - apply NoDup_snoc; [exact Hpk |]. rewrite Hid. apply next_id_fresh.
  - apply NoDup_snoc; [exact Hnames |]. apply name_not_stored. exact Hfree.
  - apply Forall_app. split; [exact Hme |]. constructor; [exact Hrow | constructor].
Qed.

Lemma replace_user_pks (u' : User) (rows : list User) :
  map user_id (replace_user u' rows) = map user_id rows.
Proof.
  unfold replace_user. rewrite map_map. apply map_ext. intros r.
  destruct (user_id r =? user_id u')%Z eqn:Heq; [| reflexivity].
  apply Z.eqb_eq in Heq. symmetry. exact Heq.
Qed.

Lemma replace_user_absent (u' : User) (rows : list User) :
  ~ In (user_id u') (map user_id rows) -> replace_user u' rows = rows.
Proof.
  unfold replace_user. induction rows as [|x xs IH]; [reflexivity |].
  cbn. intros Hnot. destruct (user_id x =? user_id u')%Z eqn:Heq.
  - exfalso. apply Hnot. left. apply Z.eqb_eq. exact Heq.
  - f_equal. apply IH. intros Hin. apply Hnot. right. exact Hin.
Qed.

Lemma replace_user_names (u' : User) (rows : list User) :
  NoDup (map user_id rows) ->
  NoDup (map username rows) ->
  existsb (fun r => username r =? username u')
          (filter (fun r => negb (user_id r =? user_id u')%Z) rows) = false ->
  NoDup (map username (replace_user u' rows)).
Proof.
  induction rows as [|x xs IH]; [constructor |].
  cbn [map filter]. intros Hpk Hnames Hfree.
  inversion Hpk as [|? ? Hx Hxs]; subst.
  inversion Hnames as [|? ? Hnx Hnxs]; subst.
  unfold replace_user. cbn [map]. fold (replace_user u' xs).
  destruct (user_id x =? user_id u')%Z eqn:Heq; cbn [negb] in Hfree.
  - apply Z.eqb_eq in Heq. rewrite Heq in Hx.
    rewrite (replace_user_absent u' xs Hx).
    constructor; [| exact Hnxs].
    apply name_not_stored.
    rewrite existsb_filter in Hfree.
    destruct (existsb (fun r => username r =? username u') xs) eqn:Hex;
      [| reflexivity].
    apply existsb_exists in Hex. destruct Hex as [r [Hr Hname]].
    assert (Hother : (user_id r =? user_id u')%Z = false).
    { apply Z.eqb_neq. intros Hsame. apply Hx. rewrite <- Hsame.
      apply in_map. exact Hr. }
    assert (Htrue : existsb (fun r => (username r =? username u')
                                      && negb (user_id r =? user_id u')%Z) xs
                    = true).
    { apply existsb_exists. exists r. split; [exact Hr |].
      rewrite Hname, Hother. reflexivity. }
    congruence.
  - cbn [existsb] in Hfree. apply orb_false_iff in Hfree.
    destruct Hfree as [Hxname Hrest].
    constructor; [| apply IH; assumption].
    intros Hin. apply in_map_iff in Hin. destruct Hin as [r [Hname Hr]].
    unfold replace_user in Hr. apply in_map_iff in Hr.
    destruct Hr as [r0 [Hr0 Hin0]].
    destruct (user_id r0 =? user_id u')%Z.
    + subst r. apply String.eqb_neq in Hxname. congruence.
    + subst r0. apply Hnx. rewrite <- Hname. apply in_map. exact Hin0.
Qed.

Lemma users_ok_replace (w : World) (u' : User) :
  users_ok w ->
  user_constraints
    (filter (fun r => negb (user_id r =? user_id u')%Z) (users w)) u' = Ok tt ->
  users_ok (set_users w (replace_user u' (users w))).
Proof.
  intros [Hpk [Hnames Hme]] Hc.
  apply user_constraints_ok in Hc. destruct Hc as [Hrow Hfree].
  unfold users_ok. cbn [users set_users]. split; [| split].
  - rewrite replace_user_pks. exact Hpk.
  - apply replace_user_names; assumption.
  - unfold replace_user. apply Forall_forall. intros r Hr.
    apply in_map_iff in Hr. destruct Hr as [r0 [Hr0 Hin0]].
    destruct (user_id r0 =? user_id u')%Z.
    + subst r. exact Hrow.
    + subst r0. rewrite Forall_forall in Hme. apply Hme. exact Hin0.
Qed.

(** The handlers of the own profile, for any method and any actor. *)
Lemma patch_own_profile_cases (request : Request) (data : UserData) (w : World) :
  UserViewSet.patch_own_profile request data w
  = match user request with
    | AnonymousUser => (Raise NotAuthenticated, w)
    | Authenticated u =>
        match UserEditSerializer_is_valid (users w) (Some u) true data with
        | Raise e => (Raise e, w)
        | Ok v =>
            match user_constraints
                    (filter (fun r => negb (user_id r =? user_id (set_attrs v u))%Z)
                            (users w))
                    (set_attrs v u) with
            | Raise e => (Raise e, w)
            | Ok _ =>
                (Ok (mkResponse (set_attrs v u) HTTP_200_OK),
                 set_users w (replace_user (set_attrs v u) (users w)))
            end
        end
    end.
Proof.
  unfold UserViewSet.patch_own_profile, User_save, update_user,
    Permissions.IsAuthenticated.has_permission.
  unfold_handler. unfold permission_denied.
  destruct (user request) as [|u]; cbn [is_authenticated]; cbv beta iota;
    [reflexivity |].
  destruct (UserEditSerializer_is_valid _ _ _ _) as [v|e]; [| reflexivity].
  destruct (user_constraints _ _) as [[]|e]; reflexivity.
Qed.

(** User creation by an administrator, path by path. *)
Lemma user_create_cases (request : Request) (data : UserData) (w : World) :
  UserViewSet.create request data w
  = if Permissions.IsAdmin.has_permission request then
      match UserSerializer_is_valid (users w) None false data with
      | Raise e => (Raise e, w)
      | Ok v =>
          match user_constraints (users w) (created_user w v) with
          | Raise e => (Raise e, w)
          | Ok _ =>
              (Ok (mkResponse (created_user w v) HTTP_201_CREATED),
               set_users w (users w ++ [created_user w v]))
          end
      end
    else (Raise (permission_denied
                   request
                   "You do not have permission to perform this action."), w).
Proof.
  unfold UserViewSet.create, User_save, insert_user, created_user.
  unfold_handler.
  destruct (Permissions.IsAdmin.has_permission request); cbv beta iota;
    [| reflexivity].
  destruct (UserSerializer_is_valid _ _ _ _) as [v|e]; cbv beta iota;
    [| reflexivity].
  destruct (user_constraints _ _) as [[]|e]; reflexivity.
Qed.

(** X10. Unique keys, unique user names and the absence of the reserved name
    are kept by every handler that writes the user table: registration,
    user creation by an administrator and the edit of the own profile,
    whatever the request. *)
Theorem user_table_is_kept (w : World) :
  users_ok w ->
  (forall data, users_ok (snd (register data w)))
  /\ (forall request data, users_ok (snd (UserViewSet.create request data w)))
  /\ (forall request data,
        users_ok (snd (UserViewSet.patch_own_profile request data w))).
Proof.
  intros Hw. split; [| split].
  - intros data.
    destruct (signup_acceptable (users w) (signup_name data) (signup_mail data))
      eqn:Hacc.
    + rewrite (register_accepts w data Hacc). cbn [snd].
      unfold registered.
      assert (Hins : users_ok (set_users w (users w ++ [registered_user w data]))).
      { apply users_ok_insert; [exact Hw | reflexivity |].
        revert Hacc. unfold signup_acceptable, name_acceptable.
        rewrite !andb_true_iff, !negb_true_iff.
        intros [[[[_ Hun] _] Hme] _].
        unfold user_constraints, username_is_not_me, registered_user.
        cbn [username]. rewrite Hme, Hun. reflexivity. }
      exact Hins.
    + destruct (signup_is_valid_rejects _ _ Hacc) as [d Hd].
      rewrite (register_rejects _ _ _ Hd). exact Hw.
  - intros request data. rewrite user_create_cases.
    destruct (Permissions.IsAdmin.has_permission request); [| exact Hw].
    destruct (UserSerializer_is_valid _ _ _ _) as [v|e]; [| exact Hw].
    destruct (user_constraints _ _) as [[]|e] eqn:Hc; [| exact Hw].
    cbn [snd]. apply users_ok_insert; [exact Hw | reflexivity | exact Hc].
  - intros request data. rewrite patch_own_profile_cases.
    destruct (user request) as [|u]; [exact Hw |].
    destruct (UserEditSerializer_is_valid _ _ _ _) as [v|e]; [| exact Hw].
    destruct (user_constraints _ _) as [[]|e] eqn:Hc; [| exact Hw].
    cbn [snd]. apply users_ok_replace; assumption.
Qed.

End UserTable.

Lemma demo_users_ok : users_ok Demo.world.
Proof.
  unfold users_ok. cbn. split; [| split].
  - repeat (constructor; [cbn; intuition discriminate |]). constructor.
  - repeat (constructor; [cbn; intuition discriminate |]). constructor.
  - repeat (constructor; [reflexivity |]). constructor.
Qed.

(** Carol registers in the demo deployment; the table stays well-formed. *)
Lemma user_table_is_kept_witness :
  users_ok (snd (register (E := Demo.env)
                   (mkSignUpData (Some "carol") (Some "c@x.com")) Demo.world)).
Proof.
  apply (proj1 (user_table_is_kept (E := Demo.env) Demo.world demo_users_ok)).
Defined.

Section UserEdits.
Context {E : Env}.

Lemma replace_user_others (u' r : User) (rows : list User) :
  user_id r <> user_id u' ->
  (In r (replace_user u' rows) <-> In r rows).
Proof.
  intros Hne. unfold replace_user. rewrite in_map_iff. split.
  - intros [r0 [Hr0 Hin]]. destruct (user_id r0 =? user_id u')%Z.
    + subst r. congruence.
    + subst r0. exact Hin.
  - intros Hin. exists r. split; [| exact Hin].
    apply Z.eqb_neq in Hne. rewrite Hne. reflexivity.
Qed.

(** X11. The edit of the own profile is scoped to the actor's record: whatever
    is submitted and whatever the outcome, the keys of the user table and
    every row of another user are as before, and no other table is
    touched. *)
Theorem own_profile_touches_own_row_only (request : Request) (data : UserData)
    (w : World) :
  map user_id (users (snd (UserViewSet.patch_own_profile request data w)))
  = map user_id (users w)
  /\ (forall u r,
        user request = Authenticated u ->
        user_id r <> user_id u ->
        (In r (users (snd (UserViewSet.patch_own_profile request data w)))
         <-> In r (users w)))
  /\ titles (snd (UserViewSet.patch_own_profile request data w)) = titles w
  /\ reviews (snd (UserViewSet.patch_own_profile request data w)) = reviews w
  /\ categories (snd (UserViewSet.patch_own_profile request data w))
     = categories w
  /\ genres (snd (UserViewSet.patch_own_profile request data w)) = genres w
  /\ outbox (snd (UserViewSet.patch_own_profile request data w)) = outbox w.
Proof.
  rewrite patch_own_profile_cases.
  destruct (user request) as [|u].
  - cbn [snd]. repeat split; auto; discriminate.
  - destruct (UserEditSerializer_is_valid _ _ _ _) as [v|e].
    + destruct (user_constraints _ _) as [[]|e].
      * cbn [snd users set_users titles reviews categories genres outbox].
        split; [apply replace_user_pks |].
        split; [| repeat split].
        intros u0 r [= <-] Hne. apply replace_user_others.
        cbn [set_attrs user_id]. exact Hne.
      * cbn [snd]. repeat split; auto; intros u0 r _ _; reflexivity.
    + cbn [snd]. repeat split; auto; intros u0 r _ _; reflexivity.
Qed.

Lemma only_email_is_valid (stored : list User) (u : User) (m : string) :
  EmailField true [MaxLengthValidator 254] m = Valid m ->
  UserEditSerializer_is_valid stored (Some u) true
    (mkUserData None (Some m) None None None None)
  = Ok (mkUserValidated None (Some m) None None None None).
Proof.
  intros Hm. unfold UserEditSerializer_is_valid.
  cbn [data_username data_email data_first_name data_last_name data_bio
       run_field andb negb]. rewrite Hm. reflexivity.
Qed.

(** X12. The edit of the own profile does not check that the address is
    unused: an address that passes the checks of the field is stored even
    though another user holds it, so two users then share it. *)
Theorem own_profile_accepts_taken_email (w : World) (u other : User)
    (m : string) :
  users_ok w ->
  In u (users w) ->
  In other (users w) ->
  user_id other <> user_id u ->
  email other = m ->
  EmailField true [MaxLengthValidator 254] m = Valid m ->
  exists u' w',
    UserViewSet.patch_own_profile (mkRequest "PATCH" (Authenticated u))
      (mkUserData None (Some m) None None None None) w
    = (Ok (mkResponse u' HTTP_200_OK), w')
    /\ In u' (users w') /\ In other (users w')
    /\ user_id u' = user_id u /\ email u' = email other.
Proof.
  intros Hw Hu Hother Hne Hmail Hm.
  pose proof (only_email_is_valid (users w) u m Hm) as Hv.
  rewrite patch_own_profile_cases. cbn [user]. rewrite Hv.
  set (v := mkUserValidated None (Some m) None None None None) in *.
  destruct Hw as [Hpk [Hnames Hme]].
  assert (Hc : user_constraints
                 (filter (fun r => negb (user_id r =? user_id (set_attrs v u))%Z)
                         (users w))
                 (set_attrs v u) = Ok tt).
  { unfold user_constraints.
    rewrite (edit_keeps_usernames_unique (users w) u _ v Hnames Hu Hv).
    rewrite Forall_forall in Hme. cbn [set_attrs username v uv_username
                                         with_default].
    rewrite (Hme u Hu). reflexivity. }
  rewrite Hc. exists (set_attrs v u). eexists. split; [reflexivity |].
  cbn [users set_users]. split; [| split; [| split]].
  - assert (Hfind : find (fun r => (user_id r =? user_id u)%Z)
                         (replace_user (set_attrs v u) (users w))
                    = Some (set_attrs v u))
      by (apply replace_user_find; [exact Hu | reflexivity]).
    apply find_some in Hfind. apply Hfind.
  - apply replace_user_others; [| exact Hother]. exact Hne.
  - reflexivity.
  - cbn. symmetry. exact Hmail.
Qed.

End UserEdits.

(** Alice takes Bob's address as her own. *)
Lemma own_profile_accepts_taken_email_witness :
  exists u' w',
    UserViewSet.patch_own_profile (E := Demo.env) (Demo.patch Demo.alice)
      (mkUserData None (Some "b@x.com") None None None None) Demo.world
    = (Ok (mkResponse u' HTTP_200_OK), w')
    /\ In u' (users w') /\ In Demo.bob (users w')
    /\ user_id u' = user_id Demo.alice /\ email u' = email Demo.bob.
Proof.
  apply (own_profile_accepts_taken_email (E := Demo.env) Demo.world
           Demo.alice Demo.bob "b@x.com" demo_users_ok).
  - left. reflexivity.
  - right. left. reflexivity.
  - discriminate.
  - reflexivity.
  - reflexivity.
Defined.

(* ================================================================= *)
(** ** Users: creation by an administrator *)

Section UserCreation.
Context {E : Env}.

Lemma is_admin_permission (request : Request) :
  Permissions.IsAdmin.has_permission request = true
  <-> admin_or_superuser (user request).
Proof.
  unfold Permissions.IsAdmin.has_permission, admin_or_superuser.
  destruct (user request) as [|u]; [split; [discriminate | intros []] |].
  rewrite orb_true_iff, is_admin_spec. tauto.
Qed.

(** What validation by [UserSerializer] guarantees of the values it
    lets through. *)
Lemma user_is_valid_facts (stored : list User) (data : UserData)
    (v : UserValidated) :
  UserSerializer_is_valid stored None false data = Ok v ->
  (exists s, data_username data = Some s
             /\ uv_username v = Some (Py.strip s)
             /\ existsb (fun r => username r =? Py.strip s) stored = false)
  /\ uv_role v = data_role data
  /\ (forall r, data_role data = Some r -> In r ROLES).
Proof.
  unfold UserSerializer_is_valid. intros Hv.
  apply raise_errors_ok in Hv. destruct Hv as [Herr ->].
  apply app_eq_nil in Herr. destruct Herr as [Huser Herr].
  repeat (apply app_eq_nil in Herr; destruct Herr as [? Herr]).
  cbn [uv_username uv_role]. split; [| split].
  - destruct (data_username data) as [s|]; cbn [run_field] in Huser |- *;
      [| discriminate Huser].
    exists s. split; [reflexivity |].
    pose proof (CharField_shape false
                  [UniqueValidator username user_id stored (pk_of None)] s)
      as Hshape.
    destruct (CharField false _ s) as [|x|m] eqn:Hf;
      [contradiction | | discriminate Huser].
    apply CharField_accepts in Hf. destruct Hf as [-> Hall].
    split; [reflexivity |].
    specialize (Hall _ _ (or_introl eq_refl)). cbn in Hall.
    apply negb_true_iff in Hall. rewrite existsb_and_true in Hall. exact Hall.
  - destruct (data_role data) as [r|]; cbn [run_field].
    + unfold ChoiceField in *. cbn [run_field] in Herr.
      destruct (Py.str_in r ROLES); [reflexivity | discriminate Herr].
    + reflexivity.
  - intros r Hr. rewrite Hr in Herr. cbn [run_field] in Herr.
    unfold ChoiceField in Herr.
    destruct (Py.str_in r ROLES) eqn:Hin; [| discriminate Herr].
    unfold Py.str_in in Hin. apply existsb_exists in Hin.
    destruct Hin as [x [Hx Heq]]. apply String.eqb_eq in Heq. subst x.
    exact Hx.
Qed.

(** X13. User creation, outcome by outcome. The anonymous actor is
    answered NotAuthenticated, an authenticated actor who is not an
    admin or superuser PermissionDenied; for an admin or superuser it
    creates (201) exactly one user, never a superuser, with the
    submitted role when that is one of the three roles and the role
    "user" when none is submitted; a refused field gives a
    ValidationError; the only other failure is the reserved name,
    stopped by the store. Nothing is written unless the user is
    created. *)
Theorem user_creation_outcomes (request : Request) (data : UserData) (w : World) :
  match UserViewSet.create request data w with
  | (Ok resp, w') =>
      admin_or_superuser (user request)
      /\ response_status resp = HTTP_201_CREATED
      /\ users w' = users w ++ [response_data resp]
      /\ role (response_data resp) = with_default (data_role data) USER
      /\ In (role (response_data resp)) ROLES
      /\ is_superuser (response_data resp) = false
  | (Raise NotAuthenticated, w') =>
      w' = w /\ user request = AnonymousUser
  | (Raise (PermissionDenied _), w') =>
      w' = w /\ is_authenticated (user request) = true
      /\ ~ admin_or_superuser (user request)
  | (Raise (ValidationError detail), w') =>
      w' = w /\ admin_or_superuser (user request)
      /\ UserSerializer_is_valid (users w) None false data
         = Raise (ValidationError detail)
  | (Raise (IntegrityError constraint), w') =>
      w' = w /\ admin_or_superuser (user request)
      /\ constraint = "username_is_not_me"
      /\ exists s, data_username data = Some s
                   /\ Py.lower (Py.strip s) = "me"
  | (Raise _, w') => False
  end.
Proof.
  rewrite user_create_cases.
  pose proof (is_admin_permission request) as Hadmin.
  destruct (Permissions.IsAdmin.has_permission request).
  - assert (Ha : admin_or_superuser (user request)) by (apply Hadmin; reflexivity).
    destruct (UserSerializer_is_valid (users w) None false data) as [v|e] eqn:Hv.
    + destruct (user_is_valid_facts _ _ _ Hv) as [[s [Hs [Hname Hfree]]] [Hrole Hin]].
      unfold user_constraints, created_user. cbn [username].
      rewrite Hname. cbn [with_default]. rewrite Hfree.
      destruct (username_is_not_me (Py.strip s)) eqn:Hme; cbn [negb].
      * cbn [response_status response_data users set_users role is_superuser].
        rewrite Hrole. repeat split; try assumption.
        destruct (data_role data) as [r|]; cbn [with_default].
        -- apply Hin. reflexivity.
        -- right. right. left. reflexivity.
      * split; [reflexivity |]. split; [exact Ha |]. split; [reflexivity |].
        exists s. split; [exact Hs |].
        unfold username_is_not_me in Hme. apply negb_false_iff in Hme.
        apply String.eqb_eq. exact Hme.
    + unfold UserSerializer_is_valid in Hv.
      destruct (raise_errors_raises _ _ _ Hv) as [detail ->].
      split; [reflexivity |]. split; [exact Ha |]. reflexivity.
  - unfold permission_denied. destruct (user request) as [|u].
    + split; reflexivity.
    + split; [reflexivity |]. split; [reflexivity |].
      intros Ha. apply Hadmin in Ha. discriminate Ha.
Qed.

End UserCreation.

(* ================================================================= *)
(** ** Titles: what the write path accepts and stores *)

Section TitleWrites.
Context {E : Env}.

Lemma is_valid_reads_only (partial : bool) (data : TitleData) (w : World) :
  snd (TitlesSerializer_is_valid partial data w) = w.
Proof. reflexivity. Qed.

Lemma year_field_cases (this_year y : Z) :
  IntegerField (Some 0) None
    [(max_value_current_year this_year,
      "Ensure this value is less than or equal to the current year.")] y
  = if (y <? 0)%Z
    then Invalid "Ensure this value is greater than or equal to the limit."
    else if (this_year <? y)%Z
    then Invalid "Ensure this value is less than or equal to the current year."
    else Valid y.
Proof.
  unfold IntegerField. cbn [app run_validators].
  unfold MinValueValidator, max_value_current_year, MaxValueValidator.
  destruct (y <? 0)%Z; cbn [negb]; [reflexivity |].
  destruct (this_year <? y)%Z; reflexivity.
Qed.

Lemma field_error_names {A} (name x : string) (f : field A) :
  In x (map fst (field_error name f)) ->
  x = name /\ exists message, f = Invalid message.
Proof.
  destruct f as [|a|m]; cbn.
  - intros [].
  - intros [].
  - intros [<- | []]. split; [reflexivity | eexists; reflexivity].
Qed.

Lemma raise_errors_detail {A} (errors detail : ErrorDetail) (a : A) :
  raise_errors errors a = Raise (ValidationError detail) -> detail = errors.
Proof. destruct errors; cbn; [discriminate |]. intros [= <-]. reflexivity. Qed.

(** X14. The year of a title is refused exactly below 0 and above the current
    calendar year: both bounds are inclusive, and a title may be written
    without a year. *)
Theorem year_field_bounds (partial : bool) (data : TitleData) (w : World) :
  (exists detail,
     fst (TitlesSerializer_is_valid partial data w)
     = Raise (ValidationError detail)
     /\ In "year" (map fst detail))
  <-> exists y, data_year data = Some y /\ (y < 0 \/ clock_year w < y).
Proof.
  unfold TitlesSerializer_is_valid, current_year. unfold_handler. cbn [fst].
  split.
  - intros [detail [Hraise Hin]].
    apply raise_errors_detail in Hraise. subst detail.
    rewrite !map_app in Hin.
    repeat (apply in_app_or in Hin;
            destruct Hin as [Hin | Hin];
            [apply field_error_names in Hin; destruct Hin as [Hname Hinv];
             try discriminate Hname |]).
    + destruct Hinv as [message Hinv].
      destruct (data_year data) as [y|]; cbn [run_field] in Hinv.
      * exists y. split; [reflexivity |].
        rewrite year_field_cases in Hinv.
        destruct (y <? 0)%Z eqn:Hneg; [left; apply Z.ltb_lt; exact Hneg |].
        destruct (clock_year w <? y)%Z eqn:Hfut;
          [right; apply Z.ltb_lt; exact Hfut | discriminate Hinv].
      * cbn in Hinv. discriminate Hinv.
    + apply field_error_names in Hin. destruct Hin as [Hname _].
      discriminate Hname.
  - intros [y [Hy Hout]]. rewrite Hy. cbn [run_field].
    rewrite year_field_cases.
    assert (Hinv : exists message,
               (if (y <? 0)%Z
                then Invalid "Ensure this value is greater than or equal to the limit."
                else if (clock_year w <? y)%Z
                then Invalid "Ensure this value is less than or equal to the current year."
                else Valid y) = Invalid message).
    { destruct (y <? 0)%Z eqn:Hneg; [eexists; reflexivity |].
      destruct (clock_year w <? y)%Z eqn:Hfut; [eexists; reflexivity |].
      apply Z.ltb_ge in Hneg, Hfut. lia. }
    destruct Hinv as [message ->]. cbn [field_error].
    eexists. split.
    + rewrite raise_errors_nonempty; [reflexivity |].
      intros Hnil. apply app_eq_nil in Hnil. destruct Hnil as [_ Hnil].
      discriminate Hnil.
    + rewrite map_app. apply in_or_app. right. left. reflexivity.
Qed.

Lemma field_value_valid {A B} (required partial : bool)
    (run : A -> field B) (data : option A) (x : B) :
  field_value (run_field required partial run data) = Some x ->
  exists a, data = Some a /\ run a = Valid x.
Proof.
  destruct data as [a|]; cbn [run_field].
  - destruct (run a) as [|b|m] eqn:Hr; cbn; try discriminate.
    intros [= <-]. exists a. split; [reflexivity | exact Hr].
  - destruct (required && negb partial); discriminate.
Qed.

Lemma field_value_absent {A B} (required partial : bool)
    (run : A -> field B) :
  field_value (run_field required partial run None) = None.
Proof. cbn. destruct (required && negb partial); reflexivity. Qed.

Lemma required_field_present {A B} (name : string) (run : A -> field B)
    (data : option A) :
  field_error name (run_field true false run data) = [] ->
  exists a, data = Some a /\ forall m, run a <> Invalid m.
Proof.
  destruct data as [a|]; cbn; [| discriminate].
  intros Herr. exists a. split; [reflexivity |].
  intros m Hm. rewrite Hm in Herr. discriminate Herr.
Qed.

Lemma SlugRelatedField_valid {R} (slug : R -> string) (queryset : list R)
    (s : string) (r : R) :
  SlugRelatedField slug queryset s = Valid r -> In r queryset /\ slug r = s.
Proof.
  unfold SlugRelatedField.
  destruct (find (fun r => slug r =? s) queryset) as [x|] eqn:Hf;
    [| discriminate].
  intros [= <-]. apply find_some in Hf. destruct Hf as [Hin Heq].
  split; [exact Hin | apply String.eqb_eq; exact Heq].
Qed.

Lemma SlugRelatedField_not_absent {R} (slug : R -> string) (queryset : list R)
    (s : string) :
  SlugRelatedField slug queryset s <> Absent.
Proof.
  unfold SlugRelatedField. destruct (find _ queryset); discriminate.
Qed.

Lemma ManyRelatedField_valid {R} (slug : R -> string) (queryset : list R)
    (slugs : list string) (rows : list R) :
  ManyRelatedField (SlugRelatedField slug queryset) slugs = Valid rows ->
  Forall (fun r => In r queryset) rows /\ map slug rows = slugs.
Proof.
  revert rows. induction slugs as [|s rest IH]; cbn; intros rows.
  - intros [= <-]. split; [constructor | reflexivity].
  - destruct (SlugRelatedField slug queryset s) as [|r|m] eqn:Hs;
      cbn [and_then]; try discriminate.
    destruct (ManyRelatedField (SlugRelatedField slug queryset) rest)
      as [|rs|m] eqn:Hrest; cbn [and_then]; try discriminate.
    intros [= <-]. apply SlugRelatedField_valid in Hs. destruct Hs as [Hin Heq].
    destruct (IH rs eq_refl) as [Hall Hmap].
    split; [constructor; assumption | cbn; congruence].
Qed.

Lemma ManyRelatedField_not_absent {R} (slug : R -> string) (queryset : list R)
    (slugs : list string) :
  ManyRelatedField (SlugRelatedField slug queryset) slugs <> Absent.
Proof.
  induction slugs as [|s rest IH]; cbn; [discriminate |].
  pose proof (SlugRelatedField_not_absent slug queryset s) as Hs.
  destruct (SlugRelatedField slug queryset s); cbn [and_then];
    [congruence | | discriminate].
  destruct (ManyRelatedField (SlugRelatedField slug queryset) rest);
    cbn [and_then]; [congruence | discriminate | discriminate].
Qed.

Lemma rating_field_valid (r x : Z) :
  IntegerField (Some 1) (Some 10) [] r = Valid x -> x = r /\ 1 <= r <= 10.
Proof.
  unfold IntegerField. cbn [app]. intros Hr.
  apply run_validators_valid in Hr. destruct Hr as [-> Hall].
  pose proof (Hall _ _ (or_introl eq_refl)) as Hmax.
  pose proof (Hall _ _ (or_intror (or_introl eq_refl))) as Hmin.
  unfold MaxValueValidator in Hmax. unfold MinValueValidator in Hmin.
  apply negb_true_iff, Z.ltb_ge in Hmax.
  apply negb_true_iff, Z.ltb_ge in Hmin. split; [reflexivity | lia].
Qed.

Lemma year_field_valid (this_year y x : Z) :
  IntegerField (Some 0) None
    [(max_value_current_year this_year,
      "Ensure this value is less than or equal to the current year.")] y
  = Valid x -> x = y /\ 0 <= y <= this_year.
Proof.
  rewrite year_field_cases.
  destruct (y <? 0)%Z eqn:Hneg; [discriminate |].
  destruct (this_year <? y)%Z eqn:Hfut; [discriminate |].
  intros [= <-]. apply Z.ltb_ge in Hneg, Hfut. split; [reflexivity | lia].
Qed.

(** The creation handler of titles, path by path. *)
Lemma title_create_cases (request : Request) (data : TitleData) (w : World) :
  TitlesViewSet.create request data w
  = match authorize_catalog request with
    | deny reason => (Raise (permission_denied request reason), w)
    | allow =>
        match fst (TitlesSerializer_is_valid false data w) with
        | Raise e => (Raise e, w)
        | Ok v =>
            (Ok (mkResponse (created_title w v) HTTP_201_CREATED),
             set_titles w (titles w ++ [created_title w v]))
        end
    end.
Proof.
  unfold TitlesViewSet.create.
  destruct (authorize_catalog request) as [|reason].
  - erewrite bind_ok by apply enforce_allow.
    destruct (fst (TitlesSerializer_is_valid false data w)) as [v|e] eqn:Hv.
    + erewrite bind_ok.
      2:{ rewrite (surjective_pairing (TitlesSerializer_is_valid false data w)).
          rewrite Hv, is_valid_reads_only. reflexivity. }
      reflexivity.
    + erewrite bind_raise.
      2:{ rewrite (surjective_pairing (TitlesSerializer_is_valid false data w)).
          rewrite Hv, is_valid_reads_only. reflexivity. }
      reflexivity.
  - erewrite bind_raise by apply enforce_deny. reflexivity.
Qed.

End TitleWrites.

Section TitleCreation.
Context {E : Env}.

Lemma run_validators_not_absent {A} (vs : list (validator A)) (a : A) :
  run_validators vs a <> Absent.
Proof.
  induction vs as [|[ok msg] vs IH]; cbn; [discriminate |].
  destruct (ok a); [exact IH | discriminate].
Qed.

Lemma catalog_write_decision (request : Request) :
  Permissions.is_safe (method request) = false ->
  match authorize_catalog request with
  | allow => admin_or_superuser (user request)
  | deny _ => ~ admin_or_superuser (user request)
  end.
Proof.
  intros Hsafe.
  unfold authorize_catalog, Permissions.IsAdminOrReadOnly.has_permission,
    check_permissions, admin_or_superuser.
  rewrite Hsafe. destruct (user request) as [|u]; [intros [] |].
  destruct (is_admin u || is_superuser u) eqn:Hadm.
  - apply orb_true_iff in Hadm. rewrite is_admin_spec in Hadm. exact Hadm.
  - apply orb_false_iff in Hadm. destruct Hadm as [Ha Hs].
    intros [Hr | Hr]; [apply is_admin_spec in Hr |]; congruence.
Qed.

Lemma catalog_denial_reason (request : Request) (reason : string) :
  authorize_catalog request = deny reason ->
  reason = Permissions.IsAdminOrReadOnly.message.
Proof.
  unfold authorize_catalog, check_permissions.
  destruct (Permissions.IsAdminOrReadOnly.has_permission request);
    [discriminate |]. intros [= <-]. reflexivity.
Qed.

(** X15. A title creation, outcome by outcome. The anonymous actor is
    answered NotAuthenticated, an authenticated actor who is not an
    admin or superuser PermissionDenied with the admin-only reason; a
    refused field gives a ValidationError; otherwise exactly one title
    is added (201) under a new key, whose category is the stored row
    with the submitted slug, whose genres are the stored rows with the
    submitted slugs, each linked once, whose year is the submitted one,
    between 0 and the current year, or the default, and whose stored
    rating lies between 1 and 10. Nothing is written unless the title
    is created. *)
Theorem title_creation_outcomes (request : Request) (data : TitleData)
    (w : World) :
  Permissions.is_safe (method request) = false ->
  match TitlesViewSet.create request data w with
  | (Ok resp, w') =>
      admin_or_superuser (user request)
      /\ response_status resp = HTTP_201_CREATED
      /\ w' = set_titles w (titles w ++ [response_data resp])
      /\ ~ In (title_id (response_data resp)) (map title_id (titles w))
      /\ (exists c, In c (categories w)
                    /\ data_category data = Some (category_slug c)
                    /\ title_category (response_data resp)
                       = Some (category_id c))
      /\ (exists gs, Forall (fun g => In g (genres w)) gs
                     /\ data_genre data = Some (map genre_slug gs)
                     /\ NoDup (title_genre (response_data resp))
                     /\ forall k, In k (title_genre (response_data resp))
                                  <-> In k (map genre_id gs))
      /\ match data_year data with
         | Some y => title_year (response_data resp) = y
                     /\ 0 <= y <= clock_year w
         | None => title_year (response_data resp) = startup_year
         end
      /\ 1 <= title_rating (response_data resp) <= 10
  | (Raise NotAuthenticated, w') =>
      w' = w /\ user request = AnonymousUser
  | (Raise (PermissionDenied message), w') =>
      w' = w /\ is_authenticated (user request) = true
      /\ ~ admin_or_superuser (user request)
      /\ message = Permissions.IsAdminOrReadOnly.message
  | (Raise (ValidationError _), w') =>
      w' = w /\ admin_or_superuser (user request)
  | (Raise _, w') => False
  end.
Proof.
  intros Hsafe. rewrite title_create_cases.
  pose proof (catalog_write_decision request Hsafe) as Hdec.
  pose proof (catalog_denial_reason request) as Hreason.
  destruct (authorize_catalog request) as [|reason].
  2:{ unfold permission_denied. destruct (user request) as [|u].
      - split; reflexivity.
      - split; [reflexivity |]. split; [reflexivity |].
        split; [exact Hdec | exact (Hreason reason eq_refl)]. }
  destruct (fst (TitlesSerializer_is_valid false data w)) as [v|e] eqn:Hv.
  - revert Hv. unfold TitlesSerializer_is_valid, current_year.
    unfold_handler. cbn [fst]. intros Hv.
    apply raise_errors_ok in Hv. destruct Hv as [Herr ->].
    apply app_eq_nil in Herr. destruct Herr as [_ Herr].
    apply app_eq_nil in Herr. destruct Herr as [Hyear Herr].
    apply app_eq_nil in Herr. destruct Herr as [_ Herr].
    apply app_eq_nil in Herr. destruct Herr as [_ Herr].
    apply app_eq_nil in Herr. destruct Herr as [Hcat Hgen].
    apply required_field_present in Hcat. destruct Hcat as [s [Hs Hcat]].
    apply required_field_present in Hgen. destruct Hgen as [ss [Hss Hgen]].
    split; [exact Hdec |]. split; [reflexivity |]. split; [reflexivity |].
    split; [apply next_id_fresh |].
    unfold created_title.
    cbn [response_data Title_set_attrs title_category title_genre title_year
         title_rating tv_category tv_genre tv_year tv_rating].
    rewrite Hs, Hss. cbn [run_field].
    split; [| split; [| split]].
    + pose proof (SlugRelatedField_not_absent category_slug (categories w) s)
        as Hna.
      destruct (SlugRelatedField category_slug (categories w) s) as [|c|m]
        eqn:Hc; [congruence | | exfalso; exact (Hcat m eq_refl)].
      apply SlugRelatedField_valid in Hc. destruct Hc as [Hin Hslug].
      exists c. cbn [field_value]. rewrite Hslug. auto.
    + pose proof (ManyRelatedField_not_absent genre_slug (genres w) ss) as Hna.
      destruct (ManyRelatedField (SlugRelatedField genre_slug (genres w)) ss)
        as [|gs|m] eqn:Hg; [congruence | | exfalso; exact (Hgen m eq_refl)].
      apply ManyRelatedField_valid in Hg. destruct Hg as [Hall Hmap].
      exists gs. cbn [field_value]. rewrite Hmap.
      split; [exact Hall |]. split; [reflexivity |].
      split; [apply NoDup_nodup |]. intros k. apply nodup_In.
    + destruct (data_year data) as [y|]; cbn [run_field] in Hyear |- *.
      * destruct (IntegerField (Some 0) None _ y) as [|x|m] eqn:Hy;
          cbn [field_value with_default].
        -- exfalso. revert Hy. unfold IntegerField.
           apply run_validators_not_absent.
        -- apply year_field_valid in Hy. destruct Hy as [-> Hy]. auto.
        -- discriminate Hyear.
      * reflexivity.
    + destruct (data_rating data) as [r|]; cbn [run_field].
      * destruct (IntegerField (Some 1) (Some 10) [] r) as [|x|m] eqn:Hr;
          cbn [field_value with_default]; try lia.
        apply rating_field_valid in Hr. destruct Hr as [-> Hr]. exact Hr.
      * cbn. lia.
  - revert Hv. unfold TitlesSerializer_is_valid, current_year.
    unfold_handler. cbn [fst]. intros Hv.
    destruct (raise_errors_raises _ _ _ Hv) as [detail ->].
    split; [reflexivity | exact Hdec].
Qed.

End TitleCreation.

(** The administrator adds a title of the current year. *)
Lemma title_creation_outcomes_witness :
  Permissions.is_safe (method (Demo.post Demo.root)) = false
  /\ exists resp w',
       TitlesViewSet.create (E := Demo.env) (Demo.post Demo.root)
         (mkTitleData (Some "Stalker") (Some 2022) None None
                      (Some "film") (Some ["drama"])) Demo.world
       = (Ok resp, w')
       /\ w' = set_titles Demo.world (titles Demo.world ++ [response_data resp])
       /\ ~ In (title_id (response_data resp))
               (map title_id (titles Demo.world))
       /\ title_year (response_data resp) = 2022
       /\ 1 <= title_rating (response_data resp) <= 10.
Proof.
  split; [reflexivity |].
  pose proof (title_creation_outcomes (E := Demo.env) (Demo.post Demo.root)
                (mkTitleData (Some "Stalker") (Some 2022) None None
                             (Some "film") (Some ["drama"]))
                Demo.world eq_refl) as Hout.
  destruct (TitlesViewSet.create (E := Demo.env) (Demo.post Demo.root)
              (mkTitleData (Some "Stalker") (Some 2022) None None
                           (Some "film") (Some ["drama"])) Demo.world)
    as [[resp|e] w'] eqn:Hrun.
  - exists resp, w'. split; [reflexivity |].
    destruct Hout as [_ [_ [Hw [Hfresh [_ [_ [Hyear Hrating]]]]]]].
    cbn [data_year] in Hyear. destruct Hyear as [Hyear _]. auto.
  - vm_compute in Hrun. discriminate Hrun.
Defined.

Section TitleUpdates.
Context {E : Env}.

(** The update handler of titles, path by path. *)
Lemma title_update_cases (request : Request) (pk : Z) (partial : bool)
    (data : TitleData) (w : World) :
  TitlesViewSet.update request pk partial data w
  = match authorize_catalog request with
    | deny reason => (Raise (permission_denied request reason), w)
    | allow =>
        match find (fun x => (title_id x =? pk)%Z) (titles w) with
        | None => (Raise Http404, w)
        | Some t =>
            match fst (TitlesSerializer_is_valid partial data w) with
            | Raise e => (Raise e, w)
            | Ok v =>
                (Ok (mkResponse (Title_set_attrs v t) HTTP_200_OK),
                 set_titles w (replace_title (Title_set_attrs v t) (titles w)))
            end
        end
    end.
Proof.
  unfold TitlesViewSet.update.
  destruct (authorize_catalog request) as [|reason].
  - erewrite bind_ok by apply enforce_allow.
    erewrite bind_ok by reflexivity.
    unfold get_object_or_404. rewrite find_queryset.
    destruct (find _ (titles w)) as [t|]; cbn [option_map].
    + erewrite bind_ok by reflexivity. cbn [instance].
      destruct (fst (TitlesSerializer_is_valid partial data w)) as [v|e] eqn:Hv.
      * erewrite bind_ok.
        2:{ rewrite (surjective_pairing (TitlesSerializer_is_valid partial data w)).
            rewrite Hv, is_valid_reads_only. reflexivity. }
        reflexivity.
      * erewrite bind_raise.
        2:{ rewrite (surjective_pairing (TitlesSerializer_is_valid partial data w)).
            rewrite Hv, is_valid_reads_only. reflexivity. }
        reflexivity.
    + erewrite bind_raise by reflexivity. reflexivity.
  - erewrite bind_raise by apply enforce_deny. reflexivity.
Qed.

Lemma replace_title_others (t' r : Title) (rows : list Title) :
  title_id r <> title_id t' ->
  (In r (replace_title t' rows) <-> In r rows).
Proof.
  intros Hne. unfold replace_title. rewrite in_map_iff. split.
  - intros [r0 [Hr0 Hin]]. destruct (title_id r0 =? title_id t')%Z.
    + subst r. congruence.
    + subst r0. exact Hin.
  - intros Hin. exists r. split; [| exact Hin].
    apply Z.eqb_neq in Hne. rewrite Hne. reflexivity.
Qed.

(** X16. An update of a title changes what was submitted and nothing else:
    the key stays, every field whose key is missing from the request
    keeps its value, every other title is as before, and a refused
    update writes nothing. *)
Theorem title_update_frame (request : Request) (pk : Z) (partial : bool)
    (data : TitleData) (w : World) :
  match TitlesViewSet.update request pk partial data w with
  | (Ok resp, w') =>
      exists t,
        find (fun x => (title_id x =? pk)%Z) (titles w) = Some t
        /\ title_id (response_data resp) = pk
        /\ w' = set_titles w (replace_title (response_data resp) (titles w))
        /\ (data_name data = None ->
            title_name (response_data resp) = title_name t)
        /\ (data_year data = None ->
            title_year (response_data resp) = title_year t)
        /\ (data_rating data = None ->
            title_rating (response_data resp) = title_rating t)
        /\ (data_description data = None ->
            title_description (response_data resp) = title_description t)
        /\ (data_category data = None ->
            title_category (response_data resp) = title_category t)
        /\ (data_genre data = None ->
            title_genre (response_data resp) = title_genre t)
        /\ forall r, title_id r <> pk -> (In r (titles w') <-> In r (titles w))
  | (Raise _, w') => w' = w
  end.
Proof.
  rewrite title_update_cases.
  destruct (authorize_catalog request) as [|reason]; [| reflexivity].
  destruct (find (fun x => (title_id x =? pk)%Z) (titles w)) as [t|] eqn:Ht;
    [| reflexivity].
  destruct (fst (TitlesSerializer_is_valid partial data w)) as [v|e] eqn:Hv;
    [| reflexivity].
  revert Hv. unfold TitlesSerializer_is_valid, current_year.
  unfold_handler. cbn [fst]. intros Hv.
  apply raise_errors_ok in Hv. destruct Hv as [_ ->].
  pose proof (find_title_pk _ _ _ Ht) as Hpk.
  exists t. cbn [response_data Title_set_attrs title_id title_name title_year
                 title_rating title_description title_category title_genre
                 tv_name tv_year tv_rating tv_description tv_category tv_genre].
  split; [reflexivity |]. split; [exact Hpk |]. split; [reflexivity |].
  repeat (split; [intros ->; rewrite field_value_absent; reflexivity |]).
  intros r Hne. cbn [titles set_titles]. apply replace_title_others.
  cbn [title_id Title_set_attrs]. congruence.
Qed.

Lemma many_related_invalid {R} (slug : R -> string) (queryset : list R)
    (slugs : list string) :
  (exists m, ManyRelatedField (SlugRelatedField slug queryset) slugs = Invalid m)
  <-> exists s, In s slugs /\ find (fun r => slug r =? s) queryset = None.
Proof.
  induction slugs as [|s rest IH]; cbn.
  - split; [intros [m Hm]; discriminate Hm | intros [s [[] _]]].
  - unfold SlugRelatedField at 1.
    destruct (find (fun r => slug r =? s) queryset) as [r|] eqn:Hs;
      cbn [and_then].
    + destruct (ManyRelatedField (SlugRelatedField slug queryset) rest)
        as [|rs|m] eqn:Hrest; cbn [and_then].
      * exfalso. exact (ManyRelatedField_not_absent slug queryset rest Hrest).
      * split; [intros [m Hm]; discriminate Hm |].
        intros [s' [[<- | Hin] Hnone]]; [congruence |].
        assert (Hex : exists m : string, @Valid (list R) rs = Invalid m)
          by (apply IH; eauto).
        destruct Hex as [m Hm]. discriminate Hm.
      * split; [| intros _; eexists; reflexivity].
        intros _. destruct (proj1 IH (ex_intro _ m eq_refl)) as [s' [Hin Hnone]].
        exists s'. auto.
    + split; [| intros _; eexists; reflexivity].
      intros _. exists s. auto.
Qed.

(** X17. The category and the genres of a title are submitted by slug. The
    category is refused exactly when its key is missing from a full
    write or no category has the slug; the genres are refused exactly
    when their key is missing from a full write or one of the slugs
    belongs to no genre. *)
Theorem slug_fields_refusals (partial : bool) (data : TitleData) (w : World) :
  ((exists detail,
      fst (TitlesSerializer_is_valid partial data w)
      = Raise (ValidationError detail)
      /\ In "category" (map fst detail))
   <-> match data_category data with
       | None => partial = false
       | Some s => find (fun c => category_slug c =? s) (categories w) = None
       end)
  /\ ((exists detail,
         fst (TitlesSerializer_is_valid partial data w)
         = Raise (ValidationError detail)
         /\ In "genre" (map fst detail))
      <-> match data_genre data with
          | None => partial = false
          | Some slugs =>
              exists s, In s slugs
                        /\ find (fun g => genre_slug g =? s) (genres w) = None
          end).
Proof.
  unfold TitlesSerializer_is_valid, current_year. unfold_handler. cbn [fst].
  assert (Hraise : forall (errors : ErrorDetail) (v : TitleValidated) name,
             In name (map fst errors) ->
             exists detail,
               raise_errors errors v = Raise (ValidationError detail)
               /\ In name (map fst detail)).
  { intros errors v name Hin. exists errors. split; [| exact Hin].
    apply raise_errors_nonempty. intros ->. destruct Hin. }
  split; split.
  - intros [detail [Hr Hin]]. apply raise_errors_detail in Hr. subst detail.
    rewrite !map_app in Hin.
    repeat (apply in_app_or in Hin;
            destruct Hin as [Hin | Hin];
            [apply field_error_names in Hin; destruct Hin as [Hname Hinv];
             try discriminate Hname |]).
    + destruct Hinv as [m Hinv].
      destruct (data_category data) as [s|]; cbn [run_field] in Hinv.
      * unfold SlugRelatedField in Hinv.
        destruct (find _ (categories w)); [discriminate Hinv | reflexivity].
      * destruct partial; [discriminate Hinv | reflexivity].
    + apply field_error_names in Hin. destruct Hin as [Hname _].
      discriminate Hname.
  - intros Hcat. apply Hraise. rewrite !map_app.
    do 4 (apply in_or_app; right). apply in_or_app. left.
    destruct (data_category data) as [s|]; cbn [run_field].
    + unfold SlugRelatedField. rewrite Hcat. left. reflexivity.
    + rewrite Hcat. left. reflexivity.
  - intros [detail [Hr Hin]]. apply raise_errors_detail in Hr. subst detail.
    rewrite !map_app in Hin.
    repeat (apply in_app_or in Hin;
            destruct Hin as [Hin | Hin];
            [apply field_error_names in Hin; destruct Hin as [Hname Hinv];
             try discriminate Hname |]).
    apply field_error_names in Hin. destruct Hin as [_ Hinv].
    destruct (data_genre data) as [slugs|]; cbn [run_field] in Hinv.
    + apply many_related_invalid. exact Hinv.
    + destruct Hinv as [m Hinv]. destruct partial; [discriminate Hinv | reflexivity].
  - intros Hgen. apply Hraise. rewrite !map_app.
    do 5 (apply in_or_app; right).
    destruct (data_genre data) as [slugs|]; cbn [run_field].
    + apply many_related_invalid in Hgen. destruct Hgen as [m ->].
      left. reflexivity.
    + rewrite Hgen. left. reflexivity.
Qed.

End TitleUpdates.

Import Comments.


(* ================================================================= *)
(** ** Comments *)

Section CommentHandlers.

Lemma get_review_found (w : World) (title_pk review_pk : Z) (review : Review) :
  CommentViewSet.get_review w title_pk review_pk = Ok review ->
  In review (reviews w)
  /\ review_id review = review_pk /\ review_title review = title_pk.
Proof.
  unfold CommentViewSet.get_review, get_object_or_404.
  destruct (find _ (reviews w)) as [r|] eqn:Hf; [| discriminate].
  intros [= <-]. apply find_some in Hf. destruct Hf as [Hin Hboth].
  apply andb_true_iff in Hboth. destruct Hboth as [Hid Htitle].
  apply Z.eqb_eq in Hid, Htitle. auto.
Qed.

Lemma get_review_missing (w : World) (title_pk review_pk : Z) (e : exn) :
  CommentViewSet.get_review w title_pk review_pk = Raise e ->
  e = Http404
  /\ forall r, In r (reviews w) -> review_id r = review_pk ->
               review_title r <> title_pk.
Proof.
  unfold CommentViewSet.get_review, get_object_or_404.
  destruct (find _ (reviews w)) as [r|] eqn:Hf; [discriminate |].
  intros [= <-]. split; [reflexivity |].
  intros r Hin Hid Htitle.
  pose proof (find_none _ _ Hf r Hin) as Hno. cbn in Hno.
  rewrite Hid, Htitle, !Z.eqb_refl in Hno. discriminate Hno.
Qed.

(** X18. The comments listed under a title and a review are exactly the
    stored comments of that review, and only when the review belongs to
    the title of the path: a review of another title, or none, gives
    Http404. *)
Theorem comment_listing_is_scoped (w : World) (title_pk review_pk : Z)
    (table : Table) :
  match CommentViewSet.get_queryset w title_pk review_pk table with
  | Ok qs =>
      (exists review, In review (reviews w)
                      /\ review_id review = review_pk
                      /\ review_title review = title_pk)
      /\ forall c, In c qs <-> In c table /\ comment_review c = review_pk
  | Raise e =>
      e = Http404
      /\ forall r, In r (reviews w) -> review_id r = review_pk ->
                   review_title r <> title_pk
  end.
Proof.
  unfold CommentViewSet.get_queryset.
  destruct (CommentViewSet.get_review w title_pk review_pk) as [review|e] eqn:Hr.
  - apply get_review_found in Hr. destruct Hr as [Hin [Hid Htitle]].
    split; [exists review; auto |].
    intros c. rewrite filter_In, Z.eqb_eq, Hid. tauto.
  - apply get_review_missing in Hr. exact Hr.
Qed.

Lemma comment_is_valid_cases (data : CommentData) :
  match CommentSerializer_is_valid data with
  | Ok text =>
      refused (data_comment_text data) = false
      /\ exists s, data_comment_text data = Some s /\ text = Py.strip s
  | Raise e =>
      refused (data_comment_text data) = true
      /\ exists detail, e = ValidationError detail
  end.
Proof.
  unfold CommentSerializer_is_valid. rewrite plain_char_field. unfold refused.
  destruct (data_comment_text data) as [s|].
  - destruct (Py.strip s =? ""); [split; [reflexivity | eexists; reflexivity] |].
    destruct (has_null (Py.strip s)).
    + split; [reflexivity | eexists; reflexivity].
    + split; [reflexivity |]. exists s. auto.
  - split; [reflexivity | eexists; reflexivity].
Qed.

(** X19. A comment creation, outcome by outcome: the anonymous actor is
    answered NotAuthenticated, then a missing or blank text is refused
    (400), then a review that is not a review of the title of the path
    (404); otherwise one comment is added (201), written by the actor
    on that review, with the trimmed text. A creation is never answered
    PermissionDenied, and a refused request leaves the table as it
    was. *)
Theorem comment_creation_outcomes (request : Request) (w : World)
    (title_pk review_pk : Z) (data : CommentData) (table : Table) :
  Permissions.is_safe (method request) = false ->
  match CommentViewSet.create request w title_pk review_pk data table with
  | (Ok resp, table') =>
      exists u s,
        user request = Authenticated u
        /\ response_status resp = HTTP_201_CREATED
        /\ table' = table ++ [response_data resp]
        /\ comment_author (response_data resp) = user_id u
        /\ comment_review (response_data resp) = review_pk
        /\ data_comment_text data = Some s
        /\ comment_text (response_data resp) = Py.strip s
        /\ exists review, In review (reviews w)
                          /\ review_id review = review_pk
                          /\ review_title review = title_pk
  | (Raise NotAuthenticated, table') =>
      table' = table /\ user request = AnonymousUser
  | (Raise (ValidationError _), table') =>
      table' = table /\ is_authenticated (user request) = true
      /\ refused (data_comment_text data) = true
  | (Raise Http404, table') =>
      table' = table /\ is_authenticated (user request) = true
      /\ refused (data_comment_text data) = false
      /\ forall r, In r (reviews w) -> review_id r = review_pk ->
                   review_title r <> title_pk
  | (Raise _, table') => False
  end.
Proof.
  intros Hsafe. unfold CommentViewSet.create, CommentViewSet.perform_create,
    check_permissions, Permissions.IsStaffOrAuthorOrReadOnly.has_permission,
    permission_denied.
  rewrite Hsafe. cbn [orb].
  destruct (user request) as [|u]; cbn [is_authenticated];
    [split; reflexivity |].
  pose proof (comment_is_valid_cases data) as Hvalid.
  destruct (CommentSerializer_is_valid data) as [text|e].
  - destruct Hvalid as [Hok [s [Hs ->]]].
    destruct (CommentViewSet.get_review w title_pk review_pk) as [review|e]
      eqn:Hr.
    + apply get_review_found in Hr. destruct Hr as [Hin [Hid Htitle]].
      exists u, s.
      cbn [response_status response_data comment_author comment_review
           comment_text].
      repeat split; auto. exists review. auto.
    + apply get_review_missing in Hr. destruct Hr as [-> Hnone].
      repeat split; auto.
  - destruct Hvalid as [Href [detail ->]]. repeat split; auto.
Qed.

(** X20. Unlike reviews, comments are not limited to one per author: when a
    creation succeeded, the same request succeeds again. *)
Theorem comment_creation_repeats (request : Request) (w : World)
    (title_pk review_pk : Z) (data : CommentData) (table table' : Table)
    (resp : Response Comment) :
  CommentViewSet.create request w title_pk review_pk data table
  = (Ok resp, table') ->
  exists resp',
    CommentViewSet.create request w title_pk review_pk data table'
    = (Ok resp', table' ++ [response_data resp'])
    /\ comment_author (response_data resp')
       = comment_author (response_data resp)
    /\ comment_review (response_data resp')
       = comment_review (response_data resp).
Proof.
  unfold CommentViewSet.create, CommentViewSet.perform_create.
  destruct (check_permissions _ _); [| discriminate].
  destruct (CommentSerializer_is_valid data) as [text|e]; [| discriminate].
  destruct (CommentViewSet.get_review w title_pk review_pk) as [review|e];
    [| discriminate].
  destruct (user request) as [|u]; [discriminate |].
  intros [= <- <-]. eexists (mkResponse _ _). split; [reflexivity |].
  split; reflexivity.
Qed.

End CommentHandlers.

(** Bob comments on Alice's review of Solaris. *)
Lemma comment_creation_outcomes_witness :
  Permissions.is_safe (method (Demo.post Demo.bob)) = false
  /\ exists resp table',
       CommentViewSet.create (Demo.post Demo.bob) Demo.reviewed 1 1
         (mkCommentData (Some " well said ")) []
       = (Ok resp, table')
       /\ table' = [response_data resp]
       /\ comment_author (response_data resp) = user_id Demo.bob
       /\ comment_review (response_data resp) = 1.
Proof.
  split; [reflexivity |].
  pose proof (comment_creation_outcomes (Demo.post Demo.bob) Demo.reviewed 1 1
                (mkCommentData (Some " well said ")) [] eq_refl) as Hout.
  destruct (CommentViewSet.create (Demo.post Demo.bob) Demo.reviewed 1 1
              (mkCommentData (Some " well said ")) [])
    as [[resp|e] table'] eqn:Hrun.
  - exists resp, table'. split; [reflexivity |].
    destruct Hout as [u [s [Hu [_ [Htable [Hauthor [Hreview _]]]]]]].
    injection Hu as <-. auto.
  - vm_compute in Hrun. discriminate Hrun.
Defined.

(** Bob comments twice on the same review. *)
Lemma comment_creation_repeats_witness :
  exists resp',
    CommentViewSet.create (Demo.post Demo.bob) Demo.reviewed 1 1
      (mkCommentData (Some "well said"))
      [mkComment 1 1 "well said" 2 1000]
    = (Ok resp', [mkComment 1 1 "well said" 2 1000] ++ [response_data resp'])
    /\ comment_author (response_data resp') = 2
    /\ comment_review (response_data resp') = 1.
Proof.
  apply (comment_creation_repeats (Demo.post Demo.bob) Demo.reviewed 1 1
           (mkCommentData (Some "well said")) []
           [mkComment 1 1 "well said" 2 1000]
           (mkResponse (mkComment 1 1 "well said" 2 1000) HTTP_201_CREATED)
           eq_refl).
Defined.

Section CommentDeletion.

(** X21. Deleting a comment found under the title and review of the path: the
    author of the comment, a moderator, an admin and a superuser succeed
    (204) and exactly that comment is removed; any other authenticated
    actor is refused (403) and nothing is removed. *)
Theorem comment_deletion (w : World) (u : User) (qs : Table) (c : Comment)
    (title_pk review_pk pk : Z) (table : Table) :
  CommentViewSet.get_queryset w title_pk review_pk table = Ok qs ->
  find (fun x => (comment_id x =? pk)%Z) qs = Some c ->
  (staff_or_author (Authenticated u) (comment_author c) ->
   exists table',
     CommentViewSet.destroy (mkRequest "DELETE" (Authenticated u)) w
       title_pk review_pk pk table
     = (Ok (mkResponse tt HTTP_204_NO_CONTENT), table')
     /\ forall c', In c' table' <-> In c' table /\ comment_id c' <> pk)
  /\ (~ staff_or_author (Authenticated u) (comment_author c) ->
      CommentViewSet.destroy (mkRequest "DELETE" (Authenticated u)) w
        title_pk review_pk pk table
      = (Raise (PermissionDenied
                  Permissions.IsStaffOrAuthorOrReadOnly.message), table)).
Proof.
  intros Hqs Hc.
  assert (Hrun : CommentViewSet.destroy (mkRequest "DELETE" (Authenticated u)) w
                   title_pk review_pk pk table
                 = match authorize_object
                           (mkRequest "DELETE" (Authenticated u)) c with
                   | Raise e => (Raise e, table)
                   | Ok (deny reason) => (Raise (PermissionDenied reason), table)
                   | Ok allow =>
                       (Ok (mkResponse tt HTTP_204_NO_CONTENT),
                        filter (fun x => negb (comment_id x =? pk)%Z) table)
                   end).
  { unfold CommentViewSet.destroy.
    change (check_permissions
              (Permissions.IsStaffOrAuthorOrReadOnly.has_permission
                 (mkRequest "DELETE" (Authenticated u)))
              Permissions.IsStaffOrAuthorOrReadOnly.message) with allow.
    cbv iota. rewrite Hqs. unfold get_object_or_404. rewrite Hc. reflexivity. }
  rewrite Hrun.
  pose proof (has_object_permission_spec "DELETE" u c eq_refl) as Hspec.
  unfold authorize_object.
  change (Permissions.IsStaffOrAuthorOrReadOnly.has_permission
            (mkRequest "DELETE" (Authenticated u))) with true.
  cbv iota.
  destruct (Permissions.IsStaffOrAuthorOrReadOnly.has_object_permission
              (mkRequest "DELETE" (Authenticated u)) c)
    as [granted|e] eqn:Hobj; [| discriminate Hobj].
  specialize (Hspec granted eq_refl).
  change (author c) with (comment_author c) in Hspec.
  destruct granted; unfold check_permissions.
  - split.
    + intros _. eexists. split; [reflexivity |].
      intros c'. rewrite filter_In, negb_true_iff, Z.eqb_neq. tauto.
    + intros Hno. exfalso. apply Hno, Hspec. reflexivity.
  - split.
    + intros Hmay. apply Hspec in Hmay. discriminate Hmay.
    + intros _. reflexivity.
Qed.

End CommentDeletion.

(** The moderator removes Bob's comment. *)
Lemma comment_deletion_witness :
  exists table',
    CommentViewSet.destroy (Demo.delete Demo.mod_) Demo.reviewed 1 1 1
      [mkComment 1 1 "well said" 2 1000]
    = (Ok (mkResponse tt HTTP_204_NO_CONTENT), table')
    /\ forall c', In c' table'
                  <-> In c' [mkComment 1 1 "well said" 2 1000]
                      /\ comment_id c' <> 1.
Proof.
  apply (proj1 (comment_deletion Demo.reviewed Demo.mod_
                  [mkComment 1 1 "well said" 2 1000]
                  (mkComment 1 1 "well said" 2 1000) 1 1 1
                  [mkComment 1 1 "well said" 2 1000] eq_refl eq_refl)).
  cbn. right. right. left. reflexivity.
Defined.

(* ================================================================= *)
(** ** Deletion and the foreign keys *)

Section Deletion.

Lemma has_pk_spec {A} (pk : A -> Z) (table : list A) (k : Z) :
  Cascade.has_pk pk table k = true <-> exists row, In row table /\ pk row = k.
Proof.
  unfold Cascade.has_pk. rewrite existsb_exists.
  split; intros [row [Hin Heq]]; exists row; split; auto;
    apply Z.eqb_eq; exact Heq.
Qed.

Lemma references_ok_parts (s : Cascade.Tables) :
  Cascade.references_ok s = true
  <-> (forall r, In r (reviews (fst s)) ->
         Cascade.has_pk title_id (titles (fst s)) (review_title r) = true
         /\ Cascade.has_pk user_id (users (fst s)) (review_author r) = true)
      /\ (forall c, In c (snd s) ->
            Cascade.has_pk review_id (reviews (fst s)) (comment_review c) = true
            /\ Cascade.has_pk user_id (users (fst s)) (comment_author c) = true)
      /\ (forall t, In t (titles (fst s)) ->
            (forall c, title_category t = Some c ->
               Cascade.has_pk category_id (categories (fst s)) c = true)
            /\ (forall g, In g (title_genre t) ->
                  Cascade.has_pk genre_id (genres (fst s)) g = true)).
Proof.
  unfold Cascade.references_ok.
  rewrite !andb_true_iff, !forallb_forall.
  split.
  - intros [[Hr Hc] Ht]. split; [| split].
    + intros r Hin. apply andb_true_iff. apply Hr. exact Hin.
    + intros c Hin. apply andb_true_iff. apply Hc. exact Hin.
    + intros t Hin. specialize (Ht t Hin). apply andb_true_iff in Ht.
      destruct Ht as [Hcat Hgen]. split.
      * intros c Hsome. rewrite Hsome in Hcat. exact Hcat.
      * rewrite forallb_forall in Hgen. exact Hgen.
  - intros [Hr [Hc Ht]]. split; [split |].
    + intros r Hin. apply andb_true_iff. apply Hr. exact Hin.
    + intros c Hin. apply andb_true_iff. apply Hc. exact Hin.
    + intros t Hin. destruct (Ht t Hin) as [Hcat Hgen].
      apply andb_true_iff. split.
      * destruct (title_category t) as [c|]; [apply Hcat |]; reflexivity.
      * apply forallb_forall. exact Hgen.
Qed.

Lemma delete_reviews_rows (gone : Review -> bool) (s : Cascade.Tables) (r : Review) :
  In r (reviews (fst (Cascade.delete_reviews gone s)))
  <-> In r (reviews (fst s)) /\ gone r = false.
Proof.
  unfold Cascade.delete_reviews. cbn [fst reviews set_reviews].
  rewrite filter_In, negb_true_iff. tauto.
Qed.

Lemma delete_reviews_comments (gone : Review -> bool) (s : Cascade.Tables)
    (c : Comment) :
  In c (snd (Cascade.delete_reviews gone s))
  <-> In c (snd s)
      /\ forall r, In r (reviews (fst s)) -> review_id r = comment_review c ->
                   gone r = false.
Proof.
  unfold Cascade.delete_reviews. cbn [snd].
  rewrite filter_In, negb_true_iff. split.
  - intros [Hin Hex]. split; [exact Hin |]. intros r Hr Hid.
    destruct (gone r) eqn:Hg; [| reflexivity].
    assert (Htrue : existsb
                      (fun r => gone r && (review_id r =? comment_review c)%Z)
                      (reviews (fst s)) = true).
    { apply existsb_exists. exists r. split; [exact Hr |].
      rewrite Hg, Hid, Z.eqb_refl. reflexivity. }
    congruence.
  - intros [Hin Hnone]. split; [exact Hin |].
    destruct (existsb _ (reviews (fst s))) eqn:Hex; [| reflexivity].
    apply existsb_exists in Hex. destruct Hex as [r [Hr Hboth]].
    apply andb_true_iff in Hboth. destruct Hboth as [Hg Hid].
    apply Z.eqb_eq in Hid. rewrite (Hnone r Hr Hid) in Hg. discriminate Hg.
Qed.

Lemma delete_reviews_keeps_references (gone : Review -> bool)
    (s : Cascade.Tables) :
  Cascade.references_ok s = true ->
  Cascade.references_ok (Cascade.delete_reviews gone s) = true.
Proof.
  rewrite !references_ok_parts. intros [Hr [Hc Ht]]. split; [| split].
  - intros r Hin. apply delete_reviews_rows in Hin. apply Hr. apply Hin.
  - intros c Hin. apply delete_reviews_comments in Hin.
    destruct Hin as [Hin Hkept]. destruct (Hc c Hin) as [Hrev Huser].
    split; [| exact Huser].
    apply has_pk_spec in Hrev. destruct Hrev as [r [Hrin Hid]].
    apply has_pk_spec. exists r. split; [| exact Hid].
    apply delete_reviews_rows. split; [exact Hrin |].
    apply Hkept; assumption.
  - exact Ht.
Qed.

(** X22. Deleting a review takes its comments along and nothing else: the
    other reviews and the comments of other reviews stay, and every
    foreign key still points at a stored row. *)
Theorem review_delete_cascades (pk : Z) (s : Cascade.Tables) :
  Cascade.references_ok s = true ->
  Cascade.references_ok (Cascade.Review_delete pk s) = true
  /\ (forall r, In r (reviews (fst (Cascade.Review_delete pk s)))
                <-> In r (reviews (fst s)) /\ review_id r <> pk)
  /\ (forall c, In c (snd (Cascade.Review_delete pk s))
                <-> In c (snd s) /\ comment_review c <> pk)
  /\ titles (fst (Cascade.Review_delete pk s)) = titles (fst s)
  /\ users (fst (Cascade.Review_delete pk s)) = users (fst s).
Proof.
  intros Hok. unfold Cascade.Review_delete.
  split; [apply delete_reviews_keeps_references; exact Hok |].
  split; [| split; [| split; reflexivity]].
  - intros r. rewrite delete_reviews_rows, Z.eqb_neq. tauto.
  - intros c. rewrite delete_reviews_comments. split.
    + intros [Hin Hkept]. split; [exact Hin |]. intros Hpk.
      apply references_ok_parts in Hok. destruct Hok as [_ [Hc _]].
      destruct (Hc c Hin) as [Hrev _]. apply has_pk_spec in Hrev.
      destruct Hrev as [r [Hr Hid]]. specialize (Hkept r Hr Hid).
      apply Z.eqb_neq in Hkept. congruence.
    + intros [Hin Hne]. split; [exact Hin |]. intros r _ Hid.
      apply Z.eqb_neq. congruence.
Qed.

(** X23. Deleting a title takes its reviews and their comments along; the
    other titles and their reviews stay, and every foreign key still
    points at a stored row. *)
Theorem title_delete_cascades (pk : Z) (s : Cascade.Tables) :
  Cascade.references_ok s = true ->
  Cascade.references_ok (Cascade.Title_delete pk s) = true
  /\ (forall t, In t (titles (fst (Cascade.Title_delete pk s)))
                <-> In t (titles (fst s)) /\ title_id t <> pk)
  /\ (forall r, In r (reviews (fst (Cascade.Title_delete pk s)))
                <-> In r (reviews (fst s)) /\ review_title r <> pk)
  /\ (forall c, In c (snd (Cascade.Title_delete pk s)) ->
                In c (snd s)
                /\ exists r, In r (reviews (fst s)) /\ review_title r <> pk
                             /\ review_id r = comment_review c).
Proof.
  intros Hok.
  pose proof (delete_reviews_keeps_references
                (fun r => (review_title r =? pk)%Z) s Hok) as Hok'.
  assert (Hrows : forall r,
             In r (reviews (fst (Cascade.Title_delete pk s)))
             <-> In r (reviews (fst s)) /\ review_title r <> pk).
  { intros r. unfold Cascade.Title_delete. cbn [fst reviews set_titles].
    rewrite delete_reviews_rows, Z.eqb_neq. tauto. }
  assert (Htitles : forall t,
             In t (titles (fst (Cascade.Title_delete pk s)))
             <-> In t (titles (fst s)) /\ title_id t <> pk).
  { intros t. unfold Cascade.Title_delete, Cascade.delete_reviews.
    cbn [fst titles set_titles set_reviews].
    rewrite filter_In, negb_true_iff, Z.eqb_neq. tauto. }
  split; [| split; [exact Htitles | split; [exact Hrows |]]].
  - apply references_ok_parts in Hok'. destruct Hok' as [Hr [Hc Ht]].
    apply references_ok_parts. split; [| split].
    + intros r Hin. pose proof Hin as Hin'. apply Hrows in Hin'.
      destruct Hin' as [Hold Hne].
      assert (Hin0 : In r (reviews
                             (fst (Cascade.delete_reviews
                                     (fun r => (review_title r =? pk)%Z) s)))).
      { apply delete_reviews_rows. split; [exact Hold |].
        apply Z.eqb_neq. exact Hne. }
      destruct (Hr r Hin0) as [Htitle Huser]. split; [| exact Huser].
      apply has_pk_spec in Htitle. destruct Htitle as [t [Htin Hid]].
      apply has_pk_spec. exists t. split; [| exact Hid].
      apply Htitles. split; [exact Htin | congruence].
    + exact Hc.
    + intros t Hin. apply Htitles in Hin. destruct Hin as [Hin _].
      apply (Ht t). exact Hin.
  - intros c Hin. unfold Cascade.Title_delete in Hin. cbn [snd] in Hin.
    pose proof Hin as Hin'. apply delete_reviews_comments in Hin'.
    destruct Hin' as [Hold Hkept]. split; [exact Hold |].
    apply references_ok_parts in Hok. destruct Hok as [_ [Hc _]].
    destruct (Hc c Hold) as [Hrev _]. apply has_pk_spec in Hrev.
    destruct Hrev as [r [Hr Hid]]. exists r. split; [exact Hr |].
    split; [| exact Hid]. apply Z.eqb_neq. apply Hkept; assumption.
Qed.

End Deletion.

Section DeletionOfOwners.

Lemma has_pk_map {A} (pk : A -> Z) (f : A -> A) (table : list A) (k : Z) :
  (forall row, pk (f row) = pk row) ->
  Cascade.has_pk pk (map f table) k = Cascade.has_pk pk table k.
Proof.
  intros Hf. unfold Cascade.has_pk. induction table as [|x xs IH]; [reflexivity |].
  cbn. rewrite Hf, IH. reflexivity.
Qed.

(** X24. Deleting a category deletes no title: the titles keep their keys and
    every other field, those of the category lose it (null), and every
    foreign key still points at a stored row. *)
Theorem category_delete_sets_null (pk : Z) (w : World) (table : Comments.Table) :
  Cascade.references_ok (w, table) = true ->
  Cascade.references_ok (Cascade.Category_delete pk w, table) = true
  /\ map title_id (titles (Cascade.Category_delete pk w))
     = map title_id (titles w)
  /\ (forall t', In t' (titles (Cascade.Category_delete pk w)) ->
        title_category t' <> Some pk
        /\ exists t, In t (titles w)
             /\ title_id t' = title_id t /\ title_name t' = title_name t
             /\ title_year t' = title_year t /\ title_genre t' = title_genre t
             /\ title_rating t' = title_rating t
             /\ title_description t' = title_description t
             /\ (title_category t <> Some pk ->
                 title_category t' = title_category t))
  /\ (forall c, In c (categories (Cascade.Category_delete pk w))
                <-> In c (categories w) /\ category_id c <> pk)
  /\ reviews (Cascade.Category_delete pk w) = reviews w.
Proof.
  intros Hok.
  set (f := fun t =>
              match title_category t with
              | Some c =>
                  if (c =? pk)%Z
                  then mkTitle (title_id t) (title_name t) (title_year t) None
                               (title_genre t) (title_rating t)
                               (title_description t)
                  else t
              | None => t
              end).
  assert (Hid : forall t, title_id (f t) = title_id t).
  { intros t. unfold f. destruct (title_category t) as [c|]; [| reflexivity].
    destruct (c =? pk)%Z; reflexivity. }
  assert (Htitles : titles (Cascade.Category_delete pk w) = map f (titles w))
    by reflexivity.
  assert (Hcats : forall c, In c (categories (Cascade.Category_delete pk w))
                            <-> In c (categories w) /\ category_id c <> pk).
  { intros c. unfold Cascade.Category_delete.
    cbn [categories Cascade.set_categories].
    rewrite filter_In, negb_true_iff, Z.eqb_neq. tauto. }
  split; [| split; [| split; [| split; [exact Hcats | reflexivity]]]].
  - apply references_ok_parts in Hok. cbn [fst snd] in Hok.
    destruct Hok as [Hr [Hc Ht]].
    apply references_ok_parts. cbn [fst snd]. split; [| split].
    + intros r Hin. destruct (Hr r Hin) as [Htitle Huser].
      split; [| exact Huser]. rewrite Htitles, has_pk_map; assumption.
    + exact Hc.
    + intros t' Hin. rewrite Htitles in Hin. apply in_map_iff in Hin.
      destruct Hin as [t [<- Hin]]. destruct (Ht t Hin) as [Hcat Hgen].
      unfold f. destruct (title_category t) as [c|] eqn:Hc0.
      * destruct (c =? pk)%Z eqn:Heq.
        -- split; [intros c' Hsome; discriminate Hsome | exact Hgen].
        -- split; [| exact Hgen]. intros c' Hsome. rewrite Hc0 in Hsome.
           injection Hsome as <-.
           specialize (Hcat c eq_refl). apply has_pk_spec in Hcat.
           destruct Hcat as [row [Hrow Hrid]]. apply has_pk_spec.
           exists row. split; [| exact Hrid]. apply Hcats.
           split; [exact Hrow |]. apply Z.eqb_neq in Heq. congruence.
      * split; [| exact Hgen]. intros c' Hsome. rewrite Hc0 in Hsome.
        discriminate Hsome.
  - rewrite Htitles, map_map. apply map_ext. exact Hid.
  - intros t' Hin. rewrite Htitles in Hin. apply in_map_iff in Hin.
    destruct Hin as [t [<- Hin]]. unfold f.
    destruct (title_category t) as [c|] eqn:Hc0.
    + destruct (c =? pk)%Z eqn:Heq.
      * split; [discriminate |]. exists t. cbn. rewrite Hc0.
        apply Z.eqb_eq in Heq. subst c.
        repeat split; auto. intros Hne. congruence.
      * split; [rewrite Hc0; apply Z.eqb_neq in Heq; congruence |].
        exists t. repeat split; auto.
    + split; [rewrite Hc0; discriminate |]. exists t. repeat split; auto.
Qed.

(** X25. Deleting a user takes along the reviews and the comments the user
    wrote, and the comments on those reviews; every foreign key still
    points at a stored row. *)
Theorem user_delete_cascades (pk : Z) (s : Cascade.Tables) :
  Cascade.references_ok s = true ->
  Cascade.references_ok (Cascade.User_delete pk s) = true
  /\ (forall u, In u (users (fst (Cascade.User_delete pk s)))
                <-> In u (users (fst s)) /\ user_id u <> pk)
  /\ (forall r, In r (reviews (fst (Cascade.User_delete pk s)))
                <-> In r (reviews (fst s)) /\ review_author r <> pk)
  /\ (forall c, In c (snd (Cascade.User_delete pk s)) ->
                In c (snd s) /\ comment_author c <> pk)
  /\ titles (fst (Cascade.User_delete pk s)) = titles (fst s).
Proof.
  intros Hok.
  pose proof (delete_reviews_keeps_references
                (fun r => (review_author r =? pk)%Z) s Hok) as Hok'.
  assert (Husers : forall u,
             In u (users (fst (Cascade.User_delete pk s)))
             <-> In u (users (fst s)) /\ user_id u <> pk).
  { intros u. unfold Cascade.User_delete, Cascade.delete_reviews.
    cbn [fst users set_users set_reviews].
    rewrite filter_In, negb_true_iff, Z.eqb_neq. tauto. }
  assert (Hrows : forall r,
             In r (reviews (fst (Cascade.User_delete pk s)))
             <-> In r (reviews (fst s)) /\ review_author r <> pk).
  { intros r. unfold Cascade.User_delete. cbn [fst reviews set_users].
    rewrite delete_reviews_rows, Z.eqb_neq. tauto. }
  assert (Hcomments : forall c,
             In c (snd (Cascade.User_delete pk s))
             <-> In c (snd (Cascade.delete_reviews
                              (fun r => (review_author r =? pk)%Z) s))
                 /\ comment_author c <> pk).
  { intros c. unfold Cascade.User_delete. cbn [snd].
    rewrite filter_In, negb_true_iff, Z.eqb_neq. tauto. }
  split; [| split; [exact Husers | split; [exact Hrows | split; [| reflexivity]]]].
  - apply references_ok_parts in Hok'. destruct Hok' as [Hr [Hc Ht]].
    apply references_ok_parts. split; [| split].
    + intros r Hin. pose proof Hin as Hin'. apply Hrows in Hin'.
      destruct Hin' as [Hold Hne].
      assert (Hin0 : In r (reviews
                             (fst (Cascade.delete_reviews
                                     (fun r => (review_author r =? pk)%Z) s)))).
      { apply delete_reviews_rows. split; [exact Hold |].
        apply Z.eqb_neq. exact Hne. }
      destruct (Hr r Hin0) as [Htitle Huser]. split; [exact Htitle |].
      apply has_pk_spec in Huser. destruct Huser as [u [Huin Hid]].
      apply has_pk_spec. exists u. split; [| exact Hid].
      apply Husers. split; [exact Huin | congruence].
    + intros c Hin. apply Hcomments in Hin. destruct Hin as [Hin Hne].
      destruct (Hc c Hin) as [Hrev Huser]. split; [exact Hrev |].
      apply has_pk_spec in Huser. destruct Huser as [u [Huin Hid]].
      apply has_pk_spec. exists u. split; [| exact Hid].
      apply Husers. split; [exact Huin | congruence].
    + exact Ht.
  - intros c Hin. apply Hcomments in Hin. destruct Hin as [Hin Hne].
    apply delete_reviews_comments in Hin. split; [apply Hin | exact Hne].
Qed.

End DeletionOfOwners.

(** Alice's review of Solaris goes, and Bob's comment on it with it. *)
Lemma review_delete_cascades_witness :
  Cascade.references_ok
    (Cascade.Review_delete 1
       (Demo.reviewed, [mkComment 1 1 "well said" 2 1000])) = true
  /\ snd (Cascade.Review_delete 1
            (Demo.reviewed, [mkComment 1 1 "well said" 2 1000])) = [].
Proof.
  split; [| reflexivity].
  apply (proj1 (review_delete_cascades 1
                  (Demo.reviewed, [mkComment 1 1 "well said" 2 1000])
                  eq_refl)).
Defined.

(** Solaris goes, with both reviews and the comment. *)
Lemma title_delete_cascades_witness :
  Cascade.references_ok
    (Cascade.Title_delete 1
       (Demo.reviewed, [mkComment 1 1 "well said" 2 1000])) = true
  /\ reviews (fst (Cascade.Title_delete 1
                     (Demo.reviewed, [mkComment 1 1 "well said" 2 1000])))
     = [].
Proof.
  split; [| reflexivity].
  apply (proj1 (title_delete_cascades 1
                  (Demo.reviewed, [mkComment 1 1 "well said" 2 1000])
                  eq_refl)).
Defined.

(** The category Film goes; Solaris stays, without a category. *)
Lemma category_delete_sets_null_witness :
  Cascade.references_ok
    (Cascade.Category_delete 1 Demo.reviewed,
     [mkComment 1 1 "well said" 2 1000]) = true
  /\ titles (Cascade.Category_delete 1 Demo.reviewed)
     = [mkTitle 1 "Solaris" 1972 None [1] 10 None].
Proof.
  split; [| reflexivity].
  apply (proj1 (category_delete_sets_null 1 Demo.reviewed
                  [mkComment 1 1 "well said" 2 1000] eq_refl)).
Defined.

(** Bob goes, with his review and his comment. *)
Lemma user_delete_cascades_witness :
  Cascade.references_ok
    (Cascade.User_delete 2
       (Demo.reviewed, [mkComment 1 1 "well said" 2 1000])) = true
  /\ map review_author
         (reviews (fst (Cascade.User_delete 2
                          (Demo.reviewed, [mkComment 1 1 "well said" 2 1000]))))
     = [1]
  /\ snd (Cascade.User_delete 2
            (Demo.reviewed, [mkComment 1 1 "well said" 2 1000])) = [].
Proof.
  split; [| split; reflexivity].
  apply (proj1 (user_delete_cascades 2
                  (Demo.reviewed, [mkComment 1 1 "well said" 2 1000])
                  eq_refl)).
Defined.

(* ================================================================= *)
(** ** Users: the update by an administrator *)

Section UserUpdates.
Context {E : Env}.

(** The update of a user, path by path. *)
Lemma user_update_cases (request : Request) (name : string) (partial : bool)
    (data : UserData) (w : World) :
  UserAdmin.update request name partial data w
  = if Permissions.IsAdmin.has_permission request then
      match find (fun u => username u =? name) (users w) with
      | None => (Raise Http404, w)
      | Some u =>
          match UserSerializer_is_valid (users w) (Some u) partial data with
          | Raise e => (Raise e, w)
          | Ok v =>
              match user_constraints
                      (filter (fun r => negb (user_id r =? user_id (set_attrs v u))%Z)
                              (users w))
                      (set_attrs v u) with
              | Raise e => (Raise e, w)
              | Ok _ =>
                  (Ok (mkResponse (set_attrs v u) HTTP_200_OK),
                   set_users w (replace_user (set_attrs v u) (users w)))
              end
          end
      end
    else (Raise (permission_denied
                   request
                   "You do not have permission to perform this action."), w).
Proof.
  unfold UserAdmin.update, UserAdmin.get_object, User_save, update_user,
    get_object_or_404.
  unfold_handler.
  destruct (Permissions.IsAdmin.has_permission request); cbv beta iota;
    [| reflexivity].
  destruct (find _ (users w)) as [u|]; cbv beta iota; [| reflexivity].
  destruct (UserSerializer_is_valid _ _ _ _) as [v|e]; cbv beta iota;
    [| reflexivity].
  destruct (user_constraints _ _) as [[]|e]; reflexivity.
Qed.

(** What [UserSerializer] lets through on an update. *)
Lemma user_update_valid (stored : list User) (u : User) (partial : bool)
    (data : UserData) (v : UserValidated) :
  UserSerializer_is_valid stored (Some u) partial data = Ok v ->
  match data_username data with
  | Some s =>
      uv_username v = Some (Py.strip s)
      /\ existsb (fun r => (username r =? Py.strip s)
                           && negb (user_id r =? user_id u)%Z) stored = false
  | None => uv_username v = None
  end
  /\ uv_role v = data_role data
  /\ (forall r, data_role data = Some r -> In r ROLES).
Proof.
  unfold UserSerializer_is_valid. intros Hv.
  apply raise_errors_ok in Hv. destruct Hv as [Herr ->].
  apply app_eq_nil in Herr. destruct Herr as [Huser Herr].
  repeat (apply app_eq_nil in Herr; destruct Herr as [? Herr]).
  cbn [uv_username uv_role]. split; [| split].
  - destruct (data_username data) as [s|]; cbn [run_field] in Huser |- *.
    + pose proof (CharField_shape false
                    [UniqueValidator username user_id stored (pk_of (Some u))] s)
        as Hshape.
      destruct (CharField false _ s) as [|x|m] eqn:Hf;
        [contradiction | | discriminate Huser].
      apply CharField_accepts in Hf. destruct Hf as [-> Hall].
      split; [reflexivity |].
      specialize (Hall _ _ (or_introl eq_refl)). cbn in Hall.
      apply negb_true_iff in Hall. exact Hall.
    + destruct (true && negb partial); reflexivity.
  - destruct (data_role data) as [r|]; cbn [run_field].
    + unfold ChoiceField in *. cbn [run_field] in Herr.
      destruct (Py.str_in r ROLES); [reflexivity | discriminate Herr].
    + destruct (false && negb partial); reflexivity.
  - intros r Hr. rewrite Hr in Herr. cbn [run_field] in Herr.
    unfold ChoiceField in Herr.
    destruct (Py.str_in r ROLES) eqn:Hin; [| discriminate Herr].
    unfold Py.str_in in Hin. apply existsb_exists in Hin.
    destruct Hin as [x [Hx Heq]]. apply String.eqb_eq in Heq. subst x.
    exact Hx.
Qed.

(** X26. The update of a user by user name, outcome by outcome, on a
    well-formed user table. The anonymous actor is answered
    NotAuthenticated, an authenticated actor who is not an admin or
    superuser PermissionDenied; an unknown user name gives Http404; a
    refused field gives a ValidationError; the one other failure is a
    rename to the reserved name, stopped by the store. Otherwise (200)
    the row of that user is replaced: the key and the superuser flag
    stay, and the role is the submitted one, one of the three roles, or
    stays when none is submitted; the table stays well-formed. Nothing is
    written unless the update succeeds. *)
Theorem user_update_outcomes (request : Request) (name : string)
    (partial : bool) (data : UserData) (w : World) :
  users_ok w ->
  match UserAdmin.update request name partial data w with
  | (Ok resp, w') =>
      admin_or_superuser (user request)
      /\ response_status resp = HTTP_200_OK
      /\ users_ok w'
      /\ w' = set_users w (replace_user (response_data resp) (users w))
      /\ (forall r, data_role data = Some r -> In r ROLES)
      /\ exists u,
           In u (users w) /\ username u = name
           /\ user_id (response_data resp) = user_id u
           /\ is_superuser (response_data resp) = is_superuser u
           /\ role (response_data resp) = with_default (data_role data) (role u)
  | (Raise NotAuthenticated, w') =>
      w' = w /\ user request = AnonymousUser
  | (Raise (PermissionDenied _), w') =>
      w' = w /\ is_authenticated (user request) = true
      /\ ~ admin_or_superuser (user request)
  | (Raise Http404, w') =>
      w' = w /\ admin_or_superuser (user request)
      /\ ~ In name (map username (users w))
  | (Raise (ValidationError detail), w') =>
      w' = w /\ admin_or_superuser (user request)
  | (Raise (IntegrityError constraint), w') =>
      w' = w /\ admin_or_superuser (user request)
      /\ constraint = "username_is_not_me"
      /\ exists s, data_username data = Some s
                   /\ Py.lower (Py.strip s) = "me"
  | (Raise _, w') => False
  end.
Proof.
  intros Hw. rewrite user_update_cases.
  pose proof (is_admin_permission request) as Hadmin.
  destruct (Permissions.IsAdmin.has_permission request).
  2:{ unfold permission_denied. destruct (user request) as [|actor].
      - split; reflexivity.
      - split; [reflexivity |]. split; [reflexivity |].
        intros Hno. apply Hadmin in Hno. discriminate Hno. }
  assert (Hmay : admin_or_superuser (user request)) by (apply Hadmin; reflexivity).
  destruct (find (fun u => username u =? name) (users w)) as [u|] eqn:Hfind.
  2:{ split; [reflexivity |]. split; [exact Hmay |].
      apply name_not_stored. apply find_none_existsb. exact Hfind. }
  apply find_some in Hfind. destruct Hfind as [Hin Hname].
  apply String.eqb_eq in Hname.
  destruct (UserSerializer_is_valid (users w) (Some u) partial data)
    as [v|e] eqn:Hv.
  2:{ unfold UserSerializer_is_valid in Hv.
      destruct (raise_errors_raises _ _ _ Hv) as [detail ->].
      split; [reflexivity | exact Hmay]. }
  apply user_update_valid in Hv. destruct Hv as [Huser [Hrole Hroles]].
  destruct Hw as [Hpk [Hnames Hme]].
  assert (Hother : forall r, In r (users w) -> user_id r <> user_id u ->
                             username r <> username u).
  { intros r Hr Hne Hsame. apply Hne. f_equal.
    apply (same_key_same_row username (users w) u r Hnames Hin Hr Hsame). }
  unfold user_constraints.
  destruct (username_is_not_me (username (set_attrs v u))) eqn:Hnot;
    cbn [negb].
  - destruct (existsb _ (filter _ (users w))) eqn:Hex.
    + exfalso. rewrite existsb_filter in Hex.
      apply existsb_exists in Hex. destruct Hex as [r [Hr Hboth]].
      apply andb_true_iff in Hboth. destruct Hboth as [Hsame Hne].
      cbn [set_attrs username user_id] in Hsame, Hne.
      destruct (data_username data) as [s|].
      * destruct Huser as [Hu Hfree]. rewrite Hu in Hsame.
        cbn [with_default] in Hsame.
        assert (Htrue : existsb (fun r => (username r =? Py.strip s)
                                          && negb (user_id r =? user_id u)%Z)
                                (users w) = true).
        { apply existsb_exists. exists r. split; [exact Hr |].
          rewrite Hsame, Hne. reflexivity. }
        congruence.
      * rewrite Huser in Hsame. cbn [with_default] in Hsame.
        apply String.eqb_eq in Hsame. apply negb_true_iff, Z.eqb_neq in Hne.
        exact (Hother r Hr Hne Hsame).
    + cbn [response_status response_data].
      split; [exact Hmay |]. split; [reflexivity |].
      split; [| split; [reflexivity | split; [exact Hroles |]]].
      * apply users_ok_replace; [split; [| split]; assumption |].
        unfold user_constraints. rewrite Hnot, Hex. reflexivity.
      * exists u. cbn [set_attrs user_id is_superuser role].
        rewrite Hrole. repeat split; auto.
  - split; [reflexivity |]. split; [exact Hmay |]. split; [reflexivity |].
    cbn [set_attrs username] in Hnot.
    destruct (data_username data) as [s|].
    + destruct Huser as [Hu _]. rewrite Hu in Hnot. cbn [with_default] in Hnot.
      exists s. split; [reflexivity |].
      unfold username_is_not_me in Hnot. apply negb_false_iff in Hnot.
      apply String.eqb_eq. exact Hnot.
    + exfalso. rewrite Huser in Hnot. cbn [with_default] in Hnot.
      rewrite Forall_forall in Hme. rewrite (Hme u Hin) in Hnot.
      discriminate Hnot.
Qed.

End UserUpdates.

(** The admin of the demo deployment makes Bob a moderator. *)
Lemma user_update_outcomes_witness :
  users_ok Demo.world
  /\ exists resp w',
       UserAdmin.update (E := Demo.env) (Demo.patch Demo.root) "bob" true
         (mkUserData None None None None None (Some "moderator")) Demo.world
       = (Ok resp, w')
       /\ role (response_data resp) = "moderator"
       /\ users_ok w'.
Proof.
  split; [exact demo_users_ok |].
  pose proof (user_update_outcomes (E := Demo.env) (Demo.patch Demo.root) "bob"
                true (mkUserData None None None None None (Some "moderator"))
                Demo.world demo_users_ok) as Hout.
  destruct (UserAdmin.update (E := Demo.env) (Demo.patch Demo.root) "bob" true
              (mkUserData None None None None None (Some "moderator"))
              Demo.world) as [[resp|e] w'] eqn:Hrun.
  - exists resp, w'. split; [reflexivity |].
    destruct Hout as [_ [_ [Hok [_ [_ [u [_ [_ [_ [_ Hrole]]]]]]]]]].
    split; [exact Hrole | exact Hok].
  - vm_compute in Hrun. discriminate Hrun.
Defined.
